(** * RateMyCouncil: metric normalisation, estimation and scoring

    A shallow embedding of the computational core of the RateMyCouncil API
    ([scoring.py], [metrics_framework.py], [data_ingestion.py]) together with
    the properties its specification states about it.

    Modelling conventions.
    - Python [float] and [int] arithmetic is modelled by exact rationals
      ([Q]); rounding error of binary64 is abstracted away.  Results are
      compared with [==] ([Qeq]).
    - Where the two arithmetics can part company (a value that sits on a
      decimal tie when it is rounded, a score exactly three standard
      deviations from the mean, the mean of values that are not whole
      numbers) the theorems state bounds and relations that hold in both,
      and say nothing about which way the tie goes.  Inputs are taken from
      the range in which the float operations of the source cannot
      overflow.
    - A Python [dict] whose iteration order matters is an association list
      in insertion order.
    - Code that may raise returns a [result]; [try: ... except:] is
      [try_except].
    - Database tables are lists of rows; a query is a [filter] over them. *)

From Stdlib Require Import List String Ascii Bool Arith ZArith QArith Qround Qabs Qminmax.
From Stdlib Require Import Reals Qreals Lia Psatz Sorting.Sorted Sorting.Permutation.
From Stdlib Require Floats.PrimFloat.
Import ListNotations.

Local Open Scope Q_scope.

(* ===================================================================== *)
(** * Python runtime model *)
(* ===================================================================== *)

Module Py.

(** Exceptions the modelled code can meet. *)
Inductive py_exn : Type :=
  | SyntaxError | NameError | ZeroDivisionError | TypeError | KeyError.

Inductive result (A : Type) : Type :=
  | Ok (a : A)
  | Raise (e : py_exn).
Arguments Ok {A} a.
Arguments Raise {A} e.

Definition bind {A B} (c : result A) (k : A -> result B) : result B :=
  match c with
  | Ok a => k a
  | Raise e => Raise e
  end.

(** [try: body except: handler] with a bare [except]. *)
Definition try_except {A} (body : result A) (handler : py_exn -> result A) : result A :=
  match body with
  | Ok a => Ok a
  | Raise e => handler e
  end.

(** Values stored in the loosely typed dictionaries. *)
Inductive py_value : Type :=
  | PyNone
  | PyInt (z : Z)
  | PyFloat (q : Q)
  | PyStr (s : string).

(** Truth value of an object in a condition. *)
Definition truthy (v : py_value) : bool :=
  match v with
  | PyNone => false
  | PyInt z => negb (z =? 0)%Z
  | PyFloat q => negb (Qeq_bool q 0)
  | PyStr s => negb (s =? EmptyString)%string
  end.

Definition is_none (v : py_value) : bool :=
  match v with PyNone => true | _ => false end.

(** The number a numeric object stands for. *)
Definition as_number (v : py_value) : option Q :=
  match v with
  | PyInt z => Some (inject_Z z)
  | PyFloat q => Some q
  | _ => None
  end.

(** Binary arithmetic raises [TypeError] on a non-number. *)
Definition num_op (f : Q -> Q -> Q) (a b : py_value) : result Q :=
  match as_number a, as_number b with
  | Some x, Some y => Ok (f x y)
  | _, _ => Raise TypeError
  end.

(** [d.get(key)] and [key in d] on an insertion-ordered dictionary. *)
Fixpoint dict_get {V} (key : string) (d : list (string * V)) : option V :=
  match d with
  | [] => None
  | (k, v) :: rest => if (k =? key)%string then Some v else dict_get key rest
  end.

Definition dict_mem {V} (key : string) (d : list (string * V)) : bool :=
  match dict_get key d with Some _ => true | None => false end.

(** [d[key] = v]: an existing key keeps its position. *)
Fixpoint dict_set {V} (key : string) (v : V) (d : list (string * V)) : list (string * V) :=
  match d with
  | [] => [(key, v)]
  | (k, w) :: rest =>
      if (k =? key)%string then (k, v) :: rest else (k, w) :: dict_set key v rest
  end.

(** [d.update(e)] *)
Definition dict_update {V} (d e : list (string * V)) : list (string * V) :=
  fold_left (fun acc kv => dict_set (fst kv) (snd kv) acc) e d.

(** ** Numbers *)

Definition of_nat (n : nat) : Q := inject_Z (Z.of_nat n).

(** [sum(l)]: starts from 0 and adds from the left. *)
Definition sum (l : list Q) : Q := fold_left Qplus l 0.

Definition Qle_b (a b : Q) : bool := Qle_bool a b.
Definition Qlt_b (a b : Q) : bool := negb (Qle_bool b a).

(** Nearest integer, ties to the even one. *)
Definition round_half_even (q : Q) : Z :=
  let f := Qfloor q in
  match Qcompare (q - inject_Z f) (1 # 2) with
  | Lt => f
  | Gt => (f + 1)%Z
  | Eq => if Z.even f then f else (f + 1)%Z
  end.

(** [round(q, ndigits)] *)
Definition round (q : Q) (ndigits : nat) : Q :=
  let p := inject_Z (10 ^ Z.of_nat ndigits) in
  inject_Z (round_half_even (q * p)) / p.

(** [sorted(l)]: a stable insertion sort, ascending. *)
Fixpoint insert_sorted (x : Q) (l : list Q) : list Q :=
  match l with
  | [] => [x]
  | y :: rest => if Qle_b x y then x :: y :: rest else y :: insert_sorted x rest
  end.

Definition sorted (l : list Q) : list Q := fold_right insert_sorted [] l.

(** [max(l)] and [min(l)] keep the earliest of equal candidates; on an empty
    list the source would raise, and every call site guards against it. *)
Definition max_of (first : Q) (rest : list Q) : Q :=
  fold_left (fun m x => if Qlt_b m x then x else m) rest first.

Definition min_of (first : Q) (rest : list Q) : Q :=
  fold_left (fun m x => if Qlt_b x m then x else m) rest first.

(** ** Strings *)

Definition lower_ascii (c : ascii) : ascii :=
  let n := nat_of_ascii c in
  if ((65 <=? n) && (n <=? 90))%nat then ascii_of_nat (n + 32) else c.

(** [s.lower()] on ASCII text. *)
Fixpoint lower (s : string) : string :=
  match s with
  | EmptyString => EmptyString
  | String c rest => String (lower_ascii c) (lower rest)
  end.

(** Scan for [s.replace(old, new)] with a non-empty [old]; [skip] counts the
    characters of a match still to be passed over. *)
Fixpoint replace_scan (old new s : string) (skip : nat) : string :=
  match s with
  | EmptyString => EmptyString
  | String c rest =>
      match skip with
      | S k => replace_scan old new rest k
      | O =>
          if prefix old s
          then new ++ replace_scan old new rest (String.length old - 1)
          else String c (replace_scan old new rest 0)
      end
  end.

(** With an empty [old], [new] goes before every character and at the end. *)
Fixpoint replace_empty (new s : string) : string :=
  match s with
  | EmptyString => new
  | String c rest => new ++ String c (replace_empty new rest)
  end.

(** [s.replace(old, new)] *)
Definition replace (old new s : string) : string :=
  match old with
  | EmptyString => replace_empty new s
  | _ => replace_scan old new s 0
  end.

(** [sub in s] *)
Fixpoint contains (sub s : string) : bool :=
  prefix sub s ||
  match s with
  | EmptyString => false
  | String _ rest => contains sub rest
  end.

(** Characters [str.split()] treats as separators (ASCII). *)
Definition is_space (c : ascii) : bool :=
  let n := nat_of_ascii c in
  ((9 <=? n) && (n <=? 13) || (28 <=? n) && (n <=? 32))%nat.

(** [cur] holds the characters of the word being read, last one first. *)
Fixpoint split_scan (s : string) (cur : list ascii) : list string :=
  let flush := match cur with
               | [] => []
               | _ => [string_of_list_ascii (rev cur)]
               end in
  match s with
  | EmptyString => flush
  | String c rest =>
      if is_space c then flush ++ split_scan rest []
      else split_scan rest (c :: cur)
  end.

(** [s.split()] *)
Definition split (s : string) : list string := split_scan s [].

(** [set(l)]: the distinct elements. *)
Definition to_set (l : list string) : list string := nodup string_dec l.

Definition set_mem (x : string) (s : list string) : bool :=
  existsb (String.eqb x) s.

(** [a.intersection(b)] *)
Definition intersection (a b : list string) : list string :=
  filter (fun x => set_mem x b) a.

(** Decimal digits of a non-negative integer, for [str] of an [int]; the
    number of binary digits bounds the number of decimal ones. *)
Fixpoint digits_fuel (fuel : nat) (n : Z) (acc : string) : string :=
  match fuel with
  | O => acc
  | S f =>
      let acc' := String (ascii_of_N (48 + Z.to_N (n mod 10))) acc in
      if (n / 10 =? 0)%Z then acc' else digits_fuel f (n / 10) acc'
  end.

Definition str_nat (n : Z) : string :=
  digits_fuel (S (Z.to_nat (Z.log2 n))) n EmptyString.

Definition str_int (z : Z) : string :=
  if (z <? 0)%Z then String "-" (str_nat (Z.abs z)) else str_nat z.

(** The interpreter's own services the code relies on: [eval] restricted to
    empty builtins, and the text [str] gives for a [float]. *)
Class Builtins : Type := {
  eval : string -> result py_value;
  float_repr : Q -> string
}.

(** [str(v)] *)
Definition str `{Builtins} (v : py_value) : string :=
  match v with
  | PyNone => "None"
  | PyInt z => str_int z
  | PyFloat q => float_repr q
  | PyStr s => s
  end.

End Py.

Notation "x <- c ;; k" := (Py.bind c (fun x => k))
  (at level 61, c at next level, right associativity).

(* ===================================================================== *)
(** * The database, as the modelled code reads it *)
(* ===================================================================== *)

Module Models.

(** A [datetime] is a count of microseconds; [timedelta(days=d)]. *)
Definition datetime := Z.
Definition timedelta_days (d : Z) : Z := (d * 86400000000)%Z.

Record Council : Type := {
  id : Z;
  name : string;
  state : string;
  population : option Z;
  area_km2 : option Q
}.

Record CouncilMetrics : Type := {
  cm_council_id : Z;
  cm_year : Z;
  cm_rates_revenue : option Q;
  cm_total_revenue : option Q;
  cm_total_expenditure : option Q;
  cm_operating_deficit : option Q;
  cm_population_served : option Z;
  cm_area_km2 : option Q;
  cm_roads_maintained_km : option Q;
  cm_customer_satisfaction : option Q;
  cm_service_delivery_score : option Q
}.

Record Rating : Type := {
  r_user_id : option Z;
  r_council_id : Z;
  r_service_category : option string;
  r_rating : Q;
  r_moderation_status : string;
  r_created_at : datetime
}.

Record IssueReport : Type := {
  i_council_id : Z;
  i_status : string;
  i_priority : string;
  i_resolution_time_days : option Z;
  i_created_at : datetime
}.

(** The session: the tables in storage order and the clock. *)
Record Session : Type := {
  councils : list Council;
  council_metrics : list CouncilMetrics;
  ratings : list Rating;
  issue_reports : list IssueReport;
  now : datetime
}.

End Models.

(* ===================================================================== *)
(** * scoring.py *)
(* ===================================================================== *)

Module Scoring.
Import Py Models.

Inductive Confidence : Type := high | medium | low | very_low.

(** The dictionaries the queries hand to the scoring functions. *)
Record BaseMetrics : Type := {
  customer_satisfaction : option Q;
  service_delivery_score : option Q;
  rates_revenue : option Q;
  total_revenue : option Q;
  population : option Z
}.

Record RatingDict : Type := {
  rating : Q;
  service_category : option string;
  created_at : datetime;
  user_id : option Z
}.

Record IssueDict : Type := {
  status : string;
  issue_created_at : datetime;
  resolution_time_days : option Z;
  priority : string
}.

(** A component's result; a key the source leaves out is [None]. *)
Record ScoreDict : Type := {
  score : Q;
  confidence : Confidence;
  reason : option string;
  sample_size : option nat;
  data_sources : option nat;
  rates_per_capita : option Q;
  avg_resolution_days : option Q;
  resolved_issues : option nat
}.

Definition insufficient (why : string) : ScoreDict :=
  {| score := 50; confidence := low; reason := Some why;
     sample_size := None; data_sources := None; rates_per_capita := None;
     avg_resolution_days := None; resolved_issues := None |}.

Record Weights : Type := {
  w_customer_satisfaction : Q;
  w_service_delivery : Q;
  w_value_for_rates : Q;
  w_responsiveness : Q
}.

Record ScoringEngine : Type := { weights : Weights }.

(** [ScoringEngine.__init__] *)
Definition init : ScoringEngine :=
  {| weights := {| w_customer_satisfaction := 0.4;
                   w_service_delivery := 0.3;
                   w_value_for_rates := 0.2;
                   w_responsiveness := 0.1 |} |}.

Definition truthy_num (o : option Q) : bool :=
  match o with Some q => negb (Qeq_bool q 0) | None => false end.

Definition truthy_int (o : option Z) : bool :=
  match o with Some z => negb (z =? 0)%Z | None => false end.

Definition opt_eqb (a b : option string) : bool :=
  match a, b with
  | Some x, Some y => (x =? y)%string
  | None, None => true
  | _, _ => false
  end.

(** [_get_confidence_level] *)
Definition get_confidence_level (sample : nat) : Confidence :=
  if (30 <=? sample)%nat then high
  else if (10 <=? sample)%nat then medium
  else if (3 <=? sample)%nat then low
  else very_low.

(** [_calculate_confidence] *)
Definition calculate_confidence (ratings : list RatingDict) (issues : list IssueDict)
  : Confidence :=
  let rating_count := List.length ratings in
  let issue_count := List.length issues in
  let total_signals := (rating_count + issue_count)%nat in
  if (50 <=? total_signals)%nat then high
  else if (20 <=? total_signals)%nat then medium
  else if (5 <=? total_signals)%nat then low
  else very_low.

(** [abs(d) <= 3 * math.sqrt(variance)], decided on the squares: both sides
    are non-negative ([within_3_std_dev_sqrt] below relates the two). *)
Definition within_3_std_dev (d variance : Q) : bool :=
  Qle_b (d * d) (9 * variance).

(** [_filter_suspicious_ratings]; [ratings] is not used by the source
    either. *)
Definition filter_suspicious_ratings (scores : list Q) (ratings : list RatingDict)
  : list Q :=
  if (List.length scores <? 3)%nat then scores
  else
    let mean_score := sum scores / of_nat (List.length scores) in
    let variance :=
      sum (map (fun x => (x - mean_score) ^ 2) scores) / of_nat (List.length scores) in
    let filtered := filter (fun s => within_3_std_dev (s - mean_score) variance) scores in
    if Qlt_b (of_nat (List.length filtered)) (of_nat (List.length scores) * 0.5)
    then scores
    else filtered.

(** [_calculate_customer_satisfaction_score] *)
Definition calculate_customer_satisfaction_score (ratings : list RatingDict) : ScoreDict :=
  match ratings with
  | [] => insufficient "insufficient_data"
  | _ =>
      let scores := map (fun r => rating r * 20) ratings in
      let filtered_scores := filter_suspicious_ratings scores ratings in
      match filtered_scores with
      | [] => insufficient "filtered_data"
      | _ =>
          let avg_score := sum filtered_scores / of_nat (List.length filtered_scores) in
          {| score := round avg_score 1;
             confidence := get_confidence_level (List.length filtered_scores);
             reason := None;
             sample_size := Some (List.length filtered_scores);
             data_sources := None; rates_per_capita := None;
             avg_resolution_days := None; resolved_issues := None |}
      end
  end.

(** [service_ratings[cat].append(x)], creating the entry when [cat] is new. *)
Fixpoint append_rating (cat : option string) (x : Q)
  (service_ratings : list (option string * list Q)) : list (option string * list Q) :=
  match service_ratings with
  | [] => [(cat, [x])]
  | (k, l) :: rest =>
      if opt_eqb k cat then (k, l ++ [x]) :: rest
      else (k, l) :: append_rating cat x rest
  end.

Definition group_by_category (ratings : list RatingDict)
  : list (option string * list Q) :=
  fold_left (fun acc r => append_rating (service_category r) (rating r * 20) acc)
            ratings [].

(** [_calculate_service_delivery_score] *)
Definition calculate_service_delivery_score (metrics : BaseMetrics)
  (ratings : list RatingDict) : ScoreDict :=
  let score := 0 in
  let data_points := 0%nat in
  let '(score, data_points) :=
    match service_delivery_score metrics with
    | Some official =>
        if truthy_num (Some official)
        then (score + official * 0.7, S data_points)
        else (score, data_points)
    | None => (score, data_points)
    end in
  let service_ratings := group_by_category ratings in
  let '(score, data_points) :=
    match service_ratings with
    | [] => (score, data_points)
    | _ =>
        let avg_service_rating :=
          sum (map (fun kv => sum (snd kv) / of_nat (List.length (snd kv))) service_ratings)
          / of_nat (List.length service_ratings) in
        (score + avg_service_rating * 0.3, S data_points)
    end in
  if (data_points =? 0)%nat then insufficient "insufficient_data"
  else
    let final_score := score / of_nat data_points in
    {| score := round final_score 1;
       confidence := get_confidence_level data_points;
       reason := None; sample_size := None;
       data_sources := Some data_points;
       rates_per_capita := None; avg_resolution_days := None;
       resolved_issues := None |}.

(** [_calculate_value_for_rates_score], on the metrics it queries again. *)
Definition calculate_value_for_rates_score (metrics : BaseMetrics) : ScoreDict :=
  match customer_satisfaction metrics, rates_revenue metrics, population metrics with
  | Some satisfaction, Some revenue, Some pop =>
      if truthy_num (Some satisfaction) && truthy_num (Some revenue) && truthy_int (Some pop)
      then
        let per_capita := revenue / inject_Z pop in
        let rates_factor := Qmax 0 (Qmin 100 (100 - (per_capita - 500) / 15)) in
        let value_score := (satisfaction + rates_factor) / 2 in
        {| score := round value_score 1;
           confidence := medium;
           reason := None; sample_size := None; data_sources := None;
           rates_per_capita := Some (round per_capita 2);
           avg_resolution_days := None; resolved_issues := None |}
      else insufficient "insufficient_data"
  | _, _, _ => insufficient "insufficient_data"
  end.

(** [_calculate_responsiveness_score] *)
Definition calculate_responsiveness_score (issues : list IssueDict) : ScoreDict :=
  match issues with
  | [] => insufficient "insufficient_data"
  | _ =>
      let resolved :=
        filter (fun i => (status i =? "resolved")%string
                         && truthy_int (resolution_time_days i)) issues in
      match resolved with
      | [] => insufficient "no_resolved_issues"
      | _ =>
          let days i := match resolution_time_days i with
                        | Some d => inject_Z d
                        | None => 0
                        end in
          let avg_resolution := sum (map days resolved) / of_nat (List.length resolved) in
          let bucket :=
            if Qle_b avg_resolution 1 then 100
            else if Qle_b avg_resolution 7 then 90
            else if Qle_b avg_resolution 14 then 75
            else if Qle_b avg_resolution 30 then 50
            else if Qle_b avg_resolution 60 then 25
            else 10 in
          {| score := bucket;
             confidence := get_confidence_level (List.length resolved);
             reason := None; sample_size := None; data_sources := None;
             rates_per_capita := None;
             avg_resolution_days := Some (round avg_resolution 1);
             resolved_issues := Some (List.length resolved) |}
      end
  end.

(** The row [order_by(year.desc()).first()] returns: a row of the greatest
    year, the earliest stored among equals. *)
Fixpoint latest_metrics (rows : list CouncilMetrics) : option CouncilMetrics :=
  match rows with
  | [] => None
  | r :: rest =>
      match latest_metrics rest with
      | Some best => if (cm_year r <? cm_year best)%Z then Some best else Some r
      | None => Some r
      end
  end.

(** [_get_base_metrics] *)
Definition get_base_metrics (council_id : Z) (db : Session) : BaseMetrics :=
  let metrics :=
    latest_metrics (filter (fun m => (cm_council_id m =? council_id)%Z) (council_metrics db)) in
  let council := find (fun c => (id c =? council_id)%Z) (councils db) in
  let field {A} (f : CouncilMetrics -> option A) : option A :=
    match metrics with Some m => f m | None => None end in
  {| customer_satisfaction := field cm_customer_satisfaction;
     service_delivery_score := field cm_service_delivery_score;
     rates_revenue := field cm_rates_revenue;
     total_revenue := field cm_total_revenue;
     population := match council with Some c => Models.population c | None => None end |}.

(** [_get_rating_metrics] *)
Definition get_rating_metrics (council_id : Z) (db : Session) : list RatingDict :=
  let cutoff_date := (now db - timedelta_days 730)%Z in
  let rows :=
    filter (fun r => (r_council_id r =? council_id)%Z
                     && (r_moderation_status r =? "approved")%string
                     && (cutoff_date <=? r_created_at r)%Z) (Models.ratings db) in
  map (fun r => {| rating := r_rating r;
                   service_category := r_service_category r;
                   created_at := r_created_at r;
                   user_id := r_user_id r |}) rows.

(** [_get_issue_metrics] *)
Definition get_issue_metrics (council_id : Z) (db : Session) : list IssueDict :=
  let rows := filter (fun i => (i_council_id i =? council_id)%Z) (issue_reports db) in
  map (fun i => {| status := i_status i;
                   issue_created_at := i_created_at i;
                   resolution_time_days := i_resolution_time_days i;
                   priority := i_priority i |}) rows.

Record Components : Type := {
  c_customer_satisfaction : ScoreDict;
  c_service_delivery : ScoreDict;
  c_value_for_rates : ScoreDict;
  c_responsiveness : ScoreDict
}.

(** What [calculate_overall_score] returns ([last_updated] is the clock). *)
Record OverallScore : Type := {
  overall_score : Q;
  components : Components;
  overall_confidence : Confidence;
  sample_size_ratings : nat;
  sample_size_issues : nat;
  last_updated : datetime
}.

(** The weighted sum before it is rounded. *)
Definition weighted_sum (self : ScoringEngine) (c : Components) : Q :=
  score (c_customer_satisfaction c) * w_customer_satisfaction (weights self) +
  score (c_service_delivery c) * w_service_delivery (weights self) +
  score (c_value_for_rates c) * w_value_for_rates (weights self) +
  score (c_responsiveness c) * w_responsiveness (weights self).

(** [calculate_overall_score] *)
Definition calculate_overall_score (self : ScoringEngine) (council_id : Z) (db : Session)
  : OverallScore :=
  let metrics := get_base_metrics council_id db in
  let ratings := get_rating_metrics council_id db in
  let issues := get_issue_metrics council_id db in
  let customer_score := calculate_customer_satisfaction_score ratings in
  let service_score := calculate_service_delivery_score metrics ratings in
  let value_score := calculate_value_for_rates_score (get_base_metrics council_id db) in
  let responsiveness_score := calculate_responsiveness_score issues in
  let c := {| c_customer_satisfaction := customer_score;
              c_service_delivery := service_score;
              c_value_for_rates := value_score;
              c_responsiveness := responsiveness_score |} in
  let overall := weighted_sum self c in
  {| overall_score := round overall 1;
     components := c;
     overall_confidence := calculate_confidence ratings issues;
     sample_size_ratings := List.length ratings;
     sample_size_issues := List.length issues;
     last_updated := now db |}.

(** What [calculate_red_flag_index] returns. *)
Record RedFlagIndex : Type := {
  rf_score : Q;
  recent_issues : nat;
  previous_issues : nat;
  spike_ratio : Q;
  rf_confidence : Confidence
}.

(** The ratio and the score [calculate_red_flag_index] computes from the two
    counts, before rounding. *)
Definition raw_spike_ratio (recent previous : nat) : Q :=
  if (previous =? 0)%nat then of_nat recent * 2
  else of_nat recent / of_nat previous.

Definition raw_red_flag_score (recent previous : nat) : Q :=
  Qmin 100 (raw_spike_ratio recent previous * 25).

(** The part of [calculate_red_flag_index] after the two counting queries. *)
Definition red_flag_of_counts (recent previous : nat) : RedFlagIndex :=
  let ratio := raw_spike_ratio recent previous in
  let red_flag_score := raw_red_flag_score recent previous in
  {| rf_score := round red_flag_score 1;
     recent_issues := recent;
     previous_issues := previous;
     spike_ratio := round ratio 2;
     rf_confidence := if (10 <=? recent + previous)%nat then medium else low |}.

(** [calculate_red_flag_index] *)
Definition calculate_red_flag_index (council_id : Z) (db : Session) : RedFlagIndex :=
  let recent_cutoff := (now db - timedelta_days 90)%Z in
  let previous_cutoff := (now db - timedelta_days 180)%Z in
  let recent :=
    List.length (filter (fun i => (i_council_id i =? council_id)%Z
                                  && (recent_cutoff <=? i_created_at i)%Z)
                        (issue_reports db)) in
  let previous :=
    List.length (filter (fun i => (i_council_id i =? council_id)%Z
                                  && (previous_cutoff <=? i_created_at i)%Z
                                  && (i_created_at i <? recent_cutoff)%Z)
                        (issue_reports db)) in
  red_flag_of_counts recent previous.

End Scoring.

(** The weights as the interpreter holds them. *)
Module Binary64.
Import PrimFloat.
Local Open Scope float_scope.

(** The weights as binary64 numbers, added in the order the dictionary holds
    them. *)
#[warnings="-inexact-float"]
Definition weights_sum : float := 0.4 + 0.3 + 0.2 + 0.1.

(** The float just below 1. *)
Definition below_one : float := next_down 1.

End Binary64.

(* ===================================================================== *)
(** * metrics_framework.py *)
(* ===================================================================== *)

Module MetricsFramework.
Import Py.
Local Open Scope string_scope.

Inductive MetricCategory : Type :=
  | FINANCIAL | SERVICE_DELIVERY | INFRASTRUCTURE | ENVIRONMENTAL | COMMUNITY | ECONOMIC.

Definition category_eqb (a b : MetricCategory) : bool :=
  match a, b with
  | FINANCIAL, FINANCIAL | SERVICE_DELIVERY, SERVICE_DELIVERY
  | INFRASTRUCTURE, INFRASTRUCTURE | ENVIRONMENTAL, ENVIRONMENTAL
  | COMMUNITY, COMMUNITY | ECONOMIC, ECONOMIC => true
  | _, _ => false
  end.

Record StandardizedMetric : Type := {
  canonical_name : string;
  display_name : string;
  category : MetricCategory;
  description : string;
  unit : string;
  lower_is_better : bool;
  expected_availability : Q;
  calculation_method : option string;
  alternative_sources : list string
}.

Definition STANDARDIZED_METRICS : list StandardizedMetric := [
  {| canonical_name := "rates_revenue_per_capita";
     display_name := "Rates Revenue per Capita";
     category := FINANCIAL;
     description := "Annual rates revenue divided by population served";
     unit := "$ per person";
     lower_is_better := false;
     expected_availability := 0.95;
     calculation_method := Some "rates_revenue / population_served";
     alternative_sources := ["rates_revenue"; "general_rates"; "council_rates"] |};
  {| canonical_name := "total_revenue_per_capita";
     display_name := "Total Revenue per Capita";
     category := FINANCIAL;
     description := "Total council revenue per capita";
     unit := "$ per person";
     lower_is_better := false;
     expected_availability := 0.9;
     calculation_method := Some "total_revenue / population_served";
     alternative_sources := [] |};
  {| canonical_name := "operating_deficit_ratio";
     display_name := "Operating Deficit Ratio";
     category := FINANCIAL;
     description := "Operating deficit as percentage of total revenue";
     unit := "%";
     lower_is_better := true;
     expected_availability := 0.85;
     calculation_method := Some "(total_expenditure - total_revenue) / total_revenue * 100";
     alternative_sources := [] |};
  {| canonical_name := "complaint_response_time";
     display_name := "Average Complaint Response Time";
     category := SERVICE_DELIVERY;
     description := "Average time to respond to citizen complaints";
     unit := "days";
     lower_is_better := true;
     expected_availability := 0.7;
     calculation_method := None;
     alternative_sources := ["complaint_response_time"; "service_response_time"; "complaints_handling_time"] |};
  {| canonical_name := "waste_collection_efficiency";
     display_name := "Waste Collection Efficiency";
     category := SERVICE_DELIVERY;
     description := "Percentage of scheduled waste collections completed on time";
     unit := "%";
     lower_is_better := false;
     expected_availability := 0.75;
     calculation_method := None;
     alternative_sources := ["waste_collection_efficiency"; "kerbside_collection_rate"; "waste_service_efficiency"] |};
  {| canonical_name := "planning_approval_time";
     display_name := "Planning Application Approval Time";
     category := SERVICE_DELIVERY;
     description := "Average time for planning application approval";
     unit := "days";
     lower_is_better := true;
     expected_availability := 0.65;
     calculation_method := None;
     alternative_sources := ["planning_approval_time"; "dap_approval_time"; "development_approval_time"] |};
  {| canonical_name := "roads_maintained_per_capita";
     display_name := "Roads Maintained per Capita";
     category := INFRASTRUCTURE;
     description := "Length of roads maintained per capita";
     unit := "metres per person";
     lower_is_better := false;
     expected_availability := 0.8;
     calculation_method := Some "roads_maintained_km * 1000 / population_served";
     alternative_sources := ["roads_maintained_km"; "sealed_roads_km"; "maintained_roads"] |};
  {| canonical_name := "infrastructure_investment_ratio";
     display_name := "Infrastructure Investment Ratio";
     category := INFRASTRUCTURE;
     description := "Infrastructure spending as percentage of total expenditure";
     unit := "%";
     lower_is_better := false;
     expected_availability := 0.6;
     calculation_method := Some "infrastructure_expenditure / total_expenditure * 100";
     alternative_sources := [] |};
  {| canonical_name := "waste_recycling_rate";
     display_name := "Waste Recycling Rate";
     category := ENVIRONMENTAL;
     description := "Percentage of waste that is recycled or composted";
     unit := "%";
     lower_is_better := false;
     expected_availability := 0.7;
     calculation_method := None;
     alternative_sources := ["recycling_rate"; "waste_diversion_rate"; "resource_recovery_rate"] |};
  {| canonical_name := "carbon_emissions_reduction";
     display_name := "Carbon Emissions Reduction";
     category := ENVIRONMENTAL;
     description := "Percentage reduction in carbon emissions since baseline";
     unit := "%";
     lower_is_better := false;
     expected_availability := 0.5;
     calculation_method := None;
     alternative_sources := ["emissions_reduction"; "carbon_reduction"; "ghg_reduction"] |};
  {| canonical_name := "customer_satisfaction_score";
     display_name := "Customer Satisfaction Score";
     category := COMMUNITY;
     description := "Overall customer satisfaction with council services";
     unit := "score out of 100";
     lower_is_better := false;
     expected_availability := 0.55;
     calculation_method := None;
     alternative_sources := ["customer_satisfaction"; "resident_satisfaction"; "service_satisfaction"] |};
  {| canonical_name := "community_engagement_rate";
     display_name := "Community Engagement Rate";
     category := COMMUNITY;
     description := "Percentage of residents participating in council consultations";
     unit := "%";
     lower_is_better := false;
     expected_availability := 0.4;
     calculation_method := None;
     alternative_sources := ["engagement_rate"; "participation_rate"; "consultation_participation"] |};
  {| canonical_name := "business_permit_approval_time";
     display_name := "Business Permit Approval Time";
     category := ECONOMIC;
     description := "Average time for business permit approval";
     unit := "days";
     lower_is_better := true;
     expected_availability := 0.6;
     calculation_method := None;
     alternative_sources := ["permit_approval_time"; "business_licence_time"; "development_permit_time"] |};
  {| canonical_name := "local_employment_rate";
     display_name := "Local Employment Rate";
     category := ECONOMIC;
     description := "Percentage of working age population in local employment";
     unit := "%";
     lower_is_better := false;
     expected_availability := 0.45;
     calculation_method := None;
     alternative_sources := ["employment_rate"; "local_jobs_rate"; "workforce_participation"] |}
].

Definition STATE_METRIC_MAPPINGS : list (string * list (string * list string)) := [
  ("Victoria", [
     ("complaint_response_time", ["complaints_resolution_time"; "service_request_response"]);
     ("waste_collection_efficiency", ["waste_service_performance"; "kerbside_service_level"]);
     ("planning_approval_time", ["planning_decision_time"; "development_assessment_time"]);
     ("waste_recycling_rate", ["resource_recovery_rate"; "diversion_rate"]);
     ("customer_satisfaction_score", ["resident_satisfaction"; "community_satisfaction"])]);
  ("NSW", [
     ("complaint_response_time", ["complaints_handling_time"; "customer_service_time"]);
     ("waste_collection_efficiency", ["waste_collection_performance"; "domestic_waste_service"]);
     ("planning_approval_time", ["development_consent_time"; "da_processing_time"]);
     ("waste_recycling_rate", ["recycling_diversion_rate"; "waste_diversion"]);
     ("customer_satisfaction_score", ["resident_survey_score"; "customer_feedback_score"])]);
  ("Queensland", [
     ("complaint_response_time", ["complaints_response_time"; "enquiry_resolution_time"]);
     ("waste_collection_efficiency", ["waste_management_performance"; "collection_service_level"]);
     ("planning_approval_time", ["development_approval_time"; "planning_scheme_time"]);
     ("waste_recycling_rate", ["material_recovery_rate"; "recycling_performance"]);
     ("customer_satisfaction_score", ["community_satisfaction"; "resident_experience_score"])]);
  ("WA", [
     ("complaint_response_time", ["complaints_management_time"; "service_response_time"]);
     ("waste_collection_efficiency", ["waste_service_delivery"; "collection_efficiency"]);
     ("planning_approval_time", ["development_assessment_time"; "planning_approval_period"]);
     ("waste_recycling_rate", ["recycling_rate"; "waste_recovery_rate"]);
     ("customer_satisfaction_score", ["customer_satisfaction"; "resident_satisfaction"])]);
  ("SA", [
     ("complaint_response_time", ["complaints_response_time"; "customer_complaints_time"]);
     ("waste_collection_efficiency", ["waste_collection_service"; "domestic_waste_efficiency"]);
     ("planning_approval_time", ["development_approval_time"; "planning_consent_time"]);
     ("waste_recycling_rate", ["recycling_performance"; "waste_diversion_rate"]);
     ("customer_satisfaction_score", ["community_satisfaction"; "resident_satisfaction"])]);
  ("Tasmania", [
     ("complaint_response_time", ["complaints_handling"; "service_complaints_time"]);
     ("waste_collection_efficiency", ["waste_service_performance"; "collection_service"]);
     ("planning_approval_time", ["planning_approval_time"; "development_approval"]);
     ("waste_recycling_rate", ["recycling_rate"; "resource_recovery"]);
     ("customer_satisfaction_score", ["customer_satisfaction"; "community_feedback"])]);
  ("NT", [
     ("complaint_response_time", ["complaints_response"; "service_request_time"]);
     ("waste_collection_efficiency", ["waste_collection"; "waste_management_service"]);
     ("planning_approval_time", ["development_approval"; "planning_permission_time"]);
     ("waste_recycling_rate", ["recycling_rate"; "waste_recycling"]);
     ("customer_satisfaction_score", ["resident_satisfaction"; "customer_service_score"])]);
  ("ACT", [
     ("complaint_response_time", ["complaints_resolution"; "service_response"]);
     ("waste_collection_efficiency", ["waste_collection_efficiency"; "waste_service"]);
     ("planning_approval_time", ["development_approval"; "da_approval_time"]);
     ("waste_recycling_rate", ["recycling_rate"; "waste_diversion"]);
     ("customer_satisfaction_score", ["resident_satisfaction"; "community_satisfaction"])])
].

Record MetricNormalizer : Type := {
  metrics_by_name : list (string * StandardizedMetric);
  metrics_by_category : list (MetricCategory * list StandardizedMetric)
}.

Fixpoint append_metric (m : StandardizedMetric)
  (by_category : list (MetricCategory * list StandardizedMetric))
  : list (MetricCategory * list StandardizedMetric) :=
  match by_category with
  | [] => [(category m, [m])]
  | (c, l) :: rest =>
      if category_eqb c (category m) then (c, (l ++ [m])%list) :: rest
      else (c, l) :: append_metric m rest
  end.

(** [MetricNormalizer.__init__], over the metric table it is given. *)
Definition init_with (table : list StandardizedMetric) : MetricNormalizer :=
  {| metrics_by_name :=
       fold_left (fun d m => dict_set (canonical_name m) m d) table [];
     metrics_by_category :=
       fold_left (fun d m => append_metric m d) table [] |}.

(** The global [metric_normalizer]. *)
Definition metric_normalizer : MetricNormalizer := init_with STANDARDIZED_METRICS.

(** [get_metric_definition] *)
Definition get_metric_definition (self : MetricNormalizer) (name : string)
  : option StandardizedMetric :=
  dict_get name (metrics_by_name self).

(** [s.lower().replace('_', ' ').replace('-', ' ')] *)
Definition normalize_name (s : string) : string :=
  replace "-" " " (replace "_" " " (lower s)).

(** Does one of [names], normalised, equal [raw_name_lower]? *)
Definition any_alias (raw_name_lower : string) (names : list string) : bool :=
  existsb (fun alt => normalize_name alt =? raw_name_lower) names.

(** [find_matching_metric]; the last lookup raises [KeyError] when a state
    table names a metric the normalizer does not hold. *)
Definition find_matching_metric (self : MetricNormalizer) (raw_name : string)
  (state : option string) : result (option (string * StandardizedMetric)) :=
  let raw_name_lower := normalize_name raw_name in
  match dict_get raw_name (metrics_by_name self) with
  | Some metric => Ok (Some (raw_name, metric))
  | None =>
      match find (fun entry => any_alias raw_name_lower (alternative_sources (snd entry)))
                 (metrics_by_name self) with
      | Some (name, metric) => Ok (Some (name, metric))
      | None =>
          match state with
          | Some st =>
              match (if st =? EmptyString then None else dict_get st STATE_METRIC_MAPPINGS) with
              | Some state_mappings =>
                  match find (fun entry => any_alias raw_name_lower (snd entry))
                             state_mappings with
                  | Some (std_name, _) =>
                      match dict_get std_name (metrics_by_name self) with
                      | Some metric => Ok (Some (std_name, metric))
                      | None => Raise KeyError
                      end
                  | None => Ok None
                  end
              | None => Ok None
              end
          | None => Ok None
          end
      end
  end.

(** The text [calc_expr] holds after the substitution loop. *)
Definition substitute `{Builtins} (formula : string) (council_data : list (string * py_value))
  : string :=
  fold_left (fun calc_expr kv =>
               if is_none (snd kv) then calc_expr
               else replace (fst kv) (str (snd kv)) calc_expr)
            council_data formula.

(** Truth value of an optional string and of an optional dictionary. *)
Definition truthy_text (o : option string) : bool :=
  match o with Some t => negb (t =? EmptyString) | None => false end.

Definition truthy_dict {V} (o : option (list (string * V))) : bool :=
  match o with Some (_ :: _) => true | _ => false end.

(** [normalize_value] *)
Definition normalize_value `{Builtins} (self : MetricNormalizer) (raw_value : py_value)
  (metric_name : string) (council_data : option (list (string * py_value)))
  : result py_value :=
  match get_metric_definition self metric_name with
  | None => Ok raw_value
  | Some metric =>
      if truthy_text (calculation_method metric) && truthy_dict council_data
      then
        try_except
          (let calc_expr :=
             substitute (match calculation_method metric with Some f => f | None => EmptyString end)
                        (match council_data with Some d => d | None => [] end) in
           normalized_value <- eval calc_expr ;;
           Ok normalized_value)
          (fun _ => Ok raw_value)
      else Ok raw_value
  end.

(** [get_missing_metrics_for_council] *)
Definition get_missing_metrics_for_council (council_id : Z) (available_metrics : list string)
  : list string :=
  map canonical_name
      (filter (fun m => negb (set_mem (canonical_name m) available_metrics))
              STANDARDIZED_METRICS).

(** [peer.get("population_served", 0)] *)
Definition peer_population (peer : list (string * py_value)) : py_value :=
  match dict_get "population_served" peer with
  | Some v => v
  | None => PyInt 0
  end.

(** [abs(peer.get("population_served", 0) - population) / population < 0.5] *)
Definition is_similar (population : py_value) (peer : list (string * py_value))
  : result bool :=
  diff <- num_op Qminus (peer_population peer) population ;;
  match as_number population with
  | Some p =>
      if Qeq_bool p 0 then Raise ZeroDivisionError
      else Ok (Qlt_b (Qabs diff / p) 0.5)
  | None => Raise TypeError
  end.

(** A list comprehension whose condition may raise. *)
Fixpoint filter_raising {A} (cond : A -> result bool) (l : list A) : result (list A) :=
  match l with
  | [] => Ok []
  | x :: rest =>
      keep <- cond x ;;
      kept <- filter_raising cond rest ;;
      Ok (if keep then x :: kept else kept)
  end.

(** [[c.get(metric_name) for c in similar if c.get(metric_name) is not None]] *)
Fixpoint peer_values (metric_name : string) (similar : list (list (string * py_value)))
  : list py_value :=
  match similar with
  | [] => []
  | c :: rest =>
      match dict_get metric_name c with
      | Some v => if is_none v then peer_values metric_name rest
                  else v :: peer_values metric_name rest
      | None => peer_values metric_name rest
      end
  end.

(** [sum(values)] over objects. *)
Fixpoint sum_values (values : list py_value) (acc : Q) : result Q :=
  match values with
  | [] => Ok acc
  | v :: rest =>
      match as_number v with
      | Some x => sum_values rest (acc + x)%Q
      | None => Raise TypeError
      end
  end.

Definition is_empty {A} (l : list A) : bool :=
  match l with [] => true | _ => false end.

(** [estimate_missing_metric] *)
Definition estimate_missing_metric (self : MetricNormalizer) (metric_name : string)
  (council_data : list (string * py_value))
  (peer_councils_data : list (list (string * py_value))) : result (option Q) :=
  match get_metric_definition self metric_name with
  | None => Ok None
  | Some _ =>
      if contains "per_capita" metric_name && dict_mem "population_served" council_data
      then
        let population := match dict_get "population_served" council_data with
                          | Some v => v
                          | None => PyNone
                          end in
        if truthy population && negb (is_empty peer_councils_data) then
          similar_councils <- filter_raising (is_similar population) peer_councils_data ;;
          match similar_councils with
          | [] => Ok None
          | _ =>
              match peer_values metric_name similar_councils with
              | [] => Ok None
              | values =>
                  total <- sum_values values 0%Q ;;
                  Ok (Some (total / of_nat (List.length values))%Q)
              end
          end
        else Ok None
      else Ok None
  end.

End MetricsFramework.

(* ===================================================================== *)
(** * data_ingestion.py *)
(* ===================================================================== *)

Module DataIngestion.
Import Py Models MetricsFramework.
Local Open Scope string_scope.

(** A raw payload: nested dictionaries with numbers, text or [None] at the
    leaves. *)
#[warnings="-register-all"]
Inductive Payload : Type :=
  | Leaf (v : py_value)
  | Nested (d : list (string * Payload)).

Definition option_value {A} (inj : A -> py_value) (o : option A) : py_value :=
  match o with Some a => inj a | None => PyNone end.

(** The dictionary [_get_council_info] builds from a council row. *)
Definition info_of (council : Council) : list (string * py_value) :=
  [("id", PyInt (id council));
   ("name", PyStr (name council));
   ("state", PyStr (state council));
   ("population", option_value PyInt (population council));
   ("area_km2", option_value PyFloat (area_km2 council))].

(** [DataIngester._get_council_info] *)
Definition get_council_info (council_id : Z) (db : Session)
  : option (list (string * py_value)) :=
  match find (fun c => (id c =? council_id)%Z) (councils db) with
  | Some council => Some (info_of council)
  | None => None
  end.

Definition is_number (v : py_value) : bool :=
  match v with PyInt _ | PyFloat _ => true | _ => false end.

(** [new_key = f"{prefix}_{k}" if prefix else k] *)
Definition join_key (prefix k : string) : string :=
  if prefix =? EmptyString then k else prefix ++ "_" ++ k.

(** [flatten_dict] of [_extract_raw_metrics].  [flatten_value v new_key]
    is the body of its loop for the value [v] stored under [new_key]; for a
    nested dictionary it is [flatten_dict v new_key]. *)
Fixpoint flatten_value (v : Payload) (new_key : string)
  (raw_metrics : list (string * py_value)) : list (string * py_value) :=
  match v with
  | Leaf x => if is_number x then dict_set new_key x raw_metrics else raw_metrics
  | Nested d =>
      (fix flatten_items (items : list (string * Payload))
           (acc : list (string * py_value)) : list (string * py_value) :=
         match items with
         | [] => acc
         | (k, child) :: rest =>
             flatten_items rest (flatten_value child (join_key new_key k) acc)
         end) d raw_metrics
  end.

Fixpoint flatten_dict (d : list (string * Payload)) (prefix : string)
  (raw_metrics : list (string * py_value)) : list (string * py_value) :=
  match d with
  | [] => raw_metrics
  | (k, v) :: rest =>
      flatten_dict rest prefix (flatten_value v (join_key prefix k) raw_metrics)
  end.

(** [_extract_raw_metrics] *)
Definition extract_raw_metrics (source_data : list (string * Payload))
  : list (string * py_value) :=
  flatten_dict source_data EmptyString [].

(** [_names_similar] *)
Definition names_similar (name1 name2 : string) : bool :=
  let n1 := normalize_name name1 in
  let n2 := normalize_name name2 in
  if n1 =? n2 then true
  else
    let key_terms_1 := to_set (split n1) in
    let key_terms_2 := to_set (split n2) in
    let overlap := List.length (intersection key_terms_1 key_terms_2) in
    Qle_b (of_nat (Nat.min (List.length key_terms_1) (List.length key_terms_2)) * 0.6)
          (of_nat overlap).

(** [_find_matching_raw_metric] *)
Definition find_matching_raw_metric (canonical_name : string)
  (raw_metrics : list (string * py_value)) (state : option string)
  : result (option py_value) :=
  match dict_get canonical_name raw_metrics with
  | Some v => Ok (Some v)
  | None =>
      match_result <- find_matching_metric metric_normalizer canonical_name state ;;
      match (match match_result with
             | Some (std_name, _) => dict_get std_name raw_metrics
             | None => None
             end) with
      | Some v => Ok (Some v)
      | None =>
          Ok (option_map snd
                (find (fun entry => names_similar canonical_name (fst entry)) raw_metrics))
      end
  end.

(** [_identify_source] *)
Definition identify_source (metric_name : string) (sources_data : list (string * list (string * Payload)))
  : string :=
  "multiple_sources".

(** [a if a and b else None] for the per-capita figures of a peer. *)
Definition per_capita (amount : option Q) (served : option Z) : py_value :=
  match amount, served with
  | Some a, Some n =>
      if negb (Qeq_bool a 0) && negb (n =? 0)%Z then PyFloat (a / inject_Z n) else PyNone
  | _, _ => PyNone
  end.

(** [Council.population.between(lo, hi)]: a missing population matches
    nothing. *)
Definition between (population : option Z) (lo hi : Q) : bool :=
  match population with
  | Some n => Qle_b lo (inject_Z n) && Qle_b (inject_Z n) hi
  | None => false
  end.

(** [_get_peer_council_data] *)
Definition get_peer_council_data (council_info : list (string * py_value)) (db : Session)
  : result (list (list (string * py_value))) :=
  let population := match dict_get "population" council_info with
                    | Some v => v
                    | None => PyInt 0
                    end in
  let state_of := option_value (fun v : py_value => v) (dict_get "state" council_info) in
  lo <- num_op Qmult population (PyFloat 0.5) ;;
  hi <- num_op Qmult population (PyFloat 1.5) ;;
  let peers :=
    firstn 5 (filter (fun c => (match state_of with
                                | PyStr st => Models.state c =? st
                                | _ => false
                                end)
                               && between (Models.population c) lo hi)
                     (councils db)) in
  Ok (flat_map
        (fun peer =>
           match find (fun m => (cm_council_id m =? id peer)%Z) (council_metrics db) with
           | Some peer_metrics =>
               [[("population_served", option_value PyInt (cm_population_served peer_metrics));
                 ("rates_revenue_per_capita",
                  per_capita (cm_rates_revenue peer_metrics) (cm_population_served peer_metrics));
                 ("total_revenue_per_capita",
                  per_capita (cm_total_revenue peer_metrics) (cm_population_served peer_metrics));
                 ("customer_satisfaction_score",
                  option_value PyFloat (cm_customer_satisfaction peer_metrics));
                 ("waste_collection_efficiency", PyNone)]]
           | None => []
           end)
        peers).

(** [_estimate_missing_metric] *)
Definition estimate_missing_metric_for (metric_name : string)
  (council_info : list (string * py_value))
  (sources_data : list (string * list (string * Payload))) (db : Session)
  : result (option Q) :=
  peer_data <- get_peer_council_data council_info db ;;
  estimate_missing_metric metric_normalizer metric_name council_info peer_data.

(** One entry of [standardized_metrics]. *)
Record Observation : Type := {
  value : py_value;
  raw_value : py_value;
  source : string;
  confidence : string
}.

(** One entry of [unique_data]. *)
Record UniqueDatum : Type := {
  u_value : py_value;
  u_type : string;
  u_description : string
}.

(** [_infer_data_type] *)
Definition infer_data_type (metric_name : string) : string :=
  let name_lower := lower metric_name in
  let any_of terms := existsb (fun term => contains term name_lower) terms in
  if any_of ["carbon"; "emission"; "environment"; "sustainability"] then "environmental"
  else if any_of ["bike"; "path"; "park"; "infrastructure"; "road"] then "infrastructure"
  else if any_of ["economic"; "business"; "employment"; "job"] then "economic"
  else if any_of ["community"; "engagement"; "participation"] then "community"
  else "performance".

(** [a == b] on objects. *)
Definition py_eqb (a b : py_value) : bool :=
  match a, b with
  | PyNone, PyNone => true
  | PyStr s, PyStr t => s =? t
  | _, _ =>
      match as_number a, as_number b with
      | Some x, Some y => Qeq_bool x y
      | _, _ => false
      end
  end.

(** [_extract_unique_data] *)
Definition extract_unique_data (raw_metrics : list (string * py_value))
  (standardized_metrics : list (string * Observation)) : list (string * UniqueDatum) :=
  fold_left
    (fun unique_data entry =>
       let '(raw_name, v) := entry in
       let used_in_standardization :=
         existsb (fun std => py_eqb (raw_value (snd std)) v) standardized_metrics in
       if used_in_standardization then unique_data
       else dict_set raw_name
                     {| u_value := v;
                        u_type := infer_data_type raw_name;
                        u_description := "Raw metric: " ++ raw_name |}
                     unique_data)
    raw_metrics [].

Record NormalizedData : Type := {
  nd_council_id : Z;
  council_info : list (string * py_value);
  standardized_metrics : list (string * Observation);
  unique_data : list (string * UniqueDatum);
  data_sources : list string;
  normalization_date : datetime;
  coverage_score : Q
}.

(** Step 2 of [normalize_council_data]: the flat map of all sources. *)
Definition collect_raw_metrics (sources_data : list (string * list (string * Payload)))
  : list (string * py_value) :=
  fold_left (fun raw_metrics src => dict_update raw_metrics (extract_raw_metrics (snd src)))
            sources_data [].

(** [council_info['state']] *)
Definition state_of_info (info : list (string * py_value)) : option string :=
  match dict_get "state" info with
  | Some (PyStr st) => Some st
  | _ => None
  end.

(** One turn of the loop of step 3, on the pair
    [(standardized_metrics, available_metrics)]. *)
Definition normalize_metric `{Builtins} (info : list (string * py_value))
  (sources_data : list (string * list (string * Payload)))
  (raw_metrics : list (string * py_value)) (db : Session)
  (acc : list (string * Observation) * nat) (std_metric : StandardizedMetric)
  : result (list (string * Observation) * nat) :=
  let '(std, available_metrics) := acc in
  let canonical := canonical_name std_metric in
  matched_value <- find_matching_raw_metric canonical raw_metrics (state_of_info info) ;;
  match matched_value with
  | Some matched =>
      normalized_value <- normalize_value metric_normalizer matched canonical (Some info) ;;
      Ok (dict_set canonical
                   {| value := normalized_value;
                      raw_value := matched;
                      source := identify_source canonical sources_data;
                      confidence := "high" |} std,
          S available_metrics)
  | None =>
      estimated_value <- estimate_missing_metric_for canonical info sources_data db ;;
      match estimated_value with
      | Some estimate =>
          Ok (dict_set canonical
                       {| value := PyFloat estimate;
                          raw_value := PyNone;
                          source := "estimated";
                          confidence := "medium" |} std,
              S available_metrics)
      | None => Ok (std, available_metrics)
      end
  end.

(** A [for] loop whose body may raise. *)
Fixpoint fold_raising {A B} (body : A -> B -> result A) (l : list B) (acc : A) : result A :=
  match l with
  | [] => Ok acc
  | x :: rest => acc' <- body acc x ;; fold_raising body rest acc'
  end.

(** Step 3 of [normalize_council_data]. *)
Definition standardize `{Builtins} (info : list (string * py_value))
  (sources_data : list (string * list (string * Payload)))
  (raw_metrics : list (string * py_value)) (db : Session)
  : result (list (string * Observation) * nat) :=
  fold_raising (normalize_metric info sources_data raw_metrics db)
               STANDARDIZED_METRICS ([], 0%nat).

(** [normalize_council_data]; [sources_data] is what [_ingest_all_sources]
    brought back for the council, and [None] stands for the empty
    dictionary returned for an unknown council. *)
Definition normalize_council_data `{Builtins} (council_id : Z)
  (sources_data : list (string * list (string * Payload))) (db : Session)
  : result (option NormalizedData) :=
  match get_council_info council_id db with
  | None => Ok None
  | Some info =>
      let raw_metrics := collect_raw_metrics sources_data in
      built <- standardize info sources_data raw_metrics db ;;
      let '(std, available_metrics) := built in
      Ok (Some {| nd_council_id := council_id;
                  council_info := info;
                  standardized_metrics := std;
                  unique_data := extract_unique_data raw_metrics std;
                  data_sources := map fst sources_data;
                  normalization_date := now db;
                  coverage_score :=
                    (of_nat available_metrics / of_nat (List.length STANDARDIZED_METRICS))%Q |})
  end.

(** ** DataAggregator *)

(** The figures [aggregate_state_data] stores for one metric. *)
Record MetricAggregate : Type := {
  coverage : Q;
  average : Q;
  median : Q;
  best : Q;
  worst : Q
}.

(** The body of [if values:] for one metric; [None] when [values] is
    empty and nothing is stored. *)
Definition aggregate_values (lower_better : bool) (total_councils : nat) (values : list Q)
  : option MetricAggregate :=
  match values with
  | [] => None
  | first :: rest =>
      Some {| coverage := (of_nat (List.length values) / of_nat total_councils)%Q;
              average := (sum values / of_nat (List.length values))%Q;
              median := nth (List.length values / 2) (sorted values) 0%Q;
              best := if negb lower_better then max_of first rest else min_of first rest;
              worst := if negb lower_better then min_of first rest else max_of first rest |}
  end.

(** The values of one metric over the normalised councils. *)
Fixpoint collect_values (canonical : string) (all_council_data : list NormalizedData)
  : list py_value :=
  match all_council_data with
  | [] => []
  | council_data :: rest =>
      match dict_get canonical (standardized_metrics council_data) with
      | Some obs => if is_none (value obs) then collect_values canonical rest
                    else value obs :: collect_values canonical rest
      | None => collect_values canonical rest
      end
  end.

(** Arithmetic and ordering need numbers; anything else raises. *)
Fixpoint numbers (values : list py_value) : result (list Q) :=
  match values with
  | [] => Ok []
  | v :: rest =>
      match as_number v with
      | Some x => xs <- numbers rest ;; Ok (x :: xs)
      | None => Raise TypeError
      end
  end.

Record StateAggregation : Type := {
  sa_state : string;
  total_councils : nat;
  per_metric : list (string * MetricAggregate)
}.

(** [aggregate_state_data]; [sources_of] is what ingestion brings back for
    each council. *)
Definition aggregate_state_data `{Builtins} (state : string)
  (sources_of : Z -> list (string * list (string * Payload))) (db : Session)
  : result StateAggregation :=
  let councils := filter (fun c => Models.state c =? state) (councils db) in
  all_council_data <-
    fold_raising (fun acc council =>
                    normalized <- normalize_council_data (id council) (sources_of (id council)) db ;;
                    Ok (match normalized with
                        | Some nd => (acc ++ [nd])%list
                        | None => acc
                        end))
                 councils [] ;;
  per_metric <-
    fold_raising (fun acc metric =>
                    let canonical := canonical_name metric in
                    values <- numbers (collect_values canonical all_council_data) ;;
                    Ok (match aggregate_values (lower_is_better metric)
                                               (List.length councils) values with
                        | Some agg => dict_set canonical agg acc
                        | None => acc
                        end))
                 STANDARDIZED_METRICS [] ;;
  Ok {| sa_state := state;
        total_councils := List.length councils;
        per_metric := per_metric |}.

End DataIngestion.

(* ===================================================================== *)
(** * An interpreter for arithmetic formulas *)
(* ===================================================================== *)

(** [eval] on the fragment the derivation formulas live in: decimal
    numerals, names, [+ - * /] and parentheses.  Text outside the fragment
    (exponents, digit separators, other operators) is rejected as a syntax
    error.  With the builtins emptied every name is unbound. *)
Module Interp.
Import Py.
Local Open Scope string_scope.

Inductive token : Type :=
  | TNum (mantissa : Z) (scale : option positive)
  | TName (s : string)
  | TPlus | TMinus | TStar | TSlash | TLParen | TRParen.

Inductive lex_state : Type :=
  | Idle
  | InNumber (mantissa : Z) (scale : option positive)
  | InName (rev_chars : list ascii).

Definition digit_of (c : ascii) : option Z :=
  let n := nat_of_ascii c in
  if ((48 <=? n) && (n <=? 57))%nat then Some (Z.of_nat (n - 48)) else None.

Definition is_name_start (c : ascii) : bool :=
  let n := nat_of_ascii c in
  ((65 <=? n) && (n <=? 90) || (97 <=? n) && (n <=? 122) || (n =? 95))%nat.

Definition flush (st : lex_state) : list token :=
  match st with
  | Idle => []
  | InNumber m sc => [TNum m sc]
  | InName cs => [TName (string_of_list_ascii (rev cs))]
  end.

(** The state and tokens after reading [c] with no token under way. *)
Definition lex_fresh (c : ascii) : result (lex_state * list token) :=
  match digit_of c with
  | Some d => Ok (InNumber d None, [])
  | None =>
      if is_name_start c then Ok (InName [c], [])
      else if is_space c then Ok (Idle, [])
      else if (c =? "+")%char then Ok (Idle, [TPlus])
      else if (c =? "-")%char then Ok (Idle, [TMinus])
      else if (c =? "*")%char then Ok (Idle, [TStar])
      else if (c =? "/")%char then Ok (Idle, [TSlash])
      else if (c =? "(")%char then Ok (Idle, [TLParen])
      else if (c =? ")")%char then Ok (Idle, [TRParen])
      else if (c =? ".")%char then Ok (InNumber 0 (Some 1%positive), [])
      else Raise SyntaxError
  end.

Definition lex_step (st : lex_state) (c : ascii) : result (lex_state * list token) :=
  match st with
  | Idle => lex_fresh c
  | InNumber m sc =>
      match digit_of c with
      | Some d =>
          Ok (InNumber (m * 10 + d) (option_map (fun p => (p * 10)%positive) sc), [])
      | None =>
          if is_name_start c then Raise SyntaxError
          else if (c =? ".")%char then
            match sc with
            | None => Ok (InNumber m (Some 1%positive), [])
            | Some _ => Raise SyntaxError
            end
          else
            next <- lex_fresh c ;;
            Ok (fst next, (TNum m sc :: snd next)%list)
      end
  | InName cs =>
      if is_name_start c || (match digit_of c with Some _ => true | None => false end)
      then Ok (InName (c :: cs), [])
      else
        next <- lex_fresh c ;;
        Ok (fst next, (TName (string_of_list_ascii (rev cs)) :: snd next)%list)
  end.

Fixpoint lex (s : string) (st : lex_state) : result (list token) :=
  match s with
  | EmptyString => Ok (flush st)
  | String c rest =>
      next <- lex_step st c ;;
      tokens <- lex rest (fst next) ;;
      Ok (snd next ++ tokens)%list
  end.

Inductive binop : Type := Add | Sub | Mul | Div.

Inductive expr : Type :=
  | Num (v : py_value)
  | Name (s : string)
  | Neg (e : expr)
  | Pos (e : expr)
  | Bin (op : binop) (l r : expr).

Definition literal (m : Z) (sc : option positive) : py_value :=
  match sc with
  | None => PyInt m
  | Some p => PyFloat (m # p)
  end.

(** Recursive descent; [fuel] bounds the number of calls. *)
Fixpoint parse_factor (fuel : nat) (ts : list token) : option (expr * list token) :=
  match fuel with
  | O => None
  | S f =>
      match ts with
      | TNum m sc :: rest => Some (Num (literal m sc), rest)
      | TName x :: rest => Some (Name x, rest)
      | TMinus :: rest =>
          match parse_factor f rest with
          | Some (e, rest') => Some (Neg e, rest')
          | None => None
          end
      | TPlus :: rest =>
          match parse_factor f rest with
          | Some (e, rest') => Some (Pos e, rest')
          | None => None
          end
      | TLParen :: rest =>
          match parse_sum f rest with
          | Some (e, TRParen :: rest') => Some (e, rest')
          | _ => None
          end
      | _ => None
      end
  end
with parse_product_rest (fuel : nat) (acc : expr) (ts : list token)
  : option (expr * list token) :=
  match fuel with
  | O => None
  | S f =>
      match ts with
      | TStar :: rest =>
          match parse_factor f rest with
          | Some (e, rest') => parse_product_rest f (Bin Mul acc e) rest'
          | None => None
          end
      | TSlash :: rest =>
          match parse_factor f rest with
          | Some (e, rest') => parse_product_rest f (Bin Div acc e) rest'
          | None => None
          end
      | _ => Some (acc, ts)
      end
  end
with parse_sum_rest (fuel : nat) (acc : expr) (ts : list token)
  : option (expr * list token) :=
  match fuel with
  | O => None
  | S f =>
      match ts with
      | TPlus :: rest =>
          match parse_factor f rest with
          | Some (e, rest') =>
              match parse_product_rest f e rest' with
              | Some (e', rest'') => parse_sum_rest f (Bin Add acc e') rest''
              | None => None
              end
          | None => None
          end
      | TMinus :: rest =>
          match parse_factor f rest with
          | Some (e, rest') =>
              match parse_product_rest f e rest' with
              | Some (e', rest'') => parse_sum_rest f (Bin Sub acc e') rest''
              | None => None
              end
          | None => None
          end
      | _ => Some (acc, ts)
      end
  end
with parse_sum (fuel : nat) (ts : list token) : option (expr * list token) :=
  match fuel with
  | O => None
  | S f =>
      match parse_factor f ts with
      | Some (e, rest) =>
          match parse_product_rest f e rest with
          | Some (e', rest') => parse_sum_rest f e' rest'
          | None => None
          end
      | None => None
      end
  end.

Definition parse (ts : list token) : result expr :=
  match parse_sum (5 * List.length ts + 5) ts with
  | Some (e, []) => Ok e
  | _ => Raise SyntaxError
  end.

Definition both_int (a b : py_value) : bool :=
  match a, b with PyInt _, PyInt _ => true | _, _ => false end.

Definition apply_binop (op : binop) (a b : py_value) : result py_value :=
  match as_number a, as_number b with
  | Some x, Some y =>
      match op with
      | Div => if Qeq_bool y 0 then Raise ZeroDivisionError else Ok (PyFloat (Qred (x / y)))
      | _ =>
          let r := match op with
                   | Add => (x + y)%Q | Sub => (x - y)%Q | _ => (x * y)%Q
                   end in
          Ok (if both_int a b then PyInt (Qfloor r) else PyFloat (Qred r))
      end
  | _, _ => Raise TypeError
  end.

Fixpoint run (e : expr) : result py_value :=
  match e with
  | Num v => Ok v
  | Name _ => Raise NameError
  | Pos e' => run e'
  | Neg e' => v <- run e' ;; apply_binop Sub (PyInt 0) v
  | Bin op l r => a <- run l ;; b <- run r ;; apply_binop op a b
  end.

Definition arith_eval (source : string) : result py_value :=
  tokens <- lex source Idle ;;
  e <- parse tokens ;;
  run e.

(** A decimal expansion: the integer part and up to sixteen places. *)
Fixpoint fraction_digits (places : nat) (remainder : Z) (den : Z) : string :=
  match places with
  | O => EmptyString
  | S k =>
      if (remainder =? 0)%Z then EmptyString
      else
        let r := (remainder * 10)%Z in
        String (ascii_of_N (48 + Z.to_N (r / den))) (fraction_digits k (r mod den) den)
  end.

Definition decimal_repr (q : Q) : string :=
  let n := Z.abs (Qnum q) in
  let d := Zpos (Qden q) in
  let frac := fraction_digits 16 (n mod d) d in
  (if (Qnum q <? 0)%Z then "-" else EmptyString)
  ++ str_nat (n / d) ++ "." ++ (if frac =? EmptyString then "0" else frac).

#[export] Instance arith_builtins : Builtins :=
  {| eval := arith_eval; float_repr := decimal_repr |}.

End Interp.

(* ===================================================================== *)
(** * The specification's side of the claims *)
(* ===================================================================== *)

Module ScoringSpec.
Import Py Models Scoring.


(** The average, over the rating categories, of each category's mean score
    on the 0-100 scale. *)
Definition category_average (ratings : list RatingDict) : Q :=
  let groups := group_by_category ratings in
  sum (map (fun kv => sum (snd kv) / of_nat (List.length (snd kv))) groups)
  / of_nat (List.length groups).

(** The service-delivery score as the specification words it: the 0.7/0.3
    blend when both signals are there, else the one signal by itself. *)
Definition claimed_service_delivery (official : option Q) (ratings : list RatingDict)
  : Q :=
  match truthy_num official, official, ratings with
  | true, Some o, [] => o
  | true, Some o, _ => 0.7 * o + 0.3 * category_average ratings
  | _, _, [] => 50
  | _, _, _ => category_average ratings
  end.

(** Every category of a grouping holds at least one score, and only scores
    that satisfy [P]. *)
Definition groups_ok (P : Q -> Prop) (groups : list (option string * list Q)) : Prop :=
  Forall (fun kv => snd kv <> [] /\ Forall P (snd kv)) groups.

End ScoringSpec.

Module IngestionSpec.
Import Py Models MetricsFramework DataIngestion.
Local Open Scope string_scope.

(** The tiers of [find_matching_metric], as conditions on its input. *)
Definition exact_tier (self : MetricNormalizer) (raw_name : string) : Prop :=
  exists metric, get_metric_definition self raw_name = Some metric.

Definition alternative_tier (self : MetricNormalizer) (raw_name : string) : Prop :=
  exists entry alt,
    In entry (metrics_by_name self)
    /\ In alt (alternative_sources (snd entry))
    /\ normalize_name alt = normalize_name raw_name.

Definition state_tier (raw_name : string) (state : option string) : Prop :=
  exists st table entry alt,
    state = Some st /\ st <> EmptyString
    /\ dict_get st STATE_METRIC_MAPPINGS = Some table
    /\ In entry table
    /\ In alt (snd entry)
    /\ normalize_name alt = normalize_name raw_name.

(** The fuzzy tier the specification describes: token sets after separator
    normalisation, accepted when they share at least 0.6 times the size of
    the smaller one; the first definition in catalog order wins. *)
Definition spec_token_set (s : string) : list string := to_set (split (normalize_name s)).

Definition spec_fuzzy_accepts (raw_name candidate : string) : bool :=
  let a := spec_token_set raw_name in
  let b := spec_token_set candidate in
  Qle_b (0.6 * of_nat (Nat.min (List.length a) (List.length b)))
        (of_nat (List.length (intersection a b))).

Definition spec_fuzzy_tier (raw_name : string) (catalog : list StandardizedMetric)
  : option StandardizedMetric :=
  find (fun m => spec_fuzzy_accepts raw_name (canonical_name m)) catalog.

(** The band the specification gives, ends included. *)
Definition in_closed_band (p : Q) (peer : list (string * py_value)) : bool :=
  match as_number (peer_population peer) with
  | Some n => Qle_b (0.5 * p) n && Qle_b n (1.5 * p)
  | None => false
  end.

(** The numbers among the values the estimator averages. *)
Fixpoint numbers_of (values : list py_value) : list Q :=
  match values with
  | [] => []
  | v :: rest => match as_number v with
                 | Some x => x :: numbers_of rest
                 | None => numbers_of rest
                 end
  end.

(** The estimate as the specification words it: over the peers whose
    population lies in the band from half to one and a half times the
    entity's, ends included, the mean of the values of the metric that are
    not [None]. *)
Definition closed_band_values (metric_name : string) (p : Q)
  (peers : list (list (string * py_value))) : list Q :=
  flat_map (fun peer =>
              if in_closed_band p peer then
                match dict_get metric_name peer with
                | Some v => match as_number v with Some x => [x] | None => [] end
                | None => []
                end
              else [])
           peers.

Definition claimed_estimate (metric_name : string) (p : Q)
  (peers : list (list (string * py_value))) : option Q :=
  match closed_band_values metric_name p peers with
  | [] => None
  | values => Some (sum values / of_nat (List.length values))
  end.

(** The profiles of the councils listed, in the order listed; a council the
    database does not know has none. *)
Fixpoint profiles_of `{Builtins} (sources_of : Z -> list (string * list (string * Payload)))
  (db : Session) (selected : list Council) : result (list NormalizedData) :=
  match selected with
  | [] => Ok []
  | council :: rest =>
      normalized <- normalize_council_data (id council) (sources_of (id council)) db ;;
      others <- profiles_of sources_of db rest ;;
      Ok (match normalized with
          | Some nd => nd :: others
          | None => others
          end)
  end.

(** The values a list of profiles holds for a metric, in the order of the
    profiles; a profile without the metric, or with [None] for it, gives
    none. *)
Definition metric_values (canonical : string) (profiles : list NormalizedData)
  : list py_value :=
  flat_map (fun council_data =>
              match dict_get canonical (standardized_metrics council_data) with
              | Some obs => if is_none (value obs) then [] else [value obs]
              | None => []
              end)
           profiles.

(** What the loop of [aggregate_state_data] over the catalog holds for a
    metric it has been through: the aggregate of the numbers collected for
    it, or no entry when there is none. *)
Definition stored (total : nat) (profiles : list NormalizedData) (m : StandardizedMetric)
  (acc : list (string * MetricAggregate)) : Prop :=
  exists values,
    numbers (collect_values (canonical_name m) profiles) = Ok values
    /\ match aggregate_values (lower_is_better m) total values with
       | Some agg => dict_get (canonical_name m) acc = Some agg
       | None => dict_get (canonical_name m) acc = None
       end.

End IngestionSpec.

(* ===================================================================== *)
(** * Concrete councils, payloads and ratings *)
(* ===================================================================== *)

Module Examples.
Import Py.
Local Open Scope string_scope.

Definition alpha : Models.Council :=
  {| Models.id := 1; Models.name := "Alpha"; Models.state := "Victoria";
     Models.population := Some 150000%Z; Models.area_km2 := None |}.

(** An approved rating of council 1, made at the time of the query. *)
Definition rated (stars : Q) (category : string) : Models.Rating :=
  {| Models.r_user_id := None; Models.r_council_id := 1;
     Models.r_service_category := Some category; Models.r_rating := stars;
     Models.r_moderation_status := "approved"; Models.r_created_at := 1000%Z |}.

(** Council 1 with three ratings on roads and nothing else on record. *)
Definition three_ratings_db : Models.Session :=
  {| Models.councils := [alpha];
     Models.council_metrics := [];
     Models.ratings := [rated 3 "roads"; rated 3 "roads"; rated 4 "roads"];
     Models.issue_reports := [];
     Models.now := 1000%Z |}.

(** Council 1 with nothing on record but itself. *)
Definition alpha_db : Models.Session :=
  {| Models.councils := [alpha];
     Models.council_metrics := [];
     Models.ratings := [];
     Models.issue_reports := [];
     Models.now := 1000%Z |}.

(** Base metrics holding an official delivery score of 80 only. *)
Definition official_80 : Scoring.BaseMetrics :=
  {| Scoring.customer_satisfaction := None;
     Scoring.service_delivery_score := Some 80;
     Scoring.rates_revenue := None;
     Scoring.total_revenue := None;
     Scoring.population := None |}.

Definition no_metrics : Scoring.BaseMetrics :=
  {| Scoring.customer_satisfaction := None;
     Scoring.service_delivery_score := None;
     Scoring.rates_revenue := None;
     Scoring.total_revenue := None;
     Scoring.population := None |}.

Definition five_stars : Scoring.RatingDict :=
  {| Scoring.rating := 5; Scoring.service_category := Some "roads";
     Scoring.created_at := 1000%Z; Scoring.user_id := None |}.


(** The record [_get_council_info] builds for [alpha]. *)
Definition alpha_info : list (string * py_value) :=
  [("id", PyInt 1); ("name", PyStr "Alpha"); ("state", PyStr "Victoria");
   ("population", PyInt 150000); ("area_km2", PyNone)].

(** One source whose payload has a key equal to a canonical name. *)
Definition recycling_report : list (string * list (string * DataIngestion.Payload)) :=
  [("council_report", [("waste_recycling_rate", DataIngestion.Leaf (PyFloat 55))])].

(** What [_parse_council_report] hands back (its mock figures). *)
Definition parsed_report : list (string * DataIngestion.Payload) :=
  [("financial",
    DataIngestion.Nested [("rates_revenue", DataIngestion.Leaf (PyInt 120000000));
                          ("total_revenue", DataIngestion.Leaf (PyInt 150000000));
                          ("total_expenditure", DataIngestion.Leaf (PyInt 145000000))]);
   ("performance",
    DataIngestion.Nested [("complaint_response_time", DataIngestion.Leaf (PyFloat 3.2));
                          ("waste_collection_efficiency", DataIngestion.Leaf (PyFloat 95.5));
                          ("customer_satisfaction", DataIngestion.Leaf (PyInt 82))]);
   ("source", DataIngestion.Leaf (PyStr "council_report"));
   ("year", DataIngestion.Leaf (PyInt 2024))].

(** The ninth entry of the catalog. *)
Definition waste_recycling_rate : MetricsFramework.StandardizedMetric :=
  {| MetricsFramework.canonical_name := "waste_recycling_rate";
     MetricsFramework.display_name := "Waste Recycling Rate";
     MetricsFramework.category := MetricsFramework.ENVIRONMENTAL;
     MetricsFramework.description := "Percentage of waste that is recycled or composted";
     MetricsFramework.unit := "%";
     MetricsFramework.lower_is_better := false;
     MetricsFramework.expected_availability := 0.7;
     MetricsFramework.calculation_method := None;
     MetricsFramework.alternative_sources :=
       ["recycling_rate"; "waste_diversion_rate"; "resource_recovery_rate"] |}.

(** A region of two councils: the second has exactly half the population of
    the first, and a metrics row. *)
Definition half_peer_db : Models.Session :=
  {| Models.councils :=
       [ {| Models.id := 1; Models.name := "Alpha"; Models.state := "Victoria";
            Models.population := Some 100%Z; Models.area_km2 := None |};
         {| Models.id := 2; Models.name := "Beta"; Models.state := "Victoria";
            Models.population := Some 50%Z; Models.area_km2 := None |} ];
     Models.council_metrics :=
       [ {| Models.cm_council_id := 2; Models.cm_year := 2024;
            Models.cm_rates_revenue := Some 500; Models.cm_total_revenue := None;
            Models.cm_total_expenditure := None; Models.cm_operating_deficit := None;
            Models.cm_population_served := Some 50%Z; Models.cm_area_km2 := None;
            Models.cm_roads_maintained_km := None;
            Models.cm_customer_satisfaction := None;
            Models.cm_service_delivery_score := None |} ];
     Models.ratings := [];
     Models.issue_reports := [];
     Models.now := 1000%Z |}.

(** The entity the peers are sought for: population 100. *)
Definition entity_100 : list (string * py_value) :=
  [("state", PyStr "Victoria"); ("population", PyInt 100);
   ("population_served", PyInt 100)].

(** The record the peer query builds for the second council. *)
Definition beta_record : list (string * py_value) :=
  [("population_served", PyInt 50);
   ("rates_revenue_per_capita", PyFloat (500 / inject_Z 50));
   ("total_revenue_per_capita", PyNone);
   ("customer_satisfaction_score", PyNone);
   ("waste_collection_efficiency", PyNone)].

(** A peer with the given population and value of the rates metric. *)
Definition peer_with (served : Z) (rates : Q) : list (string * py_value) :=
  [("population_served", PyInt served); ("rates_revenue_per_capita", PyFloat rates)].

End Examples.

(* ===================================================================== *)
(** * The comparison of councils (data_ingestion.py, DataAggregator) *)
(* ===================================================================== *)

Module CouncilComparison.
Import Py Models MetricsFramework DataIngestion.
Local Open Scope string_scope.

(** A dictionary keyed by council id. *)
Fixpoint id_get {V} (key : Z) (d : list (Z * V)) : option V :=
  match d with
  | [] => None
  | (k, v) :: rest => if (k =? key)%Z then Some v else id_get key rest
  end.

Fixpoint id_set {V} (key : Z) (v : V) (d : list (Z * V)) : list (Z * V) :=
  match d with
  | [] => [(key, v)]
  | (k, w) :: rest =>
      if (k =? key)%Z then (k, v) :: rest else (k, w) :: id_set key v rest
  end.

(** [a < b] on objects: numbers with numbers, text with text; anything else
    raises. *)
Definition py_lt (a b : py_value) : result bool :=
  match a, b with
  | PyStr s, PyStr t => Ok (String.ltb s t)
  | _, _ =>
      match as_number a, as_number b with
      | Some x, Some y => Ok (Qlt_b x y)
      | _, _ => Raise TypeError
      end
  end.

(** A stable ascending sort on the second component, with [<] only. *)
Fixpoint insert_by_value (x : Z * py_value) (l : list (Z * py_value))
  : result (list (Z * py_value)) :=
  match l with
  | [] => Ok [x]
  | y :: rest =>
      before <- py_lt (snd y) (snd x) ;;
      if before then (placed <- insert_by_value x rest ;; Ok (y :: placed))
      else Ok (x :: y :: rest)
  end.

Fixpoint sort_by_value (l : list (Z * py_value)) : result (list (Z * py_value)) :=
  match l with
  | [] => Ok []
  | x :: rest => tail <- sort_by_value rest ;; insert_by_value x tail
  end.

(** [sorted(values, key=lambda x: x[1], reverse=reverse)]: with [reverse]
    the list is reversed, sorted and reversed again, so equal values keep
    their order. *)
Definition sorted_by_value (reverse : bool) (values : list (Z * py_value))
  : result (list (Z * py_value)) :=
  if reverse then (ascending <- sort_by_value (rev values) ;; Ok (rev ascending))
  else sort_by_value values.

(** [{council_id: rank for rank, (council_id, _) in enumerate(sorted_values, 1)}] *)
Fixpoint enumerate_ranks (rank : nat) (sorted_values : list (Z * py_value))
  (acc : list (Z * nat)) : list (Z * nat) :=
  match sorted_values with
  | [] => acc
  | (council_id, _) :: rest => enumerate_ranks (S rank) rest (id_set council_id rank acc)
  end.

(** The ranking [generate_comparison_data] stores for one metric. *)
Definition rank_councils (lower_better : bool) (values : list (Z * py_value))
  : result (list (Z * nat)) :=
  sorted_values <- sorted_by_value (negb lower_better) values ;;
  Ok (enumerate_ranks 1 sorted_values []).

(** One entry of [comparison['metrics']]. *)
Record MetricComparison : Type := {
  mc_display_name : string;
  mc_unit : string;
  mc_lower_is_better : bool;
  mc_values : list (Z * py_value)
}.

(** What [generate_comparison_data] returns. *)
Record ComparisonData : Type := {
  cmp_councils : list NormalizedData;
  cmp_metrics : list (string * MetricComparison);
  cmp_ranking : list (string * list (Z * nat))
}.

(** The loop over the councils for one metric: the [values] dictionary of
    the metric and the list of pairs to rank. *)
Definition collect_comparison (canonical : string) (councils : list NormalizedData)
  : list (Z * py_value) * list (Z * py_value) :=
  fold_left
    (fun state council_data =>
       match dict_get canonical (standardized_metrics council_data) with
       | Some obs =>
           let council_id := nd_council_id council_data in
           (id_set council_id (value obs) (fst state),
            if is_none (value obs) then snd state
            else (snd state ++ [(council_id, value obs)])%list)
       | None => state
       end)
    councils ([], []).

(** [DataAggregator.generate_comparison_data]; [sources_of] is what
    ingestion brings back for each council. *)
Definition generate_comparison_data `{Builtins} (council_ids : list Z)
  (sources_of : Z -> list (string * list (string * Payload))) (db : Session)
  : result ComparisonData :=
  councils <-
    fold_raising (fun acc council_id =>
                    normalized <- normalize_council_data council_id (sources_of council_id) db ;;
                    Ok (match normalized with
                        | Some nd => (acc ++ [nd])%list
                        | None => acc
                        end))
                 council_ids [] ;;
  built <-
    fold_raising (fun acc metric =>
                    let canonical := canonical_name metric in
                    let collected := collect_comparison canonical councils in
                    let metrics :=
                      dict_set canonical
                               {| mc_display_name := display_name metric;
                                  mc_unit := unit metric;
                                  mc_lower_is_better := lower_is_better metric;
                                  mc_values := fst collected |}
                               (fst acc) in
                    match snd collected with
                    | [] => Ok (metrics, snd acc)
                    | values =>
                        ranks <- rank_councils (lower_is_better metric) values ;;
                        Ok (metrics, dict_set canonical ranks (snd acc))
                    end)
                 STANDARDIZED_METRICS ([], []) ;;
  Ok {| cmp_councils := councils;
        cmp_metrics := fst built;
        cmp_ranking := snd built |}.

End CouncilComparison.

(* ===================================================================== *)
(** * Notions the invariants are stated with *)
(* ===================================================================== *)

Module ScoringNotions.
Import Py Models Scoring.

(** The order of the confidence grades. *)
Definition confidence_rank (c : Confidence) : nat :=
  match c with very_low => 0 | low => 1 | medium => 2 | high => 3 end.

(** The test [_calculate_responsiveness_score] keeps an issue by. *)
Definition counts_as_resolved (i : IssueDict) : bool :=
  (status i =? "resolved")%string && truthy_int (resolution_time_days i).

(** The session after one more rating is stored. *)
Definition add_rating (r : Rating) (db : Session) : Session :=
  {| councils := councils db;
     council_metrics := council_metrics db;
     Models.ratings := (Models.ratings db ++ [r])%list;
     issue_reports := issue_reports db;
     now := now db |}.

End ScoringNotions.

Module FrameworkNotions.
Import Py Models MetricsFramework DataIngestion CouncilComparison.
Local Open Scope string_scope.

(** Do the state tables name only metrics the normalizer holds? *)
Definition state_tables_closed (self : MetricNormalizer) : bool :=
  forallb (fun table =>
             forallb (fun entry => dict_mem (fst entry) (metrics_by_name self)) (snd table))
          STATE_METRIC_MAPPINGS.

(** What [normalize_name] does to one character. *)
Definition normalize_char (c : ascii) : ascii :=
  let l := lower_ascii c in
  if (l =? "_")%char || (l =? "-")%char then " "%char else l.

Fixpoint map_chars (f : ascii -> ascii) (s : string) : string :=
  match s with
  | EmptyString => EmptyString
  | String c rest => String (f c) (map_chars f rest)
  end.

(** The metrics of a table that belong to one category, in table order. *)
Definition of_category (c : MetricCategory) (table : list StandardizedMetric)
  : list StandardizedMetric :=
  filter (fun m => category_eqb (category m) c) table.

(** A flat map as [_extract_raw_metrics] leaves it: one entry per key, and
    numbers only. *)
Definition flat_numbers (raw_metrics : list (string * py_value)) : Prop :=
  NoDup (map fst raw_metrics)
  /\ forall k v, In (k, v) raw_metrics -> is_number v = true.

(** An observation taken from the raw map. *)
Definition matched_observation (raw_metrics : list (string * py_value)) (obs : Observation)
  : Prop :=
  source obs = "multiple_sources" /\ confidence obs = "high"
  /\ exists k, In (k, raw_value obs) raw_metrics.

(** The state of the loop of step 3 of [normalize_council_data] after the
    metrics [done]. *)
Definition loop_invariant (raw_metrics : list (string * py_value))
  (done : list StandardizedMetric) (acc : list (string * Observation) * nat) : Prop :=
  snd acc = List.length (fst acc)
  /\ (List.length (fst acc) <= List.length done)%nat
  /\ (forall key, In key (map fst (fst acc)) -> In key (map canonical_name done))
  /\ (forall key obs, In (key, obs) (fst acc) -> matched_observation raw_metrics obs).

(** Was the value taken for a standardized metric? *)
Definition used_in_standardization (standardized : list (string * Observation))
  (v : py_value) : bool :=
  existsb (fun std => py_eqb (raw_value (snd std)) v) standardized.

(** The number a ranked value stands for. *)
Definition key_of (entry : Z * py_value) : Q :=
  match as_number (snd entry) with Some x => x | None => 0 end.

Definition numeric (values : list (Z * py_value)) : Prop :=
  Forall (fun entry => as_number (snd entry) <> None) values.

Definition le_key (a b : Z * py_value) : Prop := key_of a <= key_of b.
Definition ge_key (a b : Z * py_value) : Prop := key_of b <= key_of a.

(** The pairs [generate_comparison_data] ranks for one metric: a council's
    id with its value, for the councils that have one. *)
Definition valued_councils (canonical : string) (councils : list NormalizedData)
  : list (Z * py_value) :=
  flat_map (fun council_data =>
              match dict_get canonical (standardized_metrics council_data) with
              | Some obs =>
                  if is_none (value obs) then []
                  else [(nd_council_id council_data, value obs)]
              | None => []
              end)
           councils.

End FrameworkNotions.

(** Further councils, rows and records. *)
Module Cases.
Import Py.
Local Open Scope string_scope.

(** Base metrics of a council of 1000 people with satisfaction 80. *)
Definition with_revenue (revenue : Q) : Scoring.BaseMetrics :=
  {| Scoring.customer_satisfaction := Some 80;
     Scoring.service_delivery_score := None;
     Scoring.rates_revenue := Some revenue;
     Scoring.total_revenue := None;
     Scoring.population := Some 1000%Z |}.

Definition issue (state : string) (days : option Z) : Scoring.IssueDict :=
  {| Scoring.status := state; Scoring.issue_created_at := 1000%Z;
     Scoring.resolution_time_days := days; Scoring.priority := "normal" |}.

(** A metrics row of council 1 holding a satisfaction figure only. *)
Definition row_of_year (year : Z) (satisfaction : Q) : Models.CouncilMetrics :=
  {| Models.cm_council_id := 1; Models.cm_year := year;
     Models.cm_rates_revenue := None; Models.cm_total_revenue := None;
     Models.cm_total_expenditure := None; Models.cm_operating_deficit := None;
     Models.cm_population_served := None; Models.cm_area_km2 := None;
     Models.cm_roads_maintained_km := None;
     Models.cm_customer_satisfaction := Some satisfaction;
     Models.cm_service_delivery_score := None |}.

Definition two_years_db : Models.Session :=
  {| Models.councils := [Examples.alpha];
     Models.council_metrics := [row_of_year 2022 60; row_of_year 2023 70];
     Models.ratings := [];
     Models.issue_reports := [];
     Models.now := 1000%Z |}.

(** A rating of council 1 that awaits moderation. *)
Definition pending : Models.Rating :=
  {| Models.r_user_id := None; Models.r_council_id := 1;
     Models.r_service_category := Some "roads"; Models.r_rating := 1;
     Models.r_moderation_status := "pending"; Models.r_created_at := 1000%Z |}.

(** A council whose population is not recorded. *)
Definition gamma : Models.Council :=
  {| Models.id := 3; Models.name := "Gamma"; Models.state := "NSW";
     Models.population := None; Models.area_km2 := None |}.

Definition gamma_db : Models.Session :=
  {| Models.councils := [gamma];
     Models.council_metrics := [];
     Models.ratings := [];
     Models.issue_reports := [];
     Models.now := 1000%Z |}.

(** A peer record whose population is not recorded. *)
Definition unknown_peer : list (string * py_value) :=
  [("population_served", PyNone); ("rates_revenue_per_capita", PyFloat 10)].

(** Three councils with a value: the first and the third are level. *)
Definition three_values : list (Z * py_value) :=
  [(1%Z, PyFloat 70); (2%Z, PyInt 90); (3%Z, PyFloat 70)].

(** A one-star rating. *)
Definition one_star : Scoring.RatingDict :=
  {| Scoring.rating := 1; Scoring.service_category := Some "roads";
     Scoring.created_at := 1000%Z; Scoring.user_id := None |}.

(** Ten five-star ratings and a one-star rating. *)
Definition eleven_ratings : list Scoring.RatingDict :=
  (repeat Examples.five_stars 10 ++ [one_star])%list.

(** A council of 100 people. *)
Definition council_100 : Models.Council :=
  {| Models.id := 1; Models.name := "Alpha"; Models.state := "Victoria";
     Models.population := Some 100%Z; Models.area_km2 := None |}.

(** The council of 100 and a neighbour of 75 that raises 750 in rates. *)
Definition near_peer_db : Models.Session :=
  {| Models.councils :=
       [ council_100;
         {| Models.id := 2; Models.name := "Beta"; Models.state := "Victoria";
            Models.population := Some 75%Z; Models.area_km2 := None |} ];
     Models.council_metrics :=
       [ {| Models.cm_council_id := 2; Models.cm_year := 2024;
            Models.cm_rates_revenue := Some 750; Models.cm_total_revenue := None;
            Models.cm_total_expenditure := None; Models.cm_operating_deficit := None;
            Models.cm_population_served := Some 75%Z; Models.cm_area_km2 := None;
            Models.cm_roads_maintained_km := None;
            Models.cm_customer_satisfaction := None;
            Models.cm_service_delivery_score := None |} ];
     Models.ratings := [];
     Models.issue_reports := [];
     Models.now := 1000%Z |}.

(** The record the peer query builds for the neighbour. *)
Definition near_record : list (string * py_value) :=
  [("population_served", PyInt 75);
   ("rates_revenue_per_capita", PyFloat (750 / inject_Z 75));
   ("total_revenue_per_capita", PyNone);
   ("customer_satisfaction_score", PyNone);
   ("waste_collection_efficiency", PyNone)].

(** A council of Victoria. *)
Definition victorian (council_id : Z) : Models.Council :=
  {| Models.id := council_id; Models.name := "Council"; Models.state := "Victoria";
     Models.population := Some 1000%Z; Models.area_km2 := None |}.

(** Four councils of Victoria. *)
Definition four_councils_db : Models.Session :=
  {| Models.councils := [victorian 1; victorian 2; victorian 3; victorian 4];
     Models.council_metrics := [];
     Models.ratings := [];
     Models.issue_reports := [];
     Models.now := 1000%Z |}.

(** Their reports: recycling rates of 4, 1, 3 and 2. *)
Definition recycling_of (council_id : Z)
  : list (string * list (string * DataIngestion.Payload)) :=
  let rate := if (council_id =? 1)%Z then 4
              else if (council_id =? 2)%Z then 1
              else if (council_id =? 3)%Z then 3 else 2 in
  [("council_report", [("waste_recycling_rate", DataIngestion.Leaf (PyFloat rate))])].

End Cases.

(* ===================================================================== *)
(** * Facts about the runtime model *)
(* ===================================================================== *)

Module PyFacts.
Import Py.

(** ** Comparisons *)

Lemma Qle_b_true (a b : Q) : Qle_b a b = true <-> a <= b.
Proof. unfold Qle_b. apply Qle_bool_iff. Qed.

Lemma Qle_b_false (a b : Q) : Qle_b a b = false <-> b < a.
Proof.
  unfold Qle_b. split.
  - intros H. apply Qnot_le_lt. intros L. apply Qle_bool_iff in L. congruence.
  - intros H. destruct (Qle_bool a b) eqn:E; [| reflexivity].
    apply Qle_bool_iff in E. lra.
Qed.

Lemma Qlt_b_true (a b : Q) : Qlt_b a b = true <-> a < b.
Proof. unfold Qlt_b. rewrite negb_true_iff. apply Qle_b_false. Qed.

Lemma Qlt_b_false (a b : Q) : Qlt_b a b = false <-> b <= a.
Proof. unfold Qlt_b. rewrite negb_false_iff. apply Qle_b_true. Qed.

Lemma Qlt_b_iff (a b : Q) (c : bool) : (Qlt_b a b = true <-> c = true) -> Qlt_b a b = c.
Proof.
  intros H. destruct (Qlt_b a b), c; try reflexivity.
  - symmetry. now apply H.
  - now apply H.
Qed.

(** ** Counts as rationals *)

Lemma of_nat_le (a b : nat) : of_nat a <= of_nat b <-> (a <= b)%nat.
Proof. unfold of_nat. rewrite <- Zle_Qle. lia. Qed.

Lemma of_nat_lt (a b : nat) : of_nat a < of_nat b <-> (a < b)%nat.
Proof. unfold of_nat. rewrite <- Zlt_Qlt. lia. Qed.

Lemma of_nat_mult (a b : nat) : of_nat (a * b) == of_nat a * of_nat b.
Proof. unfold of_nat. rewrite Nat2Z.inj_mul, inject_Z_mult. reflexivity. Qed.

Lemma of_nat_succ (n : nat) : of_nat (S n) == 1 + of_nat n.
Proof.
  unfold of_nat. rewrite Nat2Z.inj_succ, <- Z.add_1_l, inject_Z_plus. reflexivity.
Qed.

Lemma of_nat_pos (n : nat) : (0 < n)%nat -> 0 < of_nat n.
Proof. intros H. change 0 with (of_nat 0). apply of_nat_lt, H. Qed.

(** ** Rounding *)

Lemma round_half_even_cases (q : Q) :
  round_half_even q = Qfloor q \/ round_half_even q = (Qfloor q + 1)%Z.
Proof.
  unfold round_half_even.
  destruct (Qcompare _ _); try destruct (Z.even _); auto.
Qed.

Lemma round_half_even_Z (z : Z) : round_half_even (inject_Z z) = z.
Proof.
  unfold round_half_even. rewrite Qfloor_Z.
  destruct (Qcompare (inject_Z z - inject_Z z) (1 # 2)) eqn:C; try reflexivity.
  - apply Qeq_alt in C. lra.
  - apply Qgt_alt in C. lra.
Qed.

Lemma round_half_even_mono (p q : Q) :
  p <= q -> (round_half_even p <= round_half_even q)%Z.
Proof.
  intros Hpq.
  pose proof (Qfloor_resp_le _ _ Hpq) as Hf.
  destruct (Z.eq_dec (Qfloor p) (Qfloor q)) as [E | N].
  - unfold round_half_even. rewrite E.
    destruct (Qcompare (p - inject_Z (Qfloor q)) (1 # 2)) eqn:Cp;
      destruct (Qcompare (q - inject_Z (Qfloor q)) (1 # 2)) eqn:Cq;
      try (destruct (Z.even (Qfloor q))); try lia;
      repeat match goal with
             | H : Qcompare _ _ = Eq |- _ => apply Qeq_alt in H
             | H : Qcompare _ _ = Lt |- _ => apply Qlt_alt in H
             | H : Qcompare _ _ = Gt |- _ => apply Qgt_alt in H
             end; lra.
  - destruct (round_half_even_cases p) as [-> | ->];
      destruct (round_half_even_cases q) as [-> | ->]; lia.
Qed.

Lemma round_half_even_comp (p q : Q) : p == q -> round_half_even p = round_half_even q.
Proof.
  intros E. apply Z.le_antisymm; apply round_half_even_mono; lra.
Qed.

(** The nearest integer is at most one half away. *)
Lemma round_half_even_near (q : Q) :
  q - (1 # 2) <= inject_Z (round_half_even q) <= q + (1 # 2).
Proof.
  unfold round_half_even.
  pose proof (Qfloor_le q) as Hlo. pose proof (Qlt_floor q) as Hhi.
  rewrite inject_Z_plus in Hhi. change (inject_Z 1) with 1 in Hhi.
  destruct (Qcompare (q - inject_Z (Qfloor q)) (1 # 2)) eqn:C;
    [apply Qeq_alt in C | apply Qlt_alt in C | apply Qgt_alt in C];
    try destruct (Z.even (Qfloor q));
    rewrite ?inject_Z_plus; change (inject_Z 1) with 1; lra.
Qed.

Lemma pow10_pos (n : nat) : 0 < inject_Z (10 ^ Z.of_nat n).
Proof.
  replace 0 with (inject_Z 0) by reflexivity. rewrite <- Zlt_Qlt.
  apply Z.pow_pos_nonneg; lia.
Qed.

Lemma round_mono (p q : Q) (n : nat) : p <= q -> round p n <= round q n.
Proof.
  intros Hpq. unfold round.
  pose proof (pow10_pos n) as Hpos.
  set (s := inject_Z (10 ^ Z.of_nat n)) in *.
  apply Qmult_le_compat_r.
  - rewrite <- Zle_Qle. apply round_half_even_mono.
    apply Qmult_le_compat_r; lra.
  - apply Qlt_le_weak, Qinv_lt_0_compat, Hpos.
Qed.

Lemma round_comp (p q : Q) (n : nat) : p == q -> round p n == round q n.
Proof.
  intros E. apply Qle_antisym; apply round_mono; lra.
Qed.

(** An integer is its own rounding, to any number of places. *)
Lemma round_int (z : Z) (n : nat) : round (inject_Z z) n == inject_Z z.
Proof.
  unfold round. pose proof (pow10_pos n) as Hpos.
  set (s := inject_Z (10 ^ Z.of_nat n)) in *.
  assert (E : inject_Z z * s == inject_Z (z * 10 ^ Z.of_nat n)).
  { unfold s. rewrite inject_Z_mult. reflexivity. }
  rewrite (round_half_even_comp _ _ E), round_half_even_Z.
  rewrite inject_Z_mult. fold s. field. lra.
Qed.

Lemma round_le_int (q : Q) (z : Z) (n : nat) : q <= inject_Z z -> round q n <= inject_Z z.
Proof.
  intros H. rewrite <- (round_int z n). apply round_mono, H.
Qed.

(** Rounding to one place moves a value by at most a twentieth. *)
Lemma round_1_near (q : Q) : Qabs (round q 1 - q) <= 0.05.
Proof.
  unfold round. change (inject_Z (10 ^ Z.of_nat 1)) with 10.
  pose proof (round_half_even_near (q * 10)) as [Hlo Hhi].
  set (z := inject_Z (round_half_even (q * 10))) in *.
  assert (E : z / 10 == z * (1 # 10)) by reflexivity.
  rewrite E. apply Qabs_Qle_condition. split; lra.
Qed.

(** Rounding to two places moves a value by at most a two-hundredth. *)
Lemma round_2_near (q : Q) : Qabs (round q 2 - q) <= 0.005.
Proof.
  unfold round. change (inject_Z (10 ^ Z.of_nat 2)) with 100.
  pose proof (round_half_even_near (q * 100)) as [Hlo Hhi].
  set (z := inject_Z (round_half_even (q * 100))) in *.
  assert (E : z / 100 == z * (1 # 100)) by reflexivity.
  rewrite E. apply Qabs_Qle_condition. split; lra.
Qed.

End PyFacts.

Module ListFacts.
Import Py PyFacts.

(** ** Sums and means *)

Lemma fold_Qplus_shift (l : list Q) (a : Q) : fold_left Qplus l a == a + fold_left Qplus l 0.
Proof.
  revert a. induction l as [| x l IH]; intros a; cbn.
  - lra.
  - rewrite (IH (a + x)), (IH (0 + x)). lra.
Qed.

Lemma sum_cons (x : Q) (l : list Q) : sum (x :: l) == x + sum l.
Proof. unfold sum. cbn. rewrite fold_Qplus_shift. lra. Qed.

Lemma sum_ge (l : list Q) (c : Q) :
  (forall x, In x l -> c <= x) -> c * of_nat (List.length l) <= sum l.
Proof.
  induction l as [| x l IH]; intros H.
  - unfold sum, of_nat. cbn. change (inject_Z 0) with 0. lra.
  - rewrite sum_cons. cbn [List.length]. rewrite of_nat_succ.
    pose proof (H x (or_introl eq_refl)).
    assert (c * of_nat (List.length l) <= sum l) by (apply IH; intros; apply H; now right).
    lra.
Qed.

Lemma sum_le (l : list Q) (c : Q) :
  (forall x, In x l -> x <= c) -> sum l <= c * of_nat (List.length l).
Proof.
  induction l as [| x l IH]; intros H.
  - unfold sum, of_nat. cbn. change (inject_Z 0) with 0. lra.
  - rewrite sum_cons. cbn [List.length]. rewrite of_nat_succ.
    pose proof (H x (or_introl eq_refl)).
    assert (sum l <= c * of_nat (List.length l)) by (apply IH; intros; apply H; now right).
    lra.
Qed.

Lemma sum_filter_le (f : Q -> Q) (p : Q -> bool) (l : list Q) :
  (forall x, 0 <= f x) -> sum (map f (filter p l)) <= sum (map f l).
Proof.
  intros Hf. induction l as [| x l IH]; cbn [filter map].
  - lra.
  - destruct (p x); cbn [map]; rewrite ?sum_cons; pose proof (Hf x); lra.
Qed.

(** The mean of a non-empty list lies between any bounds of its elements. *)
Lemma mean_bounds (l : list Q) (lo hi : Q) :
  l <> [] -> (forall x, In x l -> lo <= x <= hi) ->
  lo <= sum l / of_nat (List.length l) <= hi.
Proof.
  intros Hne H.
  assert (Hn : 0 < of_nat (List.length l)).
  { apply of_nat_pos. destruct l; [congruence | cbn; lia]. }
  pose proof (sum_ge l lo (fun x Hx => proj1 (H x Hx))) as Hlo.
  pose proof (sum_le l hi (fun x Hx => proj2 (H x Hx))) as Hhi.
  split.
  - apply Qle_shift_div_l; [exact Hn | exact Hlo].
  - apply Qle_shift_div_r; [exact Hn | exact Hhi].
Qed.

(** ** Lists *)

Lemma filter_split_length {A} (p : A -> bool) (l : list A) :
  (List.length (filter p l) + List.length (filter (fun x => negb (p x)) l)
   = List.length l)%nat.
Proof.
  induction l as [| x l IH]; cbn; [reflexivity |].
  destruct (p x); cbn; lia.
Qed.

Lemma filter_all {A} (l : list A) : filter (fun _ => true) l = l.
Proof. induction l as [| x l IH]; cbn; [reflexivity | now rewrite IH]. Qed.

Lemma firstn_subset {A} (n : nat) (l : list A) (x : A) : In x (firstn n l) -> In x l.
Proof.
  revert l. induction n as [| n IH]; intros [| y l]; cbn; try tauto.
  intros [-> | Hx]; [now left | right; apply IH, Hx].
Qed.

Lemma flat_map_length_le {A B} (f : A -> list B) (l : list A) :
  (forall x, (List.length (f x) <= 1)%nat) ->
  (List.length (flat_map f l) <= List.length l)%nat.
Proof.
  intros Hf. induction l as [| x rest IH]; cbn [flat_map List.length]; [lia |].
  rewrite length_app. specialize (Hf x). lia.
Qed.

(** ** Sorting *)

Lemma insert_sorted_perm (x : Q) (l : list Q) : Permutation (x :: l) (insert_sorted x l).
Proof.
  induction l as [| y l IH]; cbn.
  - reflexivity.
  - destruct (Qle_b x y).
    + reflexivity.
    + rewrite perm_swap. constructor. exact IH.
Qed.

Lemma insert_sorted_hd (x y : Q) (l : list Q) :
  y <= x -> HdRel Qle y l -> HdRel Qle y (insert_sorted x l).
Proof.
  intros Hyx Hl. destruct l as [| z l]; cbn.
  - constructor. exact Hyx.
  - destruct (Qle_b x z); constructor; [exact Hyx |].
    inversion Hl. assumption.
Qed.

Lemma insert_sorted_ok (x : Q) (l : list Q) : Sorted Qle l -> Sorted Qle (insert_sorted x l).
Proof.
  induction 1 as [| y l Hs IH Hhd]; cbn.
  - repeat constructor.
  - destruct (Qle_b x y) eqn:E.
    + apply Qle_b_true in E. repeat constructor; assumption.
    + apply Qle_b_false in E. constructor; [exact IH |].
      apply insert_sorted_hd; [lra | exact Hhd].
Qed.

Lemma sorted_perm (l : list Q) : Permutation l (sorted l).
Proof.
  induction l as [| x l IH]; cbn.
  - reflexivity.
  - rewrite <- insert_sorted_perm. constructor. exact IH.
Qed.

Lemma sorted_ok (l : list Q) : Sorted Qle (sorted l).
Proof.
  induction l as [| x l IH]; cbn.
  - constructor.
  - apply insert_sorted_ok, IH.
Qed.

Lemma sorted_length (l : list Q) : List.length (sorted l) = List.length l.
Proof. symmetry. apply Permutation_length, sorted_perm. Qed.

Lemma Qle_transitive : Relations_1.Transitive Qle.
Proof. intros a b c. apply Qle_trans. Qed.

(** In an ascending list a later position holds a value at least as
    large. *)
Lemma sorted_nth_le (l : list Q) (i j : nat) (d : Q) :
  Sorted Qle l -> (i <= j < List.length l)%nat -> nth i l d <= nth j l d.
Proof.
  intros Hs. apply Sorted_StronglySorted in Hs; [| exact Qle_transitive].
  revert i j. induction Hs as [| x l Hs IH Hall]; intros i j [Hij Hj]; cbn in Hj.
  - lia.
  - destruct i as [| i], j as [| j]; cbn; try lia.
    + lra.
    + rewrite Forall_forall in Hall. apply Hall, nth_In. lia.
    + apply IH. lia.
Qed.

(** ** Dictionaries *)

Lemma dict_get_set_same {V} (k : string) (v : V) (d : list (string * V)) :
  dict_get k (dict_set k v d) = Some v.
Proof.
  induction d as [| [k' w] d IH]; cbn.
  - now rewrite String.eqb_refl.
  - destruct (k' =? k)%string eqn:E; cbn; rewrite E; [reflexivity | exact IH].
Qed.

Lemma dict_get_set_other {V} (k k' : string) (v : V) (d : list (string * V)) :
  k' <> k -> dict_get k (dict_set k' v d) = dict_get k d.
Proof.
  intros Hne. apply String.eqb_neq in Hne.
  induction d as [| [k0 w] d IH]; cbn.
  - now rewrite Hne.
  - destruct (k0 =? k')%string eqn:E; cbn.
    + apply String.eqb_eq in E. subst k0. now rewrite Hne.
    + destruct (k0 =? k)%string; [reflexivity | exact IH].
Qed.

(** ** Loops that may raise *)

Lemma fold_raising_ok {A B} (body : A -> B -> result A) (l : list B) (acc : A) :
  (forall a x, In x l -> exists a', body a x = Ok a') ->
  exists r, DataIngestion.fold_raising body l acc = Ok r.
Proof.
  revert acc. induction l as [| x rest IH]; intros acc Hbody; cbn.
  - eauto.
  - destruct (Hbody acc x (or_introl eq_refl)) as [acc1 ->]. cbn [bind].
    apply IH. intros a y Hy. apply Hbody. now right.
Qed.

Lemma filter_raising_filter {A} (cond : A -> result bool) (f : A -> bool) (l : list A) :
  (forall x, In x l -> cond x = Ok (f x)) ->
  MetricsFramework.filter_raising cond l = Ok (filter f l).
Proof.
  induction l as [| x rest IH]; intros H; cbn.
  - reflexivity.
  - rewrite (H x (or_introl eq_refl)). cbn [bind].
    rewrite IH by (intros; apply H; now right). cbn [bind]. reflexivity.
Qed.

End ListFacts.

(* ===================================================================== *)
(** * Properties of the Scoring Engine *)
(* ===================================================================== *)

Module ScoringProperties.
Import Py Models Scoring ScoringSpec PyFacts ListFacts.

(** ** The anti-gaming filter *)

(** The test on squares is the test the source writes with [math.sqrt]. *)
Lemma within_3_std_dev_sqrt (d variance : Q) :
  0 <= variance ->
  within_3_std_dev d variance = true
  <-> (Rabs (Q2R d) <= 3 * sqrt (Q2R variance))%R.
Proof.
  intros Hv. unfold within_3_std_dev. rewrite Qle_b_true.
  assert (Hv' : (0 <= Q2R variance)%R).
  { replace 0%R with (Q2R 0) by (unfold Q2R; cbn; lra). apply Qle_Rle, Hv. }
  assert (Hsq : (Rabs (Q2R d) <= 3 * sqrt (Q2R variance)
                 <-> Q2R d * Q2R d <= 9 * Q2R variance)%R).
  { split; intros H.
    - assert (H2 : (Rsqr (Rabs (Q2R d)) <= Rsqr (3 * sqrt (Q2R variance)))%R).
      { apply Rsqr_incr_1; [exact H | apply Rabs_pos |].
        apply Rmult_le_pos; [lra | apply sqrt_pos]. }
      rewrite <- Rsqr_abs in H2. rewrite Rsqr_mult, Rsqr_sqrt in H2 by exact Hv'.
      unfold Rsqr in H2. lra.
    - apply Rsqr_incr_0; [| apply Rabs_pos | apply Rmult_le_pos; [lra | apply sqrt_pos]].
      rewrite <- Rsqr_abs. rewrite Rsqr_mult, Rsqr_sqrt by exact Hv'.
      unfold Rsqr. lra. }
  rewrite Hsq.
  assert (E9 : Q2R 9 = 9%R) by (unfold Q2R; cbn; lra).
  split; intros H.
  - apply Qle_Rle in H. rewrite !Q2R_mult, E9 in H. exact H.
  - apply Rle_Qle. rewrite !Q2R_mult, E9. exact H.
Qed.

Lemma fewer_than_half (k n : nat) :
  Qlt_b (of_nat k) (of_nat n * 0.5) = (2 * k <? n)%nat.
Proof.
  apply Qlt_b_iff. rewrite Qlt_b_true, Nat.ltb_lt.
  rewrite <- of_nat_lt, of_nat_mult.
  change (of_nat 2) with 2. split; intros H; lra.
Qed.

Lemma square_nonneg (x m : Q) : 0 <= (x - m) ^ 2.
Proof.
  change ((x - m) ^ 2) with ((x - m) * (x - m)).
  generalize (x - m). intros a. nra.
Qed.

Lemma sum_squares_nonneg (m : Q) (l : list Q) :
  0 <= sum (map (fun x => (x - m) ^ 2) l).
Proof.
  pose proof (sum_ge (map (fun x => (x - m) ^ 2) l) 0) as H.
  rewrite Qmult_0_l in H. apply H. intros y Hy.
  apply in_map_iff in Hy as (x & <- & _). apply square_nonneg.
Qed.

Lemma variance_nonneg (m : Q) (l : list Q) :
  0 <= sum (map (fun x => (x - m) ^ 2) l) / of_nat (List.length l).
Proof.
  pose proof (sum_squares_nonneg m l) as Hs.
  destruct l as [| x l].
  - vm_compute. discriminate.
  - apply Qle_shift_div_l; [apply of_nat_pos; cbn; lia |]. lra.
Qed.

Lemma square_le_sum (m s : Q) (l : list Q) :
  In s l -> (s - m) ^ 2 <= sum (map (fun x => (x - m) ^ 2) l).
Proof.
  induction l as [| y l IH]; [contradiction |].
  cbn [map]. rewrite sum_cons. intros [-> | Hin].
  - pose proof (sum_squares_nonneg m l). lra.
  - pose proof (square_nonneg y m). specialize (IH Hin). lra.
Qed.

(** Chebyshev's bound: at most one point in nine lies farther than three
    standard deviations from the mean. *)
Lemma outliers_at_most_a_ninth (m : Q) (l : list Q) :
  let variance := sum (map (fun x => (x - m) ^ 2) l) / of_nat (List.length l) in
  (9 * List.length (filter (fun s => negb (within_3_std_dev (s - m) variance)) l)
   <= List.length l)%nat.
Proof.
  cbv zeta.
  assert (Hcase : l = [] \/ (0 < List.length l)%nat).
  { destruct l; [now left | right; cbn; lia]. }
  destruct Hcase as [-> | Hlen]; [cbn; lia |].
  set (sq := fun x => (x - m) ^ 2).
  set (n := of_nat (List.length l)).
  set (variance := sum (map sq l) / n).
  set (out := filter (fun s => negb (within_3_std_dev (s - m) variance)) l).
  assert (Hn : 0 < n) by (apply of_nat_pos, Hlen).
  assert (Hv : 0 <= variance) by apply variance_nonneg.
  assert (Hsum : sum (map sq l) == variance * n) by (unfold variance; field; lra).
  assert (Hfar : forall s, In s out -> 9 * variance < sq s).
  { intros s Hs. apply filter_In in Hs as [_ Hs]. apply negb_true_iff in Hs.
    unfold within_3_std_dev in Hs. apply Qle_b_false in Hs. exact Hs. }
  assert (Hout : 9 * variance * of_nat (List.length (map sq out)) <= sum (map sq out)).
  { apply sum_ge. intros y Hy. apply in_map_iff in Hy as (s & <- & Hs).
    apply Qlt_le_weak, Hfar, Hs. }
  rewrite length_map in Hout.
  assert (Hle : sum (map sq out) <= sum (map sq l)).
  { apply sum_filter_le. intros x. apply square_nonneg. }
  apply of_nat_le. rewrite of_nat_mult. change (of_nat 9) with 9. fold n.
  destruct (Qlt_le_dec 0 variance) as [Hpos | Hzero].
  - nra.
  - assert (Hsub : forall s, In s out -> In s l).
    { intros s Hs. apply filter_In in Hs as [Hin _]. exact Hin. }
    destruct out as [| s out'];
      [cbn [List.length]; change (of_nat 0) with 0; lra |].
    exfalso.
    pose proof (Hfar s (or_introl eq_refl)) as Hfar_s.
    pose proof (square_le_sum m s l (Hsub s (or_introl eq_refl))) as Hsq.
    fold sq in Hsq. change ((s - m) ^ 2) with (sq s) in Hsq. nra.
Qed.



(** ** Service delivery *)

Lemma append_rating_ok (P : Q -> Prop) cat x groups :
  P x -> groups_ok P groups -> groups_ok P (append_rating cat x groups).
Proof.
  intros Hx. induction 1 as [| [k l] rest [Hne Hall] Hrest IH]; cbn.
  - repeat constructor; [discriminate | exact Hx].
  - destruct (opt_eqb k cat).
    + constructor; [| exact Hrest]. cbn. split.
      * destruct l; discriminate.
      * apply Forall_app. split; [exact Hall | repeat constructor; exact Hx].
    + constructor; [split; assumption | exact IH].
Qed.

Lemma append_rating_not_nil cat x groups : append_rating cat x groups <> [].
Proof.
  destruct groups as [| [k l] rest]; cbn; [discriminate |].
  destruct (opt_eqb k cat); discriminate.
Qed.

Lemma fold_append_ok (P : Q -> Prop) (ratings : list RatingDict) groups :
  (forall r, In r ratings -> P (rating r * 20)) -> groups_ok P groups ->
  groups_ok P (fold_left (fun acc r => append_rating (service_category r) (rating r * 20) acc)
                         ratings groups).
Proof.
  revert groups. induction ratings as [| r rs IH]; intros groups Hall Hg; cbn.
  - exact Hg.
  - apply IH; [intros; apply Hall; now right |].
    apply append_rating_ok; [apply Hall; now left | exact Hg].
Qed.

Lemma fold_append_not_nil (ratings : list RatingDict) groups :
  groups <> [] ->
  fold_left (fun acc r => append_rating (service_category r) (rating r * 20) acc)
            ratings groups <> [].
Proof.
  revert groups. induction ratings as [| r rs IH]; intros groups Hg; cbn.
  - exact Hg.
  - apply IH, append_rating_not_nil.
Qed.

(** There is a category exactly when there is a rating. *)
Lemma group_by_category_nil (ratings : list RatingDict) :
  group_by_category ratings = [] <-> ratings = [].
Proof.
  split.
  - destruct ratings as [| r rs]; [reflexivity |]. unfold group_by_category. cbn.
    intros H. exfalso. revert H. apply fold_append_not_nil. discriminate.
  - intros ->. reflexivity.
Qed.

Lemma group_by_category_ok (P : Q -> Prop) (ratings : list RatingDict) :
  (forall r, In r ratings -> P (rating r * 20)) -> groups_ok P (group_by_category ratings).
Proof.
  intros H. apply fold_append_ok; [exact H | constructor].
Qed.

Lemma category_average_bounds (ratings : list RatingDict) :
  ratings <> [] -> (forall r, In r ratings -> 1 <= rating r <= 5) ->
  20 <= category_average ratings <= 100.
Proof.
  intros Hne Hr. unfold category_average.
  assert (Hok : groups_ok (fun x => 20 <= x <= 100) (group_by_category ratings)).
  { apply group_by_category_ok. intros r Hin. specialize (Hr r Hin). lra. }
  assert (Hnil : group_by_category ratings <> []).
  { intros E. apply group_by_category_nil in E. contradiction. }
  set (f := fun kv : option string * list Q => sum (snd kv) / of_nat (List.length (snd kv))).
  rewrite <- (length_map f (group_by_category ratings)).
  apply mean_bounds.
  - destruct (group_by_category ratings); [congruence | discriminate].
  - intros y Hy. apply in_map_iff in Hy as ([k l] & <- & Hin). cbn.
    unfold groups_ok in Hok. rewrite Forall_forall in Hok.
    destruct (Hok _ Hin) as [Hl Hall]. cbn in Hl, Hall.
    apply mean_bounds; [exact Hl |]. rewrite Forall_forall in Hall. exact Hall.
Qed.

(** Bounds a rounded score by an integer and leaves linear arithmetic. *)
Ltac round_bound z :=
  apply (round_le_int _ z);
  match goal with |- _ <= inject_Z ?c => change (inject_Z c) with (c # 1) end;
  lra.

Ltac service_delivery_cases :=
  repeat match goal with
         | |- _ /\ _ => split
         | |- forall _, _ => intro
         | H : Some _ = Some _ |- _ => injection H as <-
         end;
  try congruence; try discriminate; try reflexivity;
  try (round_bound 70%Z); try (round_bound 50%Z); try (round_bound 30%Z);
  try lra.

(** A rounded score is within a tenth of what is rounded. *)
Ltac near_tenth :=
  match goal with
  | |- Qabs (round ?x 1 - _) < _ =>
      let Hn := fresh "Hn" in
      pose proof (round_1_near x) as Hn;
      apply Qabs_Qle_condition in Hn;
      apply Qabs_Qlt_condition;
      set (rounded := round x 1) in *; split; lra
  end.

(** C10: with an official score in [0,100] and ratings in 1..5 the
    service-delivery score never exceeds 70: the weighted contributions are
    summed and divided by the number of signals present, which gives at most
    70 from the official score alone (the score is 0.7 times the official
    one, to the rounding), at most 30 from ratings alone (0.3 times their
    average) and at most 50 from both (half the sum of the two); with
    neither the score is the default 50. *)
Theorem C10_service_delivery_at_most_70 (metrics : BaseMetrics) (ratings : list RatingDict) :
  (forall o, service_delivery_score metrics = Some o -> 0 <= o <= 100) ->
  (forall r, In r ratings -> 1 <= rating r <= 5) ->
  let result := score (calculate_service_delivery_score metrics ratings) in
  let official := truthy_num (service_delivery_score metrics) in
  result <= 70
  /\ (forall o, service_delivery_score metrics = Some o -> official = true -> ratings = [] ->
      result <= 70 /\ Qabs (result - o * 0.7) < 0.1)
  /\ (official = false -> ratings <> [] ->
      result <= 30 /\ Qabs (result - category_average ratings * 0.3) < 0.1)
  /\ (forall o, service_delivery_score metrics = Some o -> official = true -> ratings <> [] ->
      result <= 50
      /\ Qabs (result - (o * 0.7 + category_average ratings * 0.3) / 2) < 0.1)
  /\ (official = false -> ratings = [] -> result == 50).
Proof.
  intros Hoff Hrat. cbv zeta.
  unfold calculate_service_delivery_score.
  fold (category_average ratings).
  assert (Hcases : (ratings = [] /\ group_by_category ratings = [])
                   \/ (ratings <> [] /\ exists g gs, group_by_category ratings = g :: gs)).
  { destruct (group_by_category ratings) as [| g gs] eqn:Eg.
    - left. split; [apply group_by_category_nil, Eg | reflexivity].
    - right. split; [| eauto]. intros E. apply group_by_category_nil in E. congruence. }
  destruct (service_delivery_score metrics) as [o |] eqn:Eo;
    [specialize (Hoff o eq_refl); destruct (truthy_num (Some o)) eqn:Et |];
    (destruct Hcases as [[Hnil ->] | [Hne (g & gs & ->)]];
     [| pose proof (category_average_bounds ratings Hne Hrat) as Havg]);
    cbn [truthy_num Nat.eqb score insufficient];
    change (of_nat 1) with 1; change (of_nat 2) with 2; unfold Qdiv;
    change (/ 1) with 1; change (/ 2) with (1 # 2).
  - (* the official score alone *)
    split; [round_bound 70%Z |].
    split; [intros o' [= <-] _ _; split; [round_bound 70%Z | near_tenth] |].
    split; [intros E; discriminate E |].
    split; [intros o' _ _ Hn; contradiction | intros E; discriminate E].
  - (* both signals *)
    split; [round_bound 70%Z |].
    split; [intros o' _ _ Hn; contradiction |].
    split; [intros E; discriminate E |].
    split; [intros o' [= <-] _ _; split; [round_bound 50%Z | near_tenth] |].
    intros E; discriminate E.
  - (* an official score of zero and no rating *)
    split; [lra |].
    split; [intros o' _ E; discriminate E |].
    split; [intros _ Hn; contradiction |].
    split; [intros o' _ E; discriminate E | intros _ _; reflexivity].
  - (* an official score of zero, and ratings *)
    split; [round_bound 70%Z |].
    split; [intros o' _ E; discriminate E |].
    split; [intros _ _; split; [round_bound 30%Z | near_tenth] |].
    split; [intros o' _ E; discriminate E | intros _ Hn; contradiction].
  - (* nothing on record *)
    split; [lra |].
    split; [intros o' E; discriminate E |].
    split; [intros _ Hn; contradiction |].
    split; [intros o' E; discriminate E | intros _ _; reflexivity].
  - (* ratings alone *)
    split; [round_bound 70%Z |].
    split; [intros o' E; discriminate E |].
    split; [intros _ _; split; [round_bound 30%Z | near_tenth] |].
    split; [intros o' E; discriminate E | intros _ Hn; contradiction].
Qed.

(** An official score of 80 with one five-star rating. *)
Lemma C10_service_delivery_at_most_70_witness :
  score (calculate_service_delivery_score Examples.official_80 [Examples.five_stars]) <= 70
  /\ score (calculate_service_delivery_score Examples.official_80 [Examples.five_stars])
     <= 50.
Proof.
  assert (Hoff : forall o, service_delivery_score Examples.official_80 = Some o ->
                           0 <= o <= 100).
  { intros o E. injection E as <-. split; unfold Qle; cbn; lia. }
  assert (Hrat : forall r, In r [Examples.five_stars] -> 1 <= rating r <= 5).
  { intros r [<- | []]. split; unfold Qle; cbn; lia. }
  pose proof (C10_service_delivery_at_most_70 Examples.official_80 [Examples.five_stars]
                Hoff Hrat) as (Hall & _ & _ & Hboth & _).
  split; [exact Hall |].
  apply (Hboth 80); [reflexivity | reflexivity | discriminate].
Defined.

(** C1 (the code departs from it): with the official score 80 as the only
    signal the component score is 56, not 80; with ratings averaging 100 as
    the only signal it is 30, not 100; with both it is 43, not the blend
    0.7 * 80 + 0.3 * 100 = 86. *)
Theorem C1_service_delivery_divides_weighted_sum :
  let official_only := score (calculate_service_delivery_score Examples.official_80 []) in
  let ratings_only :=
    score (calculate_service_delivery_score Examples.no_metrics [Examples.five_stars]) in
  let both :=
    score (calculate_service_delivery_score Examples.official_80 [Examples.five_stars]) in
  official_only == 56
  /\ claimed_service_delivery (Some 80) [] == 80
  /\ ratings_only == 30
  /\ claimed_service_delivery None [Examples.five_stars] == 100
  /\ both == 43
  /\ claimed_service_delivery (Some 80) [Examples.five_stars] == 86.
Proof.
  vm_compute. repeat split; reflexivity.
Qed.

(** ** The overall score *)



(** The exact sum of the weights is 1; their binary64 sum, in dictionary
    order, is the float just below 1. *)
Example weights_sum_binary64_below_one :
  PrimFloat.eqb Binary64.weights_sum Binary64.below_one = true
  /\ PrimFloat.ltb Binary64.below_one PrimFloat.one = true.
Proof. vm_compute. split; reflexivity. Qed.

(** ** The red-flag index *)

(** C6 as stated fails: for one recent and three previous issues the index
    carries the ratio 0.33, not 1/3, and the score 8.3, which is neither
    [min(100, 25/3)] nor [min(100, 0.33 * 25)]. *)
Lemma C6_counterexample_rounding :
  let idx := red_flag_of_counts 1 3 in
  spike_ratio idx == 0.33
  /\ rf_score idx == 8.3
  /\ ~ spike_ratio idx == of_nat 1 / of_nat 3
  /\ ~ rf_score idx == Qmin 100 (of_nat 1 / of_nat 3 * 25)
  /\ ~ rf_score idx == Qmin 100 (spike_ratio idx * 25).
Proof.
  vm_compute. repeat split; try reflexivity; discriminate.
Qed.

Lemma raw_red_flag_score_le (recent previous : nat) :
  raw_red_flag_score recent previous <= 100.
Proof. unfold raw_red_flag_score. apply Q.le_min_l. Qed.

(** C6 (amended): the ratio computed is recent/previous when previous > 0
    and recent * 2 when previous = 0; the index carries that ratio to the
    rounding to two places (within 0.01 of it) and the score
    [min(100, ratio * 25)] to the rounding to one place (within 0.1 of it);
    the score never exceeds 100 and does not decrease when the ratio grows;
    no previous and three recent issues give ratio 6 and score 100;
    confidence is medium exactly when the two counts add up to 10 or more,
    else low. *)
Theorem C6_red_flag_index (recent previous : nat) :
  let idx := red_flag_of_counts recent previous in
  let ratio := raw_spike_ratio recent previous in
  ((0 < previous)%nat -> ratio == of_nat recent / of_nat previous)
  /\ (previous = 0%nat -> ratio == of_nat recent * 2)
  /\ Qabs (spike_ratio idx - ratio) < 0.01
  /\ Qabs (rf_score idx - Qmin 100 (ratio * 25)) < 0.1
  /\ rf_score idx <= 100
  /\ (forall recent' previous',
        ratio <= raw_spike_ratio recent' previous' ->
        rf_score idx <= rf_score (red_flag_of_counts recent' previous'))
  /\ (rf_confidence idx = medium <-> (10 <= recent + previous)%nat)
  /\ (rf_confidence idx = low <-> (recent + previous < 10)%nat)
  /\ spike_ratio (red_flag_of_counts 3 0) == 6
  /\ rf_score (red_flag_of_counts 3 0) == 100.
Proof.
  cbv zeta.
  split; [| split].
  - unfold raw_spike_ratio. intros Hp. destruct previous; [lia | reflexivity].
  - unfold raw_spike_ratio. intros ->. reflexivity.
  - split; [| split; [| split; [| split; [| split; [| split; [| split]]]]]].
    + cbn [spike_ratio red_flag_of_counts].
      pose proof (round_2_near (raw_spike_ratio recent previous)) as Hn.
      apply Qabs_Qle_condition in Hn. apply Qabs_Qlt_condition.
      set (rounded := round _ 2) in *. split; lra.
    + cbn [rf_score red_flag_of_counts]. unfold raw_red_flag_score.
      pose proof (round_1_near (Qmin 100 (raw_spike_ratio recent previous * 25))) as Hn.
      apply Qabs_Qle_condition in Hn. apply Qabs_Qlt_condition.
      set (rounded := round _ 1) in *. split; lra.
    + cbn [rf_score red_flag_of_counts]. apply (round_le_int _ 100), raw_red_flag_score_le.
    + intros r' p' Hle. cbn [rf_score red_flag_of_counts]. apply round_mono.
      unfold raw_red_flag_score. apply Q.min_le_compat_l. lra.
    + cbn [rf_confidence red_flag_of_counts].
      destruct (10 <=? recent + previous)%nat eqn:E.
      * apply Nat.leb_le in E. tauto.
      * apply Nat.leb_gt in E. split; [discriminate | lia].
    + cbn [rf_confidence red_flag_of_counts].
      destruct (10 <=? recent + previous)%nat eqn:E.
      * apply Nat.leb_le in E. split; [discriminate | lia].
      * apply Nat.leb_gt in E. tauto.
    + vm_compute. reflexivity.
    + vm_compute. reflexivity.
Qed.

(** The parts of C6 at concrete counts. *)
Lemma C6_red_flag_index_witness :
  raw_spike_ratio 6 3 == of_nat 6 / of_nat 3
  /\ raw_spike_ratio 3 0 == of_nat 3 * 2
  /\ rf_score (red_flag_of_counts 1 3) <= rf_score (red_flag_of_counts 2 3)
  /\ rf_confidence (red_flag_of_counts 6 4) = medium
  /\ rf_confidence (red_flag_of_counts 6 3) = low.
Proof.
  pose proof (C6_red_flag_index 6 3) as (H1 & _).
  pose proof (C6_red_flag_index 3 0) as (_ & H2 & _).
  pose proof (C6_red_flag_index 1 3) as (_ & _ & _ & _ & _ & H3 & _).
  pose proof (C6_red_flag_index 6 4) as (_ & _ & _ & _ & _ & _ & H4 & _).
  pose proof (C6_red_flag_index 6 3) as (_ & _ & _ & _ & _ & _ & _ & H5 & _).
  split; [apply H1; lia |].
  split; [apply H2; reflexivity |].
  split; [apply (H3 2%nat 3%nat); vm_compute; discriminate |].
  split; [apply H4; cbn; lia | apply H5; cbn; lia].
Defined.

(** The index of a council is the index of its two counts. *)
Lemma calculate_red_flag_index_counts (council_id : Z) (db : Session) :
  exists recent previous,
    calculate_red_flag_index council_id db = red_flag_of_counts recent previous.
Proof. unfold calculate_red_flag_index. eauto. Qed.

(** The scenarios of the specification. *)
Example scenario_ratings_5_5_5_1 :
  filter_suspicious_ratings [100; 100; 100; 20] [] = [100; 100; 100; 20]
  /\ round (sum [100; 100; 100; 20] / of_nat 4) 1 == 80.
Proof. vm_compute. split; reflexivity. Qed.

End ScoringProperties.

(* ===================================================================== *)
(** * Properties of the normalizer, the matcher and the estimator *)
(* ===================================================================== *)

Module FrameworkProperties.
Import Py Models MetricsFramework DataIngestion IngestionSpec Interp PyFacts ListFacts.
Local Open Scope string_scope.

(** ** The Value Normalizer *)

Section Normalizer.
Context `{Builtins}.

Lemma normalize_value_ok (self : MetricNormalizer) (raw_value : py_value)
  (metric_name : string) (council_data : option (list (string * py_value))) :
  exists v, normalize_value self raw_value metric_name council_data = Ok v.
Proof.
  unfold normalize_value.
  destruct (get_metric_definition self metric_name) as [metric |]; [| eauto].
  destruct (truthy_text (calculation_method metric) && truthy_dict council_data); [| eauto].
  unfold try_except, bind.
  destruct (eval _); eauto.
Qed.

Lemma normalize_value_no_formula (self : MetricNormalizer) (raw_value : py_value)
  (metric_name : string) (council_data : option (list (string * py_value)))
  (metric : StandardizedMetric) :
  get_metric_definition self metric_name = Some metric ->
  calculation_method metric = None ->
  normalize_value self raw_value metric_name council_data = Ok raw_value.
Proof.
  intros Hdef Hnone. unfold normalize_value. rewrite Hdef, Hnone. reflexivity.
Qed.

(** C8: [normalize_value] returns a value on every input, and whenever the
    evaluation of the metric's formula fails, for whatever reason, the value
    it returns is the raw value. *)
Theorem C8_normalize_value_falls_back (self : MetricNormalizer) (raw_value : py_value)
  (metric_name : string) (council_data : option (list (string * py_value))) :
  (exists v, normalize_value self raw_value metric_name council_data = Ok v)
  /\ (forall metric formula context e,
        get_metric_definition self metric_name = Some metric ->
        calculation_method metric = Some formula ->
        council_data = Some context ->
        eval (substitute formula context) = Raise e ->
        normalize_value self raw_value metric_name council_data = Ok raw_value).
Proof.
  split; [apply normalize_value_ok |].
  intros metric formula context e Hdef Hformula -> Hfail.
  unfold normalize_value. rewrite Hdef, Hformula.
  destruct (truthy_text (Some formula) && truthy_dict (Some context)); [| reflexivity].
  rewrite Hfail. reflexivity.
Qed.

End Normalizer.

(** The council record turns the formula into malformed text, and the raw
    value comes back. *)
Lemma C8_normalize_value_falls_back_witness :
  normalize_value metric_normalizer (PyInt 120000000) "rates_revenue_per_capita"
                  (Some Examples.alpha_info)
  = Ok (PyInt 120000000).
Proof.
  refine (proj2 (C8_normalize_value_falls_back metric_normalizer (PyInt 120000000)
                   "rates_revenue_per_capita" (Some Examples.alpha_info))
                _ "rates_revenue / population_served" Examples.alpha_info SyntaxError
                _ _ _ _);
    reflexivity.
Defined.

(** The three failures the specification names, and a formula that
    evaluates. *)
Example normalize_malformed_formula :
  substitute "rates_revenue / population_served" Examples.alpha_info
  = "rates_revenue / 150000_served"
  /\ eval "rates_revenue / 150000_served" = Raise SyntaxError
  /\ normalize_value metric_normalizer (PyInt 7) "rates_revenue_per_capita"
                     (Some Examples.alpha_info) = Ok (PyInt 7).
Proof. vm_compute. auto. Qed.

Example normalize_missing_variable :
  eval (substitute "rates_revenue / population_served" [("rates_revenue", PyInt 1200)])
  = Raise NameError
  /\ normalize_value metric_normalizer (PyInt 7) "rates_revenue_per_capita"
                     (Some [("rates_revenue", PyInt 1200)]) = Ok (PyInt 7).
Proof. vm_compute. auto. Qed.

Example normalize_division_by_zero :
  eval (substitute "rates_revenue / population_served"
                   [("rates_revenue", PyInt 1200); ("population_served", PyInt 0)])
  = Raise ZeroDivisionError
  /\ normalize_value metric_normalizer (PyInt 7) "rates_revenue_per_capita"
                     (Some [("rates_revenue", PyInt 1200); ("population_served", PyInt 0)])
     = Ok (PyInt 7).
Proof. vm_compute. auto. Qed.

Example normalize_formula_applies :
  normalize_value metric_normalizer (PyInt 7) "rates_revenue_per_capita"
                  (Some [("rates_revenue", PyInt 1200); ("population_served", PyInt 100)])
  = Ok (PyFloat 12).
Proof. vm_compute. auto. Qed.

(** ** The Metric Matcher *)

Lemma any_alias_true (raw_name_lower : string) (names : list string) :
  any_alias raw_name_lower names = true
  <-> exists alt, In alt names /\ normalize_name alt = raw_name_lower.
Proof.
  unfold any_alias. rewrite existsb_exists.
  split; intros (alt & Hin & E); exists alt; (split; [exact Hin |]);
    now apply String.eqb_eq.
Qed.

Lemma find_any_alias_none {A} (names_of : A -> list string) (raw_name_lower : string)
  (l : list A) :
  find (fun entry => any_alias raw_name_lower (names_of entry)) l = None
  <-> ~ exists entry alt,
          In entry l /\ In alt (names_of entry) /\ normalize_name alt = raw_name_lower.
Proof.
  split.
  - intros Hnone (entry & alt & Hin & Halt & E).
    pose proof (find_none _ _ Hnone entry Hin) as Hf. cbn in Hf.
    assert (Ht : any_alias raw_name_lower (names_of entry) = true)
      by (apply any_alias_true; eauto).
    congruence.
  - intros Hno. destruct (find _ l) as [entry |] eqn:E; [| reflexivity].
    exfalso. apply find_some in E as [Hin Ht]. apply any_alias_true in Ht as (alt & Halt & E).
    apply Hno. eauto.
Qed.

Lemma find_matching_metric_known (self : MetricNormalizer) (name : string)
  (state : option string) (m : StandardizedMetric) :
  get_metric_definition self name = Some m ->
  find_matching_metric self name state = Ok (Some (name, m)).
Proof.
  unfold get_metric_definition, find_matching_metric. intros ->. reflexivity.
Qed.

(** C3 as stated fails: [rates_revenue_capita] is no canonical name and no
    alias, with or without a state; its tokens overlap those of the first
    catalog entry in three places out of three, so the fuzzy tier of the
    specification would return that entry; [find_matching_metric] returns
    nothing. *)
Lemma C3_counterexample_no_fuzzy :
  find_matching_metric metric_normalizer "rates_revenue_capita" None = Ok None
  /\ find_matching_metric metric_normalizer "rates_revenue_capita" (Some "Victoria")
     = Ok None
  /\ spec_fuzzy_accepts "rates_revenue_capita" "rates_revenue_per_capita" = true
  /\ option_map canonical_name (spec_fuzzy_tier "rates_revenue_capita" STANDARDIZED_METRICS)
     = Some "rates_revenue_per_capita".
Proof. vm_compute. auto. Qed.

(** C3 (amended): [find_matching_metric] has three tiers and no fuzzy one:
    it returns nothing exactly when the raw name is no canonical name, no
    alternative name of any definition and no synonym of the given state
    (comparisons after lower-casing and separator normalisation); an exact
    canonical name is returned as it is. *)
Theorem C3_match_has_no_fuzzy_tier (self : MetricNormalizer) (raw_name : string)
  (state : option string) :
  (find_matching_metric self raw_name state = Ok None
   <-> ~ exact_tier self raw_name
       /\ ~ alternative_tier self raw_name
       /\ ~ state_tier raw_name state)
  /\ (forall metric, get_metric_definition self raw_name = Some metric ->
        find_matching_metric self raw_name state = Ok (Some (raw_name, metric))).
Proof.
  split; [| intros metric; apply find_matching_metric_known].
  unfold find_matching_metric, exact_tier, alternative_tier, state_tier, get_metric_definition.
  destruct (dict_get raw_name (metrics_by_name self)) as [metric |] eqn:E1.
  { split; [discriminate |]. intros (H1 & _). exfalso. apply H1. eauto. }
  destruct (find _ (metrics_by_name self)) as [[name metric] |] eqn:E2.
  { split; [discriminate |]. intros (_ & H2 & _). exfalso. apply H2.
    apply find_some in E2 as [Hin Ht]. apply any_alias_true in Ht as (alt & Halt & E).
    exists (name, metric), alt. auto. }
  apply (find_any_alias_none (fun entry => alternative_sources (snd entry))) in E2.
  assert (H1 : ~ (exists metric : StandardizedMetric, @None StandardizedMetric = Some metric))
    by (intros [m Hm]; discriminate).
  destruct state as [st |];
    [| split; [| reflexivity]; intros _; repeat split; try assumption;
       intros (st & table & entry & alt & Hst & _); discriminate].
  destruct (st =? EmptyString) eqn:Est.
  { apply String.eqb_eq in Est. split; [| reflexivity]. intros _.
    repeat split; try assumption.
    intros (st' & table & entry & alt & Hst & Hne & _).
    injection Hst as <-. contradiction. }
  apply String.eqb_neq in Est.
  destruct (dict_get st STATE_METRIC_MAPPINGS) as [table |] eqn:Etable;
    [| split; [| reflexivity]; intros _; repeat split; try assumption;
       intros (st' & table & entry & alt & Hst & _ & Ht & _);
       injection Hst as <-; congruence].
  destruct (find _ table) as [[std_name aliases] |] eqn:E3.
  - assert (Hhit : state_tier raw_name (Some st)).
    { apply find_some in E3 as [Hin Ht]. apply any_alias_true in Ht as (alt & Halt & E).
      exists st, table, (std_name, aliases), alt. repeat split; assumption. }
    split.
    + destruct (dict_get std_name (metrics_by_name self)); discriminate.
    + intros (_ & _ & H3). contradiction.
  - apply (find_any_alias_none (fun entry : string * list string => snd entry)) in E3.
    split; [| reflexivity]. intros _. repeat split; try assumption.
    intros (st' & table' & entry & alt & Hst & _ & Ht & Hin & Halt & E).
    injection Hst as <-. rewrite Etable in Ht. injection Ht as <-. apply E3. eauto.
Qed.

(** A name only the fuzzy test would accept, and an exact canonical
    name. *)
Lemma C3_match_has_no_fuzzy_tier_witness :
  ~ alternative_tier metric_normalizer "rates_revenue_capita"
  /\ find_matching_metric metric_normalizer "waste_recycling_rate" (Some "NSW")
     = Ok (Some ("waste_recycling_rate", Examples.waste_recycling_rate)).
Proof.
  split.
  - apply (proj1 (C3_match_has_no_fuzzy_tier metric_normalizer "rates_revenue_capita" None)).
    vm_compute. reflexivity.
  - apply (proj2 (C3_match_has_no_fuzzy_tier metric_normalizer "waste_recycling_rate"
                    (Some "NSW"))).
    vm_compute. reflexivity.
Defined.

(** The token test of the specification is the test [_names_similar]
    makes: equal normalised names have equal token sets. *)
Lemma intersection_self (a : list string) : intersection a a = a.
Proof.
  unfold intersection. rewrite <- (filter_all a) at 2.
  apply filter_ext_in. intros x Hx. unfold set_mem.
  apply existsb_exists. exists x. split; [exact Hx | apply String.eqb_refl].
Qed.

Lemma names_similar_spec (name1 name2 : string) :
  names_similar name1 name2 = spec_fuzzy_accepts name1 name2.
Proof.
  unfold names_similar, spec_fuzzy_accepts, spec_token_set.
  set (a := to_set (split (normalize_name name1))).
  set (b := to_set (split (normalize_name name2))).
  assert (Hcomm : forall m k : Q, Qle_b (m * 0.6) k = Qle_b (0.6 * m) k).
  { intros m k. unfold Qle_b.
    destruct (Qle_bool (m * 0.6) k) eqn:E1, (Qle_bool (0.6 * m) k) eqn:E2;
      try reflexivity.
    - apply Qle_bool_iff in E1.
      assert (E : (0.6 * m <= k)%Q) by lra.
      apply Qle_bool_iff in E. congruence.
    - apply Qle_bool_iff in E2.
      assert (E : (m * 0.6 <= k)%Q) by lra.
      apply Qle_bool_iff in E. congruence. }
  destruct (normalize_name name1 =? normalize_name name2) eqn:E; [| apply Hcomm].
  apply String.eqb_eq in E. symmetry.
  assert (Hab : b = a) by (unfold a, b; now rewrite E).
  rewrite Hab, intersection_self, Nat.min_id.
  apply Qle_b_true.
  pose proof (of_nat_pos (List.length a)) as Hpos.
  destruct (List.length a) as [| n]; [vm_compute; discriminate |].
  specialize (Hpos (Nat.lt_0_succ n)). lra.
Qed.

(** Matching ignores case and separators, and honours the state table. *)
Example match_alternative_name :
  option_map fst
    (match find_matching_metric metric_normalizer "Resident-Satisfaction" None with
     | Ok r => r
     | Raise _ => None
     end) = Some "customer_satisfaction_score".
Proof. vm_compute. reflexivity. Qed.

Example match_state_synonym :
  find_matching_metric metric_normalizer "diversion rate" (Some "NSW") = Ok None
  /\ option_map fst
       (match find_matching_metric metric_normalizer "diversion rate" (Some "Victoria") with
        | Ok r => r
        | Raise _ => None
        end) = Some "waste_recycling_rate".
Proof. vm_compute. auto. Qed.

(** ** The Peer Estimator *)

Lemma sum_values_numbers (values : list py_value) (acc : Q) :
  Forall (fun v => as_number v <> None) values ->
  sum_values values acc = Ok (fold_left Qplus (numbers_of values) acc)
  /\ List.length (numbers_of values) = List.length values.
Proof.
  intros Hall. revert acc. induction Hall as [| v rest Hv Hrest IH]; intros acc; cbn.
  - auto.
  - destruct (as_number v) as [x |]; [| congruence]. cbn.
    destruct (IH (acc + x)%Q) as [-> ->]. auto.
Qed.

Lemma truthy_positive (pv : py_value) (p : Q) :
  as_number pv = Some p -> 0 < p -> truthy pv = true.
Proof.
  intros Hp Hpos. destruct pv; cbn in *; try discriminate; injection Hp as <-.
  - apply negb_true_iff, Z.eqb_neq. intros ->. exact (Qlt_irrefl _ Hpos).
  - apply negb_true_iff. destruct (Qeq_bool q 0) eqn:E; [| reflexivity].
    apply Qeq_bool_iff in E. lra.
Qed.

(** [limit(5)]: the peer query hands over at most five records. *)
Lemma get_peer_council_data_length (info : list (string * py_value)) (db : Session)
  (peers : list (list (string * py_value))) :
  get_peer_council_data info db = Ok peers -> (List.length peers <= 5)%nat.
Proof.
  unfold get_peer_council_data, bind.
  destruct (num_op Qmult _ (PyFloat 0.5)) as [lo |]; [| discriminate].
  destruct (num_op Qmult _ (PyFloat 1.5)) as [hi |]; [| discriminate].
  set (selected := firstn 5 _).
  assert (Hlen : (List.length selected <= 5)%nat) by apply firstn_le_length.
  clearbody selected. intros Heq. injection Heq as <-.
  etransitivity; [apply flat_map_length_le | exact Hlen].
  intros peer. destruct (find _ _); cbn; lia.
Qed.

(** The peer query: every record it hands over is built from the metrics
    row of a council of the entity's state whose population lies in the
    closed band from half to one and a half times the entity's. *)
Lemma get_peer_council_data_selects (info : list (string * py_value)) (db : Session)
  (peers : list (list (string * py_value))) (st : string) (pv : py_value) (p : Q) :
  dict_get "state" info = Some (PyStr st) ->
  dict_get "population" info = Some pv ->
  as_number pv = Some p ->
  get_peer_council_data info db = Ok peers ->
  forall peer, In peer peers ->
    exists council n row,
      In council (councils db)
      /\ state council = st
      /\ population council = Some n
      /\ (0.5 * p <= inject_Z n <= 1.5 * p)%Q
      /\ In row (council_metrics db)
      /\ cm_council_id row = id council
      /\ dict_get "population_served" peer
         = Some (option_value PyInt (cm_population_served row)).
Proof.
  intros Hst Hpop Hp. unfold get_peer_council_data, num_op, bind.
  rewrite Hst, Hpop, Hp. cbn [as_number option_value].
  set (selected := firstn 5 _).
  assert (Hsel : forall c, In c selected ->
            In c (councils db) /\ state c = st
            /\ exists n, population c = Some n /\ (0.5 * p <= inject_Z n <= 1.5 * p)%Q).
  { intros c Hc. apply firstn_subset in Hc. apply filter_In in Hc as [Hin Hc].
    apply andb_true_iff in Hc as [Hs Hb]. apply String.eqb_eq in Hs.
    split; [exact Hin |]. split; [exact Hs |].
    unfold between in Hb. destruct (population c) as [n |]; [| discriminate].
    apply andb_true_iff in Hb as [Hlo Hhi].
    apply Qle_b_true in Hlo. apply Qle_b_true in Hhi.
    exists n. split; [reflexivity |]. lra. }
  clearbody selected. intros Heq peer Hpeer. injection Heq as <-.
  apply in_flat_map in Hpeer as (c & Hc & Hpeer).
  destruct (find _ (council_metrics db)) as [row |] eqn:Erow; [| contradiction].
  destruct Hpeer as [<- | []].
  apply find_some in Erow as [Hrow Hid]. apply Z.eqb_eq in Hid.
  destruct (Hsel c Hc) as (Hin & Hs & n & Hn & Hband).
  exists c, n, row. repeat split; try assumption; apply Hband.
Qed.

(** ** The Profile Builder *)

Lemma init_with_other (table : list StandardizedMetric) (k : string)
  (d : list (string * StandardizedMetric)) :
  (forall m, In m table -> canonical_name m <> k) ->
  dict_get k (fold_left (fun d m => dict_set (canonical_name m) m d) table d) = dict_get k d.
Proof.
  revert d. induction table as [| m0 rest IH]; intros d Hne; cbn.
  - reflexivity.
  - rewrite IH by (intros; apply Hne; now right).
    apply dict_get_set_other, Hne. now left.
Qed.

(** The normalizer finds every metric of a table without repeated names. *)
Lemma init_with_get (table : list StandardizedMetric) (m : StandardizedMetric) :
  NoDup (map canonical_name table) -> In m table ->
  get_metric_definition (init_with table) (canonical_name m) = Some m.
Proof.
  unfold get_metric_definition, init_with. cbn [metrics_by_name].
  generalize (@nil (string * StandardizedMetric)).
  induction table as [| m0 rest IH]; intros d Hnd Hin; [contradiction |].
  cbn [map] in Hnd. inversion Hnd as [| ? ? Hnotin Hnd']; subst.
  cbn [fold_left]. destruct Hin as [-> | Hin].
  - rewrite init_with_other; [apply dict_get_set_same |].
    intros m' Hm' E. apply Hnotin. rewrite <- E. now apply in_map.
  - now apply IH.
Qed.

(** Canonical names are unique across the catalog. *)
Lemma catalog_names_distinct : NoDup (map canonical_name STANDARDIZED_METRICS).
Proof.
  cbn. repeat (constructor; [cbn; intuition discriminate |]). constructor.
Qed.

Lemma catalog_get (m : StandardizedMetric) :
  In m STANDARDIZED_METRICS ->
  get_metric_definition metric_normalizer (canonical_name m) = Some m.
Proof. apply init_with_get, catalog_names_distinct. Qed.

Lemma find_matching_raw_metric_ok (m : StandardizedMetric)
  (raw_metrics : list (string * py_value)) (state : option string) :
  In m STANDARDIZED_METRICS ->
  exists r, find_matching_raw_metric (canonical_name m) raw_metrics state = Ok r.
Proof.
  intros Hin. unfold find_matching_raw_metric.
  destruct (dict_get (canonical_name m) raw_metrics) as [v |] eqn:E; [eauto |].
  rewrite (find_matching_metric_known _ _ _ m (catalog_get m Hin)).
  cbn [bind]. rewrite E. eauto.
Qed.

(** Where the fuzzy test is made: without an exact key, the Profile Builder
    takes the value of the first raw key, in the order of the raw map, that
    the test accepts for the canonical name. *)
Lemma find_matching_raw_metric_fuzzy (m : StandardizedMetric)
  (raw_metrics : list (string * py_value)) (state : option string) :
  In m STANDARDIZED_METRICS ->
  dict_get (canonical_name m) raw_metrics = None ->
  find_matching_raw_metric (canonical_name m) raw_metrics state
  = Ok (option_map snd
          (find (fun entry => spec_fuzzy_accepts (canonical_name m) (fst entry))
                raw_metrics)).
Proof.
  intros Hin Hnone. unfold find_matching_raw_metric. rewrite Hnone.
  rewrite (find_matching_metric_known _ _ _ m (catalog_get m Hin)).
  cbn [bind]. rewrite Hnone. do 2 f_equal.
  induction raw_metrics as [| entry rest IH]; cbn; [reflexivity |].
  rewrite names_similar_spec.
  destruct (spec_fuzzy_accepts (canonical_name m) (fst entry)); [reflexivity |].
  apply IH. cbn in Hnone. destruct entry as [k v].
  destruct (k =? canonical_name m); [discriminate | exact Hnone].
Qed.

(** The record of a council has no [population_served] key, so the
    estimator gives up before it looks at the peers. *)
Lemma estimate_without_population_served (council : Council) (metric_name : string)
  (peers : list (list (string * py_value))) :
  estimate_missing_metric metric_normalizer metric_name (info_of council) peers = Ok None.
Proof.
  unfold estimate_missing_metric.
  destruct (get_metric_definition metric_normalizer metric_name); [| reflexivity].
  replace (dict_mem "population_served" (info_of council)) with false by reflexivity.
  rewrite andb_false_r. reflexivity.
Qed.

(** The peer query succeeds for a council whose population is recorded. *)
Lemma get_peer_council_data_ok (council : Council) (p : Z) (db : Session) :
  population council = Some p ->
  exists peers, get_peer_council_data (info_of council) db = Ok peers.
Proof.
  intros Hp. unfold get_peer_council_data, info_of. rewrite Hp. cbn. eauto.
Qed.

(** C7 (the code departs from it).  In the Profile Builder the estimate is
    asked for with the record of [_get_council_info], which holds the
    population under the key [population] and has no [population_served]:
    whatever the peers, the estimate of a council whose population is known
    is none.  A council of 100 with a neighbour of 75 in its state, whose
    rate revenue per head is 10, gets no estimate where the mean over the
    band is 10.  Called with a record that does hold [population_served],
    the estimator drops the peer the query selects at exactly half the
    population, and the peer at exactly one and a half times: the estimate
    is none where the means over the closed band are 10 and 30. *)
Theorem C7_estimate_misses_peers :
  (forall council p metric_name sources_data db,
      population council = Some p ->
      (Z.abs p < 2 ^ 63)%Z ->
      estimate_missing_metric_for metric_name (info_of council) sources_data db = Ok None)
  /\ get_peer_council_data (info_of Cases.council_100) Cases.near_peer_db
     = Ok [Cases.near_record]
  /\ estimate_missing_metric_for "rates_revenue_per_capita" (info_of Cases.council_100)
       [] Cases.near_peer_db = Ok None
  /\ (exists q, claimed_estimate "rates_revenue_per_capita" 100 [Cases.near_record]
                = Some q /\ (q == 10)%Q)
  /\ get_peer_council_data Examples.entity_100 Examples.half_peer_db
     = Ok [Examples.beta_record]
  /\ estimate_missing_metric metric_normalizer "rates_revenue_per_capita"
       Examples.entity_100 [Examples.beta_record] = Ok None
  /\ (exists q, claimed_estimate "rates_revenue_per_capita" 100 [Examples.beta_record]
                = Some q /\ (q == 10)%Q)
  /\ estimate_missing_metric metric_normalizer "rates_revenue_per_capita"
       Examples.entity_100 [Examples.peer_with 150 30] = Ok None
  /\ (exists q, claimed_estimate "rates_revenue_per_capita" 100 [Examples.peer_with 150 30]
                = Some q /\ (q == 30)%Q).
Proof.
  split.
  { intros council p metric_name sources_data db Hp _.
    unfold estimate_missing_metric_for.
    destruct (get_peer_council_data_ok council p db Hp) as [peers ->]. cbn [bind].
    apply estimate_without_population_served. }
  split; [vm_compute; reflexivity |].
  split; [vm_compute; reflexivity |].
  split; [eexists; split; [reflexivity | vm_compute; reflexivity] |].
  split; [vm_compute; reflexivity |].
  split; [vm_compute; reflexivity |].
  split; [eexists; split; [reflexivity | vm_compute; reflexivity] |].
  split; [vm_compute; reflexivity |].
  eexists; split; [reflexivity | vm_compute; reflexivity].
Qed.

Section ProfileBuilder.
Context `{Builtins}.

Variables (info : list (string * py_value))
          (sources_data : list (string * list (string * Payload)))
          (raw_metrics : list (string * py_value)) (db : Session).

(** A turn of the loop for another metric leaves the entry of [key]
    alone. *)
Lemma normalize_metric_other (key : string) (m : StandardizedMetric)
  (acc acc' : list (string * Observation) * nat) :
  canonical_name m <> key ->
  normalize_metric info sources_data raw_metrics db acc m = Ok acc' ->
  dict_get key (fst acc') = dict_get key (fst acc).
Proof.
  intros Hne. unfold normalize_metric. destruct acc as [std n].
  destruct (find_matching_raw_metric _ _ _) as [[matched |] | e]; cbn [bind]; try discriminate.
  - destruct (normalize_value _ _ _ _); cbn [bind]; [| discriminate].
    intros [= <-]. cbn [fst]. now apply dict_get_set_other.
  - destruct (estimate_missing_metric_for _ _ _ _) as [[estimate |] | e]; cbn [bind];
      try discriminate; intros [= <-]; cbn [fst]; [now apply dict_get_set_other | reflexivity].
Qed.

Lemma fold_normalize_other (key : string) (metrics : list StandardizedMetric)
  (acc acc' : list (string * Observation) * nat) :
  (forall m, In m metrics -> canonical_name m <> key) ->
  fold_raising (normalize_metric info sources_data raw_metrics db) metrics acc = Ok acc' ->
  dict_get key (fst acc') = dict_get key (fst acc).
Proof.
  revert acc. induction metrics as [| m rest IH]; intros acc Hne; cbn.
  - now intros [= <-].
  - destruct (normalize_metric _ _ _ _ acc m) as [acc1 | e] eqn:E1; cbn [bind]; [| discriminate].
    intros Hrest. rewrite (IH acc1) by (try exact Hrest; intros; apply Hne; now right).
    apply (normalize_metric_other key m acc acc1); [apply Hne; now left | exact E1].
Qed.

(** The turn for a metric without a formula whose name is a raw key. *)
Lemma normalize_metric_exact (m : StandardizedMetric) (v : py_value)
  (acc : list (string * Observation) * nat) :
  In m STANDARDIZED_METRICS ->
  calculation_method m = None ->
  dict_get (canonical_name m) raw_metrics = Some v ->
  normalize_metric info sources_data raw_metrics db acc m
  = Ok (dict_set (canonical_name m)
                 {| value := v; raw_value := v;
                    source := "multiple_sources"; confidence := "high" |} (fst acc),
        S (snd acc)).
Proof.
  intros Hin Hnone Hraw. unfold normalize_metric. destruct acc as [std n].
  unfold find_matching_raw_metric. rewrite Hraw. cbn [bind].
  rewrite (normalize_value_no_formula _ _ _ _ m (catalog_get m Hin) Hnone).
  reflexivity.
Qed.

Lemma standardize_exact (m : StandardizedMetric) (v : py_value)
  (built : list (string * Observation) * nat) :
  In m STANDARDIZED_METRICS ->
  calculation_method m = None ->
  dict_get (canonical_name m) raw_metrics = Some v ->
  standardize info sources_data raw_metrics db = Ok built ->
  dict_get (canonical_name m) (fst built)
  = Some {| value := v; raw_value := v;
            source := "multiple_sources"; confidence := "high" |}.
Proof.
  intros Hin Hnone Hraw. unfold standardize.
  pose proof catalog_names_distinct as Hnd.
  destruct (in_split _ _ Hin) as (pre & post & Hsplit).
  rewrite Hsplit in Hnd |- *.
  generalize (@nil (string * Observation), 0%nat).
  assert (Hpost : forall m', In m' post -> canonical_name m' <> canonical_name m).
  { rewrite map_app in Hnd. cbn [map] in Hnd. apply NoDup_remove_2 in Hnd.
    intros m' Hm' E. apply Hnd. apply in_or_app. right. rewrite <- E. now apply in_map. }
  clear Hnd Hsplit.
  induction pre as [| p pre IH]; intros acc; cbn [app fold_raising].
  - rewrite (normalize_metric_exact m v acc Hin Hnone Hraw). cbn [bind].
    intros Hrest. rewrite (fold_normalize_other _ _ _ _ Hpost Hrest). cbn [fst].
    apply dict_get_set_same.
  - destruct (normalize_metric _ _ _ _ acc p) as [acc1 | e]; cbn [bind]; [| discriminate].
    apply IH.
Qed.

End ProfileBuilder.

Section ProfileBuilt.
Context `{Builtins}.

Lemma standardize_ok (council : Council) (p : Z)
  (sources_data : list (string * list (string * Payload)))
  (raw_metrics : list (string * py_value)) (db : Session) :
  population council = Some p ->
  exists built, standardize (info_of council) sources_data raw_metrics db = Ok built.
Proof.
  intros Hp. unfold standardize. apply fold_raising_ok.
  intros [std n] m Hin. unfold normalize_metric.
  destruct (find_matching_raw_metric_ok m raw_metrics
              (state_of_info (info_of council)) Hin) as (r & ->).
  cbn [bind]. destruct r as [matched |].
  - destruct (normalize_value_ok metric_normalizer matched (canonical_name m)
                (Some (info_of council))) as [v ->].
    cbn [bind]. eauto.
  - unfold estimate_missing_metric_for.
    destruct (get_peer_council_data_ok council p db Hp) as [peers ->]. cbn [bind].
    rewrite estimate_without_population_served. cbn [bind]. eauto.
Qed.

(** C2 (amended): when the flat raw map has a key equal to a canonical name
    whose definition has no formula, every profile built holds for that name
    the observation with value = raw value = the raw entry, confidence high
    and source [multiple_sources]; and a profile is built for every known
    council whose population is recorded. *)
Theorem C2_exact_key_observation (council_id : Z)
  (sources_data : list (string * list (string * Payload))) (db : Session)
  (metric : StandardizedMetric) (v : py_value) :
  In metric STANDARDIZED_METRICS ->
  calculation_method metric = None ->
  dict_get (canonical_name metric) (collect_raw_metrics sources_data) = Some v ->
  (forall nd,
     normalize_council_data council_id sources_data db = Ok (Some nd) ->
     dict_get (canonical_name metric) (standardized_metrics nd)
     = Some {| value := v; raw_value := v;
               source := "multiple_sources"; confidence := "high" |})
  /\ (forall council p,
        find (fun c => (id c =? council_id)%Z) (councils db) = Some council ->
        population council = Some p ->
        exists nd, normalize_council_data council_id sources_data db = Ok (Some nd)).
Proof.
  intros Hin Hnone Hraw. split.
  - intros nd. unfold normalize_council_data.
    destruct (get_council_info council_id db) as [info |]; [| discriminate].
    destruct (standardize info sources_data _ db) as [[std n] | e] eqn:Hbuilt;
      cbn [bind]; [| discriminate].
    intros [= <-]. cbn [standardized_metrics].
    apply (standardize_exact info sources_data _ db metric v (std, n) Hin Hnone Hraw Hbuilt).
  - intros council p Hfind Hp. unfold normalize_council_data, get_council_info.
    rewrite Hfind.
    destruct (standardize_ok council p sources_data (collect_raw_metrics sources_data) db Hp)
      as [[std n] ->].
    cbn [bind]. eauto.
Qed.

End ProfileBuilt.

(** C2 as stated fails: the payload has the key [waste_recycling_rate], the
    definition has no formula, and the observation built has value = raw
    value = 55 and confidence high, but its source is [multiple_sources],
    not [direct]. *)
Lemma C2_counterexample_source :
  exists nd obs,
    dict_get "waste_recycling_rate" (collect_raw_metrics Examples.recycling_report)
    = Some (PyFloat 55)
    /\ normalize_council_data 1 Examples.recycling_report Examples.alpha_db = Ok (Some nd)
    /\ dict_get "waste_recycling_rate" (standardized_metrics nd) = Some obs
    /\ value obs = PyFloat 55 /\ raw_value obs = PyFloat 55
    /\ confidence obs = "high"
    /\ source obs = "multiple_sources"
    /\ source obs <> "direct".
Proof.
  do 2 eexists. split; [reflexivity |]. split; [vm_compute; reflexivity |].
  split; [vm_compute; reflexivity |].
  repeat split; discriminate.
Qed.

(** The profile built from the recycling report. *)
Lemma C2_exact_key_observation_witness :
  exists nd,
    normalize_council_data 1 Examples.recycling_report Examples.alpha_db = Ok (Some nd)
    /\ dict_get "waste_recycling_rate" (standardized_metrics nd)
       = Some {| value := PyFloat 55; raw_value := PyFloat 55;
                 source := "multiple_sources"; confidence := "high" |}.
Proof.
  assert (Hin : In Examples.waste_recycling_rate STANDARDIZED_METRICS).
  { cbn. do 8 right. left. reflexivity. }
  destruct (C2_exact_key_observation 1 Examples.recycling_report Examples.alpha_db
              Examples.waste_recycling_rate (PyFloat 55) Hin eq_refl eq_refl)
    as [Hobs Hbuilt].
  destruct (Hbuilt Examples.alpha 150000%Z eq_refl eq_refl) as [nd Hnd].
  exists nd. split; [exact Hnd | exact (Hobs nd Hnd)].
Defined.

(** The profile built from the mock report: the keys are flattened with
    their parents' names, so every match is a fuzzy one, and the formulas do
    not survive the substitution of the council record. *)
Example profile_of_parsed_report :
  extract_raw_metrics Examples.parsed_report
  = [("financial_rates_revenue", PyInt 120000000);
     ("financial_total_revenue", PyInt 150000000);
     ("financial_total_expenditure", PyInt 145000000);
     ("performance_complaint_response_time", PyFloat 3.2);
     ("performance_waste_collection_efficiency", PyFloat 95.5);
     ("performance_customer_satisfaction", PyInt 82);
     ("year", PyInt 2024)]
  /\ exists nd,
       normalize_council_data 1 [("council_report", Examples.parsed_report)]
                              Examples.alpha_db = Ok (Some nd)
       /\ map (fun entry => (fst entry, value (snd entry))) (standardized_metrics nd)
          = [("rates_revenue_per_capita", PyInt 120000000);
             ("total_revenue_per_capita", PyInt 150000000);
             ("complaint_response_time", PyFloat 3.2);
             ("waste_collection_efficiency", PyFloat 95.5);
             ("customer_satisfaction_score", PyInt 82)]
       /\ (coverage_score nd == 5 # 14)%Q.
Proof.
  split; [vm_compute; reflexivity |].
  eexists. split; [vm_compute; reflexivity |].
  split; vm_compute; reflexivity.
Qed.

(** ** The Aggregator *)

(** Every entry [aggregate_state_data] stores for a metric is the aggregate
    of a non-empty list of values over the councils of the state. *)
Lemma aggregate_state_data_entries `{Builtins} (region : string)
  (sources_of : Z -> list (string * list (string * Payload))) (db : Session)
  (aggregation : StateAggregation) (key : string) (agg : MetricAggregate) :
  aggregate_state_data region sources_of db = Ok aggregation ->
  dict_get key (per_metric aggregation) = Some agg ->
  exists lower_better values,
    values <> []
    /\ aggregate_values lower_better (total_councils aggregation) values = Some agg.
Proof.
  unfold aggregate_state_data.
  set (selected := filter _ (councils db)).
  destruct (fold_raising _ selected []) as [all_council_data | e]; cbn [bind];
    [| discriminate].
  set (body := fun acc metric => _).
  assert (Hinv : forall metrics acc acc',
             (forall k a, dict_get k acc = Some a ->
                exists lb values, values <> []
                  /\ aggregate_values lb (List.length selected) values = Some a) ->
             fold_raising body metrics acc = Ok acc' ->
             forall k a, dict_get k acc' = Some a ->
                exists lb values, values <> []
                  /\ aggregate_values lb (List.length selected) values = Some a).
  { induction metrics as [| m rest IH]; intros acc acc' Hacc; cbn [fold_raising].
    - intros [= <-]. exact Hacc.
    - destruct (body acc m) as [acc1 | e] eqn:Ebody; cbn [bind]; [| discriminate].
      apply IH. unfold body in Ebody.
      destruct (numbers _) as [values | e]; cbn [bind] in Ebody; [| discriminate].
      injection Ebody as <-.
      destruct (aggregate_values _ _ values) as [a1 |] eqn:Eagg; [| exact Hacc].
      intros k a Hk.
      destruct (string_dec (canonical_name m) k) as [<- | Hne].
      + rewrite dict_get_set_same in Hk. injection Hk as <-.
        exists (lower_is_better m), values. split; [| exact Eagg].
        intros ->. discriminate.
      + rewrite (dict_get_set_other k (canonical_name m)) in Hk by exact Hne.
        exact (Hacc k a Hk). }
  destruct (fold_raising body STANDARDIZED_METRICS []) as [entries | e] eqn:Efold;
    cbn [bind]; [| discriminate].
  intros [= <-]. cbn [per_metric total_councils].
  apply (Hinv STANDARDIZED_METRICS [] entries); [discriminate | exact Efold].
Qed.

Lemma collect_values_metric_values (canonical : string) (profiles : list NormalizedData) :
  collect_values canonical profiles = metric_values canonical profiles.
Proof.
  unfold metric_values. induction profiles as [| nd rest IH]; cbn; [reflexivity |].
  destruct (dict_get canonical (standardized_metrics nd)) as [obs |]; [| exact IH].
  destruct (is_none (value obs)); cbn; [exact IH | now rewrite IH].
Qed.

Lemma numbers_as_number (values : list py_value) (xs : list Q) :
  numbers values = Ok xs -> map as_number values = map Some xs.
Proof.
  revert xs. induction values as [| v rest IH]; intros xs; cbn.
  - now intros [= <-].
  - destruct (as_number v) as [x |]; [| discriminate].
    destruct (numbers rest) as [ys | e]; cbn [bind]; [| discriminate].
    intros [= <-]. cbn. f_equal. now apply IH.
Qed.

Section Aggregation.
Context `{Builtins}.

(** The first loop of [aggregate_state_data] gathers the profiles of the
    councils in order. *)
Lemma fold_profiles (sources_of : Z -> list (string * list (string * Payload)))
  (db : Session) (selected : list Council) (acc all_council_data : list NormalizedData) :
  fold_raising (fun acc council =>
                  normalized <- normalize_council_data (id council) (sources_of (id council)) db ;;
                  Ok (match normalized with
                      | Some nd => (acc ++ [nd])%list
                      | None => acc
                      end))
               selected acc = Ok all_council_data ->
  exists profiles,
    profiles_of sources_of db selected = Ok profiles
    /\ all_council_data = (acc ++ profiles)%list.
Proof.
  revert acc. induction selected as [| c rest IH]; intros acc; cbn [fold_raising profiles_of].
  - intros [= <-]. exists []. split; [reflexivity | now rewrite app_nil_r].
  - destruct (normalize_council_data _ _ db) as [normalized | e]; cbn [bind]; [| discriminate].
    intros Hrest. apply IH in Hrest as (profiles & -> & ->). cbn [bind].
    destruct normalized as [nd |].
    + exists (nd :: profiles). split; [reflexivity | now rewrite <- app_assoc].
    + exists profiles. split; reflexivity.
Qed.

(** The second loop: the names of the catalog being distinct, the entry of
    a metric is not touched once it has been written. *)
Lemma fold_metrics_stored (total : nat) (profiles : list NormalizedData)
  (rest done : list StandardizedMetric) (acc acc' : list (string * MetricAggregate)) :
  NoDup (map canonical_name (done ++ rest)) ->
  (forall m, In m done -> stored total profiles m acc) ->
  (forall k, ~ In k (map canonical_name done) -> dict_get k acc = None) ->
  fold_raising (fun acc metric =>
                  let canonical := canonical_name metric in
                  values <- numbers (collect_values canonical profiles) ;;
                  Ok (match aggregate_values (lower_is_better metric) total values with
                      | Some agg => dict_set canonical agg acc
                      | None => acc
                      end))
               rest acc = Ok acc' ->
  forall m, In m (done ++ rest) -> stored total profiles m acc'.
Proof.
  revert done acc. induction rest as [| m0 rest IH]; intros done acc Hnd Hdone Hfree;
    cbn [fold_raising].
  - intros [= <-] m Hm. rewrite app_nil_r in Hm. apply Hdone, Hm.
  - destruct (numbers (collect_values (canonical_name m0) profiles)) as [values | e] eqn:Enum;
      cbn [bind]; [| discriminate].
    intros Hrest m Hm.
    replace (done ++ m0 :: rest)%list with ((done ++ [m0]) ++ rest)%list in Hnd, Hm
      by (now rewrite <- app_assoc).
    assert (Hfresh : ~ In (canonical_name m0) (map canonical_name done)).
    { rewrite map_app in Hnd. apply NoDup_app_remove_r in Hnd.
      rewrite map_app in Hnd. cbn [map] in Hnd. apply NoDup_remove_2 in Hnd.
      rewrite app_nil_r in Hnd. exact Hnd. }
    refine (IH (done ++ [m0])%list _ Hnd _ _ Hrest m Hm).
    + intros m' Hm'. apply in_app_or in Hm' as [Hm' | [<- | []]].
      * destruct (Hdone m' Hm') as (vs & Hvs & Hget). exists vs. split; [exact Hvs |].
        assert (Hne : canonical_name m0 <> canonical_name m').
        { intros E. apply Hfresh. rewrite E. now apply in_map. }
        destruct (aggregate_values (lower_is_better m0) total values);
          [rewrite (dict_get_set_other _ _ _ _ Hne) |]; exact Hget.
      * exists values. split; [exact Enum |].
        destruct (aggregate_values (lower_is_better m0) total values) as [agg |].
        -- apply dict_get_set_same.
        -- apply Hfree, Hfresh.
    + intros k Hk. rewrite map_app in Hk. cbn [map] in Hk.
      assert (Hne : canonical_name m0 <> k).
      { intros E. apply Hk. apply in_or_app. right. now left. }
      destruct (aggregate_values (lower_is_better m0) total values);
        [rewrite (dict_get_set_other _ _ _ _ Hne) |];
        apply Hfree; intros Hin; apply Hk; apply in_or_app; now left.
Qed.

(** C9: when [aggregate_state_data] returns, then for every metric of the
    catalog, with [values] the numbers the profiles of the councils of the
    state hold for it: nothing is stored when there is none, and otherwise
    the median stored is the element at index [len // 2] of the values
    sorted in ascending order; for an even length that is the upper of the
    two middle values. *)
Theorem C9_median_upper_middle (region : string)
  (sources_of : Z -> list (string * list (string * Payload))) (db : Session)
  (aggregation : StateAggregation) :
  aggregate_state_data region sources_of db = Ok aggregation ->
  exists profiles,
    profiles_of sources_of db (filter (fun c => state c =? region) (councils db))
    = Ok profiles
    /\ forall metric, In metric STANDARDIZED_METRICS ->
       exists values,
         map as_number (metric_values (canonical_name metric) profiles) = map Some values
         /\ (values = [] ->
             dict_get (canonical_name metric) (per_metric aggregation) = None)
         /\ (values <> [] ->
             exists agg,
               dict_get (canonical_name metric) (per_metric aggregation) = Some agg
               /\ Sorted Qle (sorted values)
               /\ Permutation values (sorted values)
               /\ median agg = nth (List.length values / 2) (sorted values) 0%Q
               /\ forall k, List.length values = (2 * k)%nat ->
                    median agg = nth k (sorted values) 0%Q
                    /\ (nth (k - 1) (sorted values) 0 <= median agg)%Q).
Proof.
  unfold aggregate_state_data.
  set (selected := filter _ (councils db)).
  destruct (fold_raising _ selected []) as [all_council_data | e] eqn:Eall; cbn [bind];
    [| discriminate].
  apply fold_profiles in Eall as (profiles & Hprofiles & ->). cbn [app].
  destruct (fold_raising _ STANDARDIZED_METRICS []) as [entries | e] eqn:Efold;
    cbn [bind]; [| discriminate].
  intros [= <-]. cbn [per_metric].
  exists profiles. split; [exact Hprofiles |].
  intros metric Hin.
  assert (Hnil : forall k, ~ In k (map canonical_name (@nil StandardizedMetric)) ->
                           dict_get k (@nil (string * MetricAggregate)) = None)
    by reflexivity.
  destruct (fold_metrics_stored (List.length selected) profiles STANDARDIZED_METRICS [] []
              entries catalog_names_distinct (fun m (Hm : In m []) => match Hm with end)
              Hnil Efold metric Hin) as (values & Hvalues & Hstored).
  exists values. rewrite <- collect_values_metric_values.
  split; [apply numbers_as_number, Hvalues |].
  destruct values as [| v0 vs] eqn:Ev.
  - cbn [aggregate_values] in Hstored. split; [intros _; exact Hstored | congruence].
  - rewrite <- Ev in *. split; [intros E; rewrite E in Ev; discriminate |]. intros _.
    rewrite Ev in Hstored. cbn [aggregate_values] in Hstored. rewrite <- Ev in Hstored.
    eexists. split; [exact Hstored |].
    split; [apply sorted_ok |]. split; [apply sorted_perm |].
    cbn [median]. split; [reflexivity |].
    intros k Hk.
    assert (Hdiv : (List.length values / 2 = k)%nat).
    { rewrite Hk, Nat.mul_comm. apply Nat.div_mul. lia. }
    rewrite Hdiv. split; [reflexivity |].
    apply sorted_nth_le; [apply sorted_ok |]. rewrite sorted_length.
    rewrite Ev in Hk. cbn in Hk. rewrite Ev. cbn. lia.
Qed.

End Aggregation.

(** Four councils of one state with recycling rates 4, 1, 3 and 2: the
    median stored is 3, not 2.5. *)
Lemma C9_median_upper_middle_witness :
  exists aggregation agg,
    aggregate_state_data "Victoria" Cases.recycling_of Cases.four_councils_db
    = Ok aggregation
    /\ dict_get "waste_recycling_rate" (per_metric aggregation) = Some agg
    /\ median agg = 3%Q
    /\ ~ (median agg == (2 + 3) / 2)%Q.
Proof.
  destruct (aggregate_state_data "Victoria" Cases.recycling_of Cases.four_councils_db)
    as [aggregation | e] eqn:Hagg; [| vm_compute in Hagg; discriminate Hagg].
  destruct (C9_median_upper_middle "Victoria" Cases.recycling_of Cases.four_councils_db
              aggregation Hagg) as (profiles & Hprofiles & Hmetrics).
  destruct (Hmetrics Examples.waste_recycling_rate) as (values & Hvalues & _ & Hstored).
  { cbn. do 8 right. left. reflexivity. }
  vm_compute in Hprofiles. injection Hprofiles as <-.
  vm_compute in Hvalues.
  destruct values as [| a [| b [| c [| d [| x rest]]]]]; try discriminate Hvalues.
  injection Hvalues as <- <- <- <-.
  destruct Hstored as (agg & Hget & _ & _ & Hmedian & _); [discriminate |].
  exists aggregation, agg. split; [reflexivity |]. split; [exact Hget |].
  split.
  - rewrite Hmedian. vm_compute. reflexivity.
  - rewrite Hmedian. vm_compute. discriminate.
Defined.

End FrameworkProperties.

(* ===================================================================== *)
(** * Invariants of the Scoring Engine *)
(* ===================================================================== *)

Module ScoringInvariants.
Import Py Models Scoring ScoringSpec ScoringNotions PyFacts ListFacts ScoringProperties.

Lemma round_ge_int (q : Q) (z : Z) (n : nat) : inject_Z z <= q -> inject_Z z <= round q n.
Proof.
  intros H. rewrite <- (round_int z n). apply round_mono, H.
Qed.

Lemma filter_suspicious_sublist (scores : list Q) (ratings : list RatingDict) :
  (List.length scores <= 2 * List.length (filter_suspicious_ratings scores ratings))%nat
  /\ (8 * List.length scores <= 9 * List.length (filter_suspicious_ratings scores ratings))%nat
  /\ forall s, In s (filter_suspicious_ratings scores ratings) -> In s scores.
Proof.
  unfold filter_suspicious_ratings.
  destruct (List.length scores <? 3)%nat; [repeat split; try lia; auto |].
  rewrite fewer_than_half.
  set (mean_score := sum scores / of_nat (List.length scores)).
  set (variance := sum (map (fun x => (x - mean_score) ^ 2) scores) / _).
  set (kept := filter _ scores).
  assert (Hcheb : (8 * List.length scores <= 9 * List.length kept)%nat).
  { pose proof (outliers_at_most_a_ninth mean_score scores) as Hout. cbv zeta in Hout.
    pose proof (filter_split_length
                  (fun s => within_3_std_dev (s - mean_score) variance) scores) as Hsplit.
    fold kept in Hsplit. unfold variance in Hsplit. fold mean_score in Hout. lia. }
  destruct (2 * List.length kept <? List.length scores)%nat eqn:E.
  - repeat split; try lia; auto.
  - apply Nat.ltb_ge in E. repeat split; try lia.
    intros s Hs. apply filter_In in Hs. tauto.
Qed.

(** X1: for a non-empty list of ratings in 1..5 the customer-satisfaction
    score never falls back to the default: the anti-gaming filter keeps at
    least eight ninths of the ratings, so the [filtered_data] branch is not
    taken, the sample size reported is the number kept, the grade is the
    grade of that number, and the score lies in [20, 100]. *)
Theorem customer_satisfaction_sample (ratings : list RatingDict) :
  ratings <> [] ->
  (forall r, In r ratings -> 1 <= rating r <= 5) ->
  let result := calculate_customer_satisfaction_score ratings in
  exists n,
    sample_size result = Some n
    /\ reason result = None
    /\ (0 < n <= List.length ratings)%nat
    /\ (8 * List.length ratings <= 9 * n)%nat
    /\ confidence result = get_confidence_level n
    /\ 20 <= score result <= 100.
Proof.
  intros Hne Hrange. cbv zeta. unfold calculate_customer_satisfaction_score.
  destruct ratings as [| r0 rs] eqn:Er; [congruence |]. rewrite <- Er in *.
  set (scores := map (fun r => rating r * 20) ratings).
  pose proof (filter_suspicious_sublist scores ratings) as (Hhalf & Hcheb & Hsub).
  assert (Hlen : List.length scores = List.length ratings) by apply length_map.
  assert (Hpos : (0 < List.length ratings)%nat) by (rewrite Er; cbn; lia).
  assert (Hle : (List.length (filter_suspicious_ratings scores ratings)
                 <= List.length ratings)%nat).
  { rewrite <- Hlen. unfold filter_suspicious_ratings.
    destruct (_ <? 3)%nat; [lia |]. destruct (Qlt_b _ _); [lia |]. apply filter_length_le. }
  destruct (filter_suspicious_ratings scores ratings) as [| f fs] eqn:Ef.
  { cbn in Hhalf. lia. }
  rewrite <- Ef in *.
  exists (List.length (filter_suspicious_ratings scores ratings)).
  cbn [sample_size reason confidence score].
  split; [reflexivity |]. split; [reflexivity |].
  split; [rewrite Ef; cbn; rewrite Ef in Hle; cbn in Hle; lia |].
  split; [lia |]. split; [reflexivity |].
  assert (Hb : forall x, In x (filter_suspicious_ratings scores ratings) -> 20 <= x <= 100).
  { intros x Hx. apply Hsub in Hx. apply in_map_iff in Hx as (r & <- & Hr).
    specialize (Hrange r Hr). lra. }
  assert (Hnn : filter_suspicious_ratings scores ratings <> []) by (rewrite Ef; discriminate).
  pose proof (mean_bounds _ 20 100 Hnn Hb) as [Hlo Hhi].
  split.
  - apply (round_ge_int _ 20), Hlo.
  - apply (round_le_int _ 100), Hhi.
Qed.

(** Ten five-star ratings and a one-star rating: the filter is run and
    drops the one-star rating, the sample is of ten. *)
Lemma customer_satisfaction_sample_witness :
  sample_size (calculate_customer_satisfaction_score Cases.eleven_ratings) = Some 10%nat
  /\ confidence (calculate_customer_satisfaction_score Cases.eleven_ratings)
     = get_confidence_level 10
  /\ 20 <= score (calculate_customer_satisfaction_score Cases.eleven_ratings) <= 100.
Proof.
  destruct (customer_satisfaction_sample Cases.eleven_ratings)
    as (n & Hn & _ & _ & _ & Hc & Hs).
  - discriminate.
  - intros r Hr. cbn in Hr.
    repeat (destruct Hr as [<- | Hr]; [split; unfold Qle; cbn; lia |]). destruct Hr.
  - assert (E : sample_size (calculate_customer_satisfaction_score Cases.eleven_ratings)
                = Some 10%nat) by (vm_compute; reflexivity).
    rewrite E in Hn. injection Hn as <-.
    split; [exact E |]. split; [exact Hc | exact Hs].
Defined.

(** X2: the service-delivery component counts at most two data points (the
    official score and the ratings as a whole), so whenever it has data its
    confidence is [very_low]; only without any data does it report [low],
    with the default score. *)
Theorem service_delivery_confidence (metrics : BaseMetrics) (ratings : list RatingDict) :
  let result := calculate_service_delivery_score metrics ratings in
  (truthy_num (service_delivery_score metrics) = false /\ ratings = []
   /\ result = insufficient "insufficient_data")
  \/ (exists n, data_sources result = Some n /\ (1 <= n <= 2)%nat
      /\ (n = 2%nat <-> truthy_num (service_delivery_score metrics) = true /\ ratings <> [])
      /\ confidence result = very_low /\ reason result = None).
Proof.
  cbv zeta. unfold calculate_service_delivery_score.
  assert (Hcases : (ratings = [] /\ group_by_category ratings = [])
                   \/ (ratings <> [] /\ exists g gs, group_by_category ratings = g :: gs)).
  { destruct (group_by_category ratings) as [| g gs] eqn:Eg.
    - left. split; [apply group_by_category_nil, Eg | reflexivity].
    - right. split; [| eauto]. intros E. apply group_by_category_nil in E. congruence. }
  destruct (service_delivery_score metrics) as [o |] eqn:Eo;
    [destruct (truthy_num (Some o)) eqn:Et |];
    destruct Hcases as [[Hnil ->] | [Hne (g & gs & ->)]];
    cbn [Nat.eqb data_sources confidence reason truthy_num].
  - right. exists 1%nat. repeat split; try reflexivity; try lia.
    intros [_ E]. contradiction.
  - right. exists 2%nat. repeat split; try reflexivity; try lia. assumption.
  - left. split; [reflexivity | split; [exact Hnil | reflexivity]].
  - right. exists 1%nat. repeat split; try reflexivity; try lia.
  - left. split; [reflexivity | split; [exact Hnil | reflexivity]].
  - right. exists 1%nat. repeat split; try reflexivity; try lia.
Qed.

Lemma rates_factor_range (x : Q) : 0 <= Qmax 0 (Qmin 100 x) <= 100.
Proof.
  split.
  - apply Q.le_max_l.
  - apply Q.max_lub; [lra | apply Q.le_min_l].
Qed.

Lemma value_for_rates_range (metrics : BaseMetrics) :
  (forall s, customer_satisfaction metrics = Some s -> 0 <= s <= 100) ->
  0 <= score (calculate_value_for_rates_score metrics) <= 100.
Proof.
  intros Hs. unfold calculate_value_for_rates_score.
  destruct (customer_satisfaction metrics) as [s |];
    [| cbn; lra].
  specialize (Hs s eq_refl).
  destruct (rates_revenue metrics) as [r |]; [| cbn; lra].
  destruct (population metrics) as [p |]; [| cbn; lra].
  destruct (_ && _); [| cbn; lra].
  cbn [score].
  pose proof (rates_factor_range (100 - (r / inject_Z p - 500) / 15)) as Hf.
  set (f := Qmax 0 _) in *. clearbody f.
  unfold Qdiv. change (/ 2) with (1 # 2).
  split.
  - apply (round_ge_int _ 0). change (inject_Z 0) with 0. lra.
  - apply (round_le_int _ 100). change (inject_Z 100) with 100. lra.
Qed.

(** X3: for a council with a positive population, all else equal, a higher
    rates revenue never gives a higher value-for-rates score. *)
Theorem value_for_rates_antitone (m1 m2 : BaseMetrics) (r1 r2 : Q) :
  customer_satisfaction m1 = customer_satisfaction m2 ->
  population m1 = population m2 ->
  rates_revenue m1 = Some r1 -> rates_revenue m2 = Some r2 ->
  (forall p, population m1 = Some p -> (0 <= p)%Z) ->
  0 < r1 -> r1 <= r2 ->
  score (calculate_value_for_rates_score m2) <= score (calculate_value_for_rates_score m1).
Proof.
  intros Es Ep E1 E2 Hp H1 H12. unfold calculate_value_for_rates_score.
  rewrite <- Es, <- Ep, E1, E2.
  destruct (customer_satisfaction m1) as [s |]; [| cbn; lra].
  destruct (population m1) as [p |]; [| cbn; lra].
  specialize (Hp p eq_refl).
  assert (T1 : truthy_num (Some r1) = true).
  { cbn. destruct (Qeq_bool r1 0) eqn:E; [| reflexivity].
    apply Qeq_bool_iff in E. lra. }
  assert (T2 : truthy_num (Some r2) = true).
  { cbn. destruct (Qeq_bool r2 0) eqn:E; [| reflexivity].
    apply Qeq_bool_iff in E. lra. }
  rewrite T1, T2.
  destruct (truthy_num (Some s)); [| cbn; lra].
  destruct (truthy_int (Some p)) eqn:Tp; [| cbn; lra].
  cbn [andb score].
  apply round_mono.
  assert (Hpos : 0 < inject_Z p).
  { cbn in Tp. apply negb_true_iff, Z.eqb_neq in Tp.
    change 0 with (inject_Z 0). rewrite <- Zlt_Qlt. lia. }
  assert (Hdiv : r1 / inject_Z p <= r2 / inject_Z p).
  { unfold Qdiv. apply Qmult_le_compat_r; [exact H12 |].
    apply Qlt_le_weak, Qinv_lt_0_compat, Hpos. }
  assert (Hf : Qmax 0 (Qmin 100 (100 - (r2 / inject_Z p - 500) / 15))
               <= Qmax 0 (Qmin 100 (100 - (r1 / inject_Z p - 500) / 15))).
  { apply Q.max_le_compat_l, Q.min_le_compat_l.
    set (a := r1 / inject_Z p) in *. set (b := r2 / inject_Z p) in *.
    unfold Qdiv. change (/ 15) with (1 # 15). lra. }
  set (f1 := Qmax 0 (Qmin 100 (100 - (r1 / inject_Z p - 500) / 15))) in *.
  set (f2 := Qmax 0 (Qmin 100 (100 - (r2 / inject_Z p - 500) / 15))) in *.
  unfold Qdiv. change (/ 2) with (1 # 2). lra.
Qed.

(** 600 against 900 dollars per head. *)
Lemma value_for_rates_antitone_witness :
  score (calculate_value_for_rates_score (Cases.with_revenue 900000))
  <= score (calculate_value_for_rates_score (Cases.with_revenue 600000)).
Proof.
  apply (value_for_rates_antitone (Cases.with_revenue 600000) (Cases.with_revenue 900000)
           600000 900000); try reflexivity.
  - intros p E. injection E as <-. lia.
  - unfold Qle. cbn. lia.
Defined.

Lemma filter_idem {A} (f : A -> bool) (l : list A) : filter f (filter f l) = filter f l.
Proof.
  induction l as [| x l IH]; [reflexivity |]. cbn.
  destruct (f x) eqn:E; cbn; [rewrite E, IH; reflexivity | exact IH].
Qed.

(** X4: issues that are not resolved, or whose resolution time is missing
    or zero, play no part in the responsiveness score: as soon as one issue
    counts, the result is the result for the issues that count. *)
Theorem responsiveness_counts_resolved_only (issues : list IssueDict) :
  filter counts_as_resolved issues <> [] ->
  calculate_responsiveness_score issues
  = calculate_responsiveness_score (filter counts_as_resolved issues).
Proof.
  intros Hne. unfold calculate_responsiveness_score.
  fold counts_as_resolved. change (fun i : IssueDict => (status i =? "resolved")%string
                               && truthy_int (resolution_time_days i)) with counts_as_resolved.
  destruct issues as [| i0 is0]; [reflexivity |].
  rewrite filter_idem.
  destruct (filter counts_as_resolved (i0 :: is0)); [congruence | reflexivity].
Qed.

(** One issue resolved in three days and one still open. *)
Lemma responsiveness_counts_resolved_only_witness :
  calculate_responsiveness_score
    [Cases.issue "resolved" (Some 3%Z); Cases.issue "open" None]
  = calculate_responsiveness_score [Cases.issue "resolved" (Some 3%Z)].
Proof.
  apply (responsiveness_counts_resolved_only
           [Cases.issue "resolved" (Some 3%Z); Cases.issue "open" None]).
  discriminate.
Defined.

Lemma responsiveness_score_grades (issues : list IssueDict) :
  In (score (calculate_responsiveness_score issues)) [100; 90; 75; 50; 25; 10].
Proof.
  unfold calculate_responsiveness_score.
  destruct issues; [cbn; tauto |].
  destruct (filter _ _); [cbn; tauto |].
  cbn [score].
  repeat match goal with |- context [if ?c then _ else _] => destruct c end;
    cbn; tauto.
Qed.

(** X5: a larger sample never lowers the grade [_get_confidence_level]
    gives, more signals never lower the grade [_calculate_confidence] gives,
    which depends on the two counts through their sum only, and the overall
    grade is never above the grade a component would get for as many
    samples. *)
Theorem confidence_grades_monotone (n m : nat) :
  (n <= m)%nat ->
  (confidence_rank (get_confidence_level n) <= confidence_rank (get_confidence_level m))%nat
  /\ forall (ratings ratings' : list RatingDict) (issues issues' : list IssueDict),
       (List.length ratings + List.length issues = n)%nat ->
       (List.length ratings' + List.length issues' = m)%nat ->
       (confidence_rank (calculate_confidence ratings issues)
        <= confidence_rank (calculate_confidence ratings' issues'))%nat
       /\ (confidence_rank (calculate_confidence ratings issues)
           <= confidence_rank (get_confidence_level n))%nat.
Proof.
  intros H. split.
  - unfold get_confidence_level.
    repeat match goal with
           | |- context [(?a <=? ?b)%nat] => destruct (Nat.leb_spec a b)
           end; cbn; lia.
  - intros ratings ratings' issues issues' Hn Hm.
    unfold calculate_confidence, get_confidence_level. rewrite Hn, Hm.
    split;
      repeat match goal with
             | |- context [(?a <=? ?b)%nat] => destruct (Nat.leb_spec a b)
             end; cbn; lia.
Qed.

(** Four signals against thirty. *)
Lemma confidence_grades_monotone_witness :
  (confidence_rank (get_confidence_level 4) <= confidence_rank (get_confidence_level 30))%nat.
Proof. apply (proj1 (confidence_grades_monotone 4 30 ltac:(lia))). Defined.

Lemma latest_metrics_max (rows : list CouncilMetrics) :
  match latest_metrics rows with
  | Some m => In m rows /\ forall r, In r rows -> (cm_year r <= cm_year m)%Z
  | None => rows = []
  end.
Proof.
  induction rows as [| r rest IH]; [reflexivity |]. cbn.
  destruct (latest_metrics rest) as [best |].
  - destruct IH as [Hin Hmax].
    destruct (cm_year r <? cm_year best)%Z eqn:E.
    + apply Z.ltb_lt in E. split; [right; exact Hin |].
      intros r' [<- | Hr']; [lia | apply Hmax, Hr'].
    + apply Z.ltb_ge in E. split; [left; reflexivity |].
      intros r' [<- | Hr']; [lia | specialize (Hmax r' Hr'); lia].
  - subst rest. split; [left; reflexivity |]. intros r' [<- | []]. lia.
Qed.

(** X6: when the council has metrics rows, the figures [_get_base_metrics]
    returns are those of one of its rows, and no row of the council is of a
    later year. *)
Theorem base_metrics_from_latest_year (council_id : Z) (db : Session) (r : CouncilMetrics) :
  In r (council_metrics db) -> cm_council_id r = council_id ->
  exists m,
    In m (council_metrics db) /\ cm_council_id m = council_id
    /\ (forall r', In r' (council_metrics db) -> cm_council_id r' = council_id ->
                   (cm_year r' <= cm_year m)%Z)
    /\ customer_satisfaction (get_base_metrics council_id db) = cm_customer_satisfaction m
    /\ service_delivery_score (get_base_metrics council_id db) = cm_service_delivery_score m
    /\ rates_revenue (get_base_metrics council_id db) = cm_rates_revenue m
    /\ total_revenue (get_base_metrics council_id db) = cm_total_revenue m.
Proof.
  intros Hin Hid. unfold get_base_metrics.
  set (rows := filter (fun m => (cm_council_id m =? council_id)%Z) (council_metrics db)).
  assert (Hr : In r rows).
  { apply filter_In. split; [exact Hin | apply Z.eqb_eq, Hid]. }
  pose proof (latest_metrics_max rows) as Hmax.
  destruct (latest_metrics rows) as [m |]; [| rewrite Hmax in Hr; destruct Hr].
  destruct Hmax as [Hm Hmax]. apply filter_In in Hm as [Hm Hmid].
  exists m. cbn. split; [exact Hm |]. split; [apply Z.eqb_eq, Hmid |].
  split; [| repeat split; reflexivity].
  intros r' Hr' Hid'. apply Hmax, filter_In. split; [exact Hr' | apply Z.eqb_eq, Hid'].
Qed.

(** Rows of 2022 and 2023. *)
Lemma base_metrics_from_latest_year_witness :
  exists m,
    In m (council_metrics Cases.two_years_db)
    /\ (2023 <= cm_year m)%Z
    /\ customer_satisfaction (get_base_metrics 1 Cases.two_years_db)
       = cm_customer_satisfaction m.
Proof.
  destruct (base_metrics_from_latest_year 1 Cases.two_years_db (Cases.row_of_year 2023 70))
    as (m & Hm & _ & Hmax & Hsat & _).
  - right. left. reflexivity.
  - reflexivity.
  - exists m. split; [exact Hm |]. split; [| exact Hsat].
    apply (Hmax (Cases.row_of_year 2023 70)); [right; left; reflexivity | reflexivity].
Defined.

Lemma get_rating_metrics_add (council_id : Z) (db : Session) (r : Rating) :
  r_council_id r <> council_id
  \/ r_moderation_status r <> "approved"%string
  \/ (r_created_at r < now db - timedelta_days 730)%Z ->
  get_rating_metrics council_id (add_rating r db) = get_rating_metrics council_id db.
Proof.
  intros H. unfold get_rating_metrics. cbn [add_rating Models.ratings now].
  rewrite filter_app. cbn [filter].
  assert (E : (r_council_id r =? council_id)%Z
              && (r_moderation_status r =? "approved")%string
              && (now db - timedelta_days 730 <=? r_created_at r)%Z = false).
  { destruct H as [H | [H | H]].
    - apply Z.eqb_neq in H. rewrite H. reflexivity.
    - apply String.eqb_neq in H. rewrite H. apply andb_false_iff. left.
      apply andb_false_r.
    - apply andb_false_iff. right. apply Z.leb_gt, H. }
  rewrite E, app_nil_r. reflexivity.
Qed.

(** X7: a stored rating that is not approved, is of another council, or is
    older than 730 days leaves the overall score, its components, its
    confidence and its sample sizes as they were. *)
Theorem unapproved_rating_ignored (self : ScoringEngine) (council_id : Z) (db : Session)
  (r : Rating) :
  r_council_id r <> council_id
  \/ r_moderation_status r <> "approved"%string
  \/ (r_created_at r < now db - timedelta_days 730)%Z ->
  calculate_overall_score self council_id (add_rating r db)
  = calculate_overall_score self council_id db.
Proof.
  intros H. unfold calculate_overall_score.
  rewrite (get_rating_metrics_add council_id db r H).
  reflexivity.
Qed.

(** A rating that awaits moderation. *)
Lemma unapproved_rating_ignored_witness :
  calculate_overall_score init 1 (add_rating Cases.pending Examples.three_ratings_db)
  = calculate_overall_score init 1 Examples.three_ratings_db.
Proof.
  apply (unapproved_rating_ignored init 1 Examples.three_ratings_db Cases.pending).
  right. left. discriminate.
Defined.

(** X8: the two windows of the red-flag index do not overlap and together
    cover the council's issues created in the last 180 days or later: the
    two counts add up to the number of those issues, so an older issue is
    never counted. *)
Theorem red_flag_windows (council_id : Z) (db : Session) :
  let idx := calculate_red_flag_index council_id db in
  (recent_issues idx + previous_issues idx)%nat
  = List.length (filter (fun i => (i_council_id i =? council_id)%Z
                                  && (now db - timedelta_days 180 <=? i_created_at i)%Z)
                        (issue_reports db)).
Proof.
  cbv zeta. unfold calculate_red_flag_index.
  cbn [recent_issues previous_issues red_flag_of_counts].
  induction (issue_reports db) as [| i rest IH]; [reflexivity |].
  cbn [filter].
  destruct (i_council_id i =? council_id)%Z; cbn [andb]; [| exact IH].
  unfold timedelta_days in *.
  destruct (now db - 90 * 86400000000 <=? i_created_at i)%Z eqn:E1;
    destruct (now db - 180 * 86400000000 <=? i_created_at i)%Z eqn:E2;
    destruct (i_created_at i <? now db - 90 * 86400000000)%Z eqn:E3;
    cbn [andb List.length];
    try (apply Z.leb_le in E1); try (apply Z.leb_gt in E1);
    try (apply Z.leb_le in E2); try (apply Z.leb_gt in E2);
    try (apply Z.ltb_lt in E3); try (apply Z.ltb_ge in E3);
    try lia.
Qed.

(** X9: the red-flag score is at its maximum of 100 as soon as there are
    two recent issues and no previous one, or four times as many recent as
    previous ones; without recent issues it is 0. *)
Theorem red_flag_saturates (recent previous : nat) :
  let idx := red_flag_of_counts recent previous in
  (previous = 0%nat -> (2 <= recent)%nat -> rf_score idx == 100)
  /\ ((0 < previous)%nat -> (4 * previous <= recent)%nat -> rf_score idx == 100)
  /\ (recent = 0%nat -> rf_score idx == 0).
Proof.
  cbv zeta. cbn [rf_score red_flag_of_counts]. unfold raw_red_flag_score, raw_spike_ratio.
  assert (Hsat : forall x, 100 <= x -> round (Qmin 100 x) 1 == 100).
  { intros x Hx. rewrite (round_comp (Qmin 100 x) (inject_Z 100) 1).
    - apply round_int.
    - change (inject_Z 100) with 100. apply Q.min_l, Hx. }
  split; [| split].
  - intros -> H2. cbn [Nat.eqb]. apply Hsat.
    apply of_nat_le in H2. change (of_nat 2) with 2 in H2. lra.
  - intros Hp H4. destruct previous as [| p]; [lia |]. cbn [Nat.eqb].
    apply Hsat.
    pose proof (of_nat_pos (S p) Hp) as Hpos.
    apply of_nat_le in H4. rewrite of_nat_mult in H4. change (of_nat 4) with 4 in H4.
    set (d := of_nat (S p)) in *. set (n := of_nat recent) in *.
    assert (Hq : 4 <= n / d).
    { apply Qle_shift_div_l; [exact Hpos | exact H4]. }
    lra.
  - intros ->. destruct previous; cbn [Nat.eqb].
    + vm_compute. reflexivity.
    + change (of_nat 0) with 0.
      rewrite (round_comp _ (inject_Z 0) 1); [apply round_int |].
      change (inject_Z 0) with 0.
      assert (E : 0 / of_nat (S previous) * 25 == 0).
      { unfold Qdiv. ring. }
      rewrite E. reflexivity.
Qed.

Lemma customer_satisfaction_range (ratings : list RatingDict) :
  (forall r, In r ratings -> 1 <= rating r <= 5) ->
  20 <= score (calculate_customer_satisfaction_score ratings) <= 100.
Proof.
  intros Hrange. unfold calculate_customer_satisfaction_score.
  destruct ratings as [| r0 rs] eqn:Er; [cbn; lra |]. rewrite <- Er in *.
  set (scores := map (fun r => rating r * 20) ratings).
  pose proof (filter_suspicious_sublist scores ratings) as (_ & _ & Hsub).
  destruct (filter_suspicious_ratings scores ratings) as [| f fs] eqn:Ef; [cbn; lra |].
  rewrite <- Ef in *. cbn [score].
  assert (Hb : forall x, In x (filter_suspicious_ratings scores ratings) -> 20 <= x <= 100).
  { intros x Hx. apply Hsub in Hx. apply in_map_iff in Hx as (r & <- & Hr).
    specialize (Hrange r Hr). lra. }
  assert (Hnn : filter_suspicious_ratings scores ratings <> []) by (rewrite Ef; discriminate).
  pose proof (mean_bounds _ 20 100 Hnn Hb) as [Hlo Hhi].
  split.
  - apply (round_ge_int _ 20), Hlo.
  - apply (round_le_int _ 100), Hhi.
Qed.

Lemma service_delivery_range (metrics : BaseMetrics) (ratings : list RatingDict) :
  (forall o, service_delivery_score metrics = Some o -> 0 <= o <= 100) ->
  (forall r, In r ratings -> 1 <= rating r <= 5) ->
  0 <= score (calculate_service_delivery_score metrics ratings) <= 70.
Proof.
  intros Hoff Hrat.
  unfold calculate_service_delivery_score.
  fold (category_average ratings).
  assert (Hcases : (ratings = [] /\ group_by_category ratings = [])
                   \/ (ratings <> [] /\ exists g gs, group_by_category ratings = g :: gs)).
  { destruct (group_by_category ratings) as [| g gs] eqn:Eg.
    - left. split; [apply group_by_category_nil, Eg | reflexivity].
    - right. split; [| eauto]. intros E. apply group_by_category_nil in E. congruence. }
  destruct (service_delivery_score metrics) as [o |] eqn:Eo;
    [specialize (Hoff o eq_refl); destruct (truthy_num (Some o)) eqn:Et |];
    (destruct Hcases as [[Hnil ->] | [Hne (g & gs & ->)]];
     [| pose proof (category_average_bounds ratings Hne Hrat) as Havg]);
    cbn [truthy_num Nat.eqb score insufficient];
    change (of_nat 1) with 1; change (of_nat 2) with 2; unfold Qdiv;
    change (/ 1) with 1; change (/ 2) with (1 # 2);
    (split;
     [ try lra; apply (round_ge_int _ 0); change (inject_Z 0) with 0; lra
     | try lra; apply (round_le_int _ 70); change (inject_Z 70) with 70; lra ]).
Qed.

Lemma base_metrics_row (council_id : Z) (db : Session) :
  (customer_satisfaction (get_base_metrics council_id db) = None
   /\ service_delivery_score (get_base_metrics council_id db) = None)
  \/ exists m, In m (council_metrics db)
       /\ customer_satisfaction (get_base_metrics council_id db) = cm_customer_satisfaction m
       /\ service_delivery_score (get_base_metrics council_id db)
          = cm_service_delivery_score m.
Proof.
  unfold get_base_metrics.
  set (rows := filter (fun m => (cm_council_id m =? council_id)%Z) (council_metrics db)).
  pose proof (latest_metrics_max rows) as Hmax.
  destruct (latest_metrics rows) as [m |]; [right | left; split; reflexivity].
  destruct Hmax as [Hm _]. apply filter_In in Hm as [Hm _].
  exists m. split; [exact Hm | split; reflexivity].
Qed.

(** X10: with ratings in 1..5 and official figures in [0, 100] the overall
    score lies between 9 and 91: the service-delivery component is at most
    70 and the responsiveness component at least 10. *)
Theorem overall_score_range (council_id : Z) (db : Session) :
  (forall r, In r (Models.ratings db) -> 1 <= r_rating r <= 5) ->
  (forall m o, In m (council_metrics db) ->
               cm_service_delivery_score m = Some o -> 0 <= o <= 100) ->
  (forall m s, In m (council_metrics db) ->
               cm_customer_satisfaction m = Some s -> 0 <= s <= 100) ->
  9 <= overall_score (calculate_overall_score init council_id db) <= 91.
Proof.
  intros Hr Ho Hs.
  assert (Hrat : forall r, In r (get_rating_metrics council_id db) -> 1 <= rating r <= 5).
  { intros r Hin. unfold get_rating_metrics in Hin.
    apply in_map_iff in Hin as (row & <- & Hrow). apply filter_In in Hrow as [Hrow _].
    cbn. apply Hr, Hrow. }
  assert (Hoff : forall o, service_delivery_score (get_base_metrics council_id db) = Some o ->
                           0 <= o <= 100).
  { intros o E. destruct (base_metrics_row council_id db) as [[_ E'] | (m & Hm & _ & E')].
    - congruence.
    - rewrite E' in E. exact (Ho m o Hm E). }
  assert (Hsat : forall s, customer_satisfaction (get_base_metrics council_id db) = Some s ->
                           0 <= s <= 100).
  { intros s E. destruct (base_metrics_row council_id db) as [[E' _] | (m & Hm & E' & _)].
    - congruence.
    - rewrite E' in E. exact (Hs m s Hm E). }
  pose proof (customer_satisfaction_range _ Hrat) as Hc.
  pose proof (service_delivery_range _ _ Hoff Hrat) as Hd.
  pose proof (value_for_rates_range _ Hsat) as Hv.
  assert (Hp : 10 <= score (calculate_responsiveness_score (get_issue_metrics council_id db))
               <= 100).
  { pose proof (responsiveness_score_grades (get_issue_metrics council_id db)) as Hg.
    cbn [In] in Hg.
    destruct Hg as [<- | [<- | [<- | [<- | [<- | [<- | []]]]]]]; lra. }
  cbn [overall_score calculate_overall_score]. unfold weighted_sum.
  cbn [c_customer_satisfaction c_service_delivery c_value_for_rates c_responsiveness
       weights init w_customer_satisfaction w_service_delivery w_value_for_rates
       w_responsiveness].
  set (c := score (calculate_customer_satisfaction_score _)) in *.
  set (d := score (calculate_service_delivery_score _ _)) in *.
  set (v := score (calculate_value_for_rates_score _)) in *.
  set (p := score (calculate_responsiveness_score _)) in *.
  split.
  - apply (round_ge_int _ 9). change (inject_Z 9) with 9. lra.
  - apply (round_le_int _ 91). change (inject_Z 91) with 91. lra.
Qed.

(** Council 1 with its three ratings. *)
Lemma overall_score_range_witness :
  9 <= overall_score (calculate_overall_score init 1 Examples.three_ratings_db) <= 91.
Proof.
  apply (overall_score_range 1 Examples.three_ratings_db).
  - intros r Hr. cbn in Hr.
    destruct Hr as [<- | [<- | [<- | []]]]; cbn; split; unfold Qle; cbn; lia.
  - intros m o Hm. destruct Hm.
  - intros m s Hm. destruct Hm.
Defined.

End ScoringInvariants.

(* ===================================================================== *)
(** * Invariants of the matcher, the estimator and the pipeline *)
(* ===================================================================== *)

Module FrameworkInvariants.
Import Py Models MetricsFramework DataIngestion IngestionSpec Interp CouncilComparison.
Import FrameworkNotions PyFacts ListFacts FrameworkProperties.
Local Open Scope string_scope.

(** ** The Metric Matcher on the shipped tables *)
Lemma dict_get_in {V} (k : string) (v : V) (d : list (string * V)) :
  dict_get k d = Some v -> In (k, v) d.
Proof.
  induction d as [| [k0 v0] rest IH]; cbn; [discriminate |].
  destruct (k0 =? k) eqn:E.
  - apply String.eqb_eq in E. intros [= <-]. left. now subst.
  - intros H. right. apply IH, H.
Qed.

Lemma metrics_by_name_catalog :
  metrics_by_name metric_normalizer
  = map (fun m => (canonical_name m, m)) STANDARDIZED_METRICS.
Proof. vm_compute. reflexivity. Qed.

Lemma metrics_by_name_entry (name : string) (m : StandardizedMetric) :
  In (name, m) (metrics_by_name metric_normalizer) ->
  In m STANDARDIZED_METRICS /\ canonical_name m = name.
Proof.
  rewrite metrics_by_name_catalog. intros Hin.
  apply in_map_iff in Hin as (m' & [= <- <-] & Hm'). auto.
Qed.

(** X11: on the shipped catalog and state tables [find_matching_metric]
    never raises (every metric a state table names is in the catalog), and
    whatever it returns is a catalog definition paired with its own
    canonical name. *)
Theorem shipped_matcher_never_raises (raw_name : string) (state : option string) :
  exists r,
    find_matching_metric metric_normalizer raw_name state = Ok r
    /\ forall name m, r = Some (name, m) ->
         In m STANDARDIZED_METRICS /\ canonical_name m = name.
Proof.
  unfold find_matching_metric.
  destruct (dict_get raw_name (metrics_by_name metric_normalizer)) as [metric |] eqn:E1.
  { eexists. split; [reflexivity |]. intros name m [= <- <-].
    apply metrics_by_name_entry, dict_get_in, E1. }
  destruct (find _ (metrics_by_name metric_normalizer)) as [[name metric] |] eqn:E2.
  { eexists. split; [reflexivity |]. intros name' m [= <- <-].
    apply find_some in E2 as [Hin _]. apply metrics_by_name_entry, Hin. }
  destruct state as [st |]; [| eexists; split; [reflexivity | discriminate]].
  destruct (st =? EmptyString); [eexists; split; [reflexivity | discriminate] |].
  destruct (dict_get st STATE_METRIC_MAPPINGS) as [table |] eqn:Et;
    [| eexists; split; [reflexivity | discriminate]].
  destruct (find _ table) as [[std_name aliases] |] eqn:E3;
    [| eexists; split; [reflexivity | discriminate]].
  apply find_some in E3 as [Hentry _]. apply dict_get_in in Et.
  assert (Hclosed : state_tables_closed metric_normalizer = true) by (vm_compute; reflexivity).
  unfold state_tables_closed in Hclosed. rewrite forallb_forall in Hclosed.
  specialize (Hclosed _ Et). cbn [snd] in Hclosed. rewrite forallb_forall in Hclosed.
  specialize (Hclosed _ Hentry). cbn [fst] in Hclosed. unfold dict_mem in Hclosed.
  destruct (dict_get std_name (metrics_by_name metric_normalizer)) as [metric |] eqn:E4;
    [| discriminate].
  eexists. split; [reflexivity |]. intros name m [= <- <-].
  apply metrics_by_name_entry, dict_get_in, E4.
Qed.

(** X12: passing a state never loses or changes a match: what the matcher
    finds without a state it finds, unchanged, with any state. *)
Theorem state_only_adds_matches (self : MetricNormalizer) (raw_name : string)
  (state : option string) (hit : string * StandardizedMetric) :
  find_matching_metric self raw_name None = Ok (Some hit) ->
  find_matching_metric self raw_name state = Ok (Some hit).
Proof.
  unfold find_matching_metric.
  destruct (dict_get raw_name (metrics_by_name self)); [trivial |].
  destruct (find _ (metrics_by_name self)) as [[name metric] |]; [trivial | discriminate].
Qed.

(** An alternative name, looked up for New South Wales. *)
Lemma state_only_adds_matches_witness :
  find_matching_metric metric_normalizer "recycling_rate" (Some "NSW")
  = Ok (Some ("waste_recycling_rate", Examples.waste_recycling_rate)).
Proof.
  apply (state_only_adds_matches metric_normalizer "recycling_rate" (Some "NSW")).
  vm_compute. reflexivity.
Defined.

Lemma lower_map_chars (s : string) : lower s = map_chars lower_ascii s.
Proof. induction s as [| c rest IH]; cbn; [reflexivity | now rewrite IH]. Qed.

Lemma replace_one_char (a b : ascii) (s : string) :
  replace (String a EmptyString) (String b EmptyString) s
  = map_chars (fun c => if (c =? a)%char then b else c) s.
Proof.
  unfold replace. induction s as [| c rest IH]; [reflexivity |].
  cbn [replace_scan prefix map_chars String.length Nat.sub].
  destruct (ascii_dec a c) as [<- | Hne].
  - rewrite Ascii.eqb_refl.
    replace (prefix EmptyString rest) with true by (destruct rest; reflexivity).
    cbn [append]. now rewrite IH.
  - assert (E : (c =? a)%char = false) by (apply Ascii.eqb_neq; congruence).
    rewrite E. now rewrite IH.
Qed.

Lemma map_chars_compose (f g : ascii -> ascii) (s : string) :
  map_chars g (map_chars f s) = map_chars (fun c => g (f c)) s.
Proof. induction s as [| c rest IH]; cbn; [reflexivity | now rewrite IH]. Qed.

Lemma map_chars_ext (f g : ascii -> ascii) (s : string) :
  (forall c, f c = g c) -> map_chars f s = map_chars g s.
Proof. intros E. induction s as [| c rest IH]; cbn; [reflexivity | now rewrite E, IH]. Qed.

Lemma normalize_name_chars (s : string) : normalize_name s = map_chars normalize_char s.
Proof.
  unfold normalize_name. rewrite !replace_one_char, lower_map_chars, !map_chars_compose.
  apply map_chars_ext. intros c. unfold normalize_char.
  destruct (lower_ascii c =? "_")%char eqn:E1; [reflexivity |].
  cbn [orb]. reflexivity.
Qed.

Lemma normalize_char_idempotent (c : ascii) :
  normalize_char (normalize_char c) = normalize_char c.
Proof.
  destruct c as [[] [] [] [] [] [] [] []]; reflexivity.
Qed.

Lemma normalize_name_idempotent (s : string) :
  normalize_name (normalize_name s) = normalize_name s
  /\ String.length (normalize_name s) = String.length s.
Proof.
  rewrite !normalize_name_chars, map_chars_compose. split.
  - apply map_chars_ext, normalize_char_idempotent.
  - induction s as [| c rest IH]; cbn; [reflexivity | now rewrite IH].
Qed.

(** X13: beyond the exact tier the matcher reads a raw name only through
    its normalised form (lower case, [_] and [-] turned into spaces): two
    names that are no canonical names and have the same normalised form are
    matched alike, and so are a name and its normalised form, normalisation
    being idempotent. *)
Theorem matcher_reads_normalised_name (self : MetricNormalizer) (raw1 raw2 : string)
  (state : option string) :
  get_metric_definition self raw1 = None ->
  get_metric_definition self raw2 = None ->
  normalize_name raw1 = normalize_name raw2 \/ raw2 = normalize_name raw1 ->
  find_matching_metric self raw1 state = find_matching_metric self raw2 state.
Proof.
  unfold get_metric_definition, find_matching_metric. intros -> -> E.
  assert (E' : normalize_name raw1 = normalize_name raw2).
  { destruct E as [E | ->]; [exact E |].
    symmetry. apply (proj1 (normalize_name_idempotent raw1)). }
  rewrite E'. reflexivity.
Qed.

(** A name in upper case with hyphens. *)
Lemma matcher_reads_normalised_name_witness :
  find_matching_metric metric_normalizer "Recycling-Rate" None
  = find_matching_metric metric_normalizer (normalize_name "Recycling-Rate") None.
Proof.
  apply (matcher_reads_normalised_name metric_normalizer "Recycling-Rate"
           (normalize_name "Recycling-Rate") None).
  - vm_compute. reflexivity.
  - vm_compute. reflexivity.
  - right. reflexivity.
Defined.

Lemma set_mem_true (x : string) (s : list string) : set_mem x s = true <-> In x s.
Proof.
  unfold set_mem. rewrite existsb_exists. split.
  - intros (y & Hy & E). apply String.eqb_eq in E. now subst.
  - intros H. exists x. split; [exact H | apply String.eqb_refl].
Qed.

(** X14: [get_missing_metrics_for_council] returns, without repeats, the
    canonical names of the catalog that are not in the list handed in; the
    council id plays no part, and the names returned and the catalog metrics
    found in the list add up to the catalog. *)
Theorem missing_metrics_complement (council_id : Z) (available : list string) :
  (forall name, In name (get_missing_metrics_for_council council_id available)
                <-> In name (map canonical_name STANDARDIZED_METRICS) /\ ~ In name available)
  /\ NoDup (get_missing_metrics_for_council council_id available)
  /\ (List.length (get_missing_metrics_for_council council_id available)
      + List.length (filter (fun m => set_mem (canonical_name m) available)
                            STANDARDIZED_METRICS)
      = List.length STANDARDIZED_METRICS)%nat.
Proof.
  unfold get_missing_metrics_for_council. split; [| split].
  - intros name. rewrite !in_map_iff. split.
    + intros (m & <- & Hm). apply filter_In in Hm as [Hm Hneg].
      split; [eauto |]. intros Hin. apply set_mem_true in Hin.
      rewrite Hin in Hneg. discriminate.
    + intros [(m & <- & Hm) Hnot]. exists m. split; [reflexivity |].
      apply filter_In. split; [exact Hm |].
      destruct (set_mem (canonical_name m) available) eqn:E; [| reflexivity].
      apply set_mem_true in E. contradiction.
  - pose proof catalog_names_distinct as Hnd.
    induction STANDARDIZED_METRICS as [| m rest IH]; cbn; [constructor |].
    inversion Hnd as [| ? ? Hnotin Hnd']; subst.
    destruct (negb _); cbn; [| apply IH, Hnd'].
    constructor; [| apply IH, Hnd'].
    intros Hin. apply Hnotin. apply in_map_iff in Hin as (m' & E & Hm').
    apply filter_In in Hm' as [Hm' _]. rewrite <- E. now apply in_map.
  - rewrite length_map.
    induction STANDARDIZED_METRICS as [| m rest IH]; cbn; [reflexivity |].
    destruct (set_mem (canonical_name m) available); cbn; lia.
Qed.

Lemma get_metric_definition_catalog (name : string) (m : StandardizedMetric) :
  get_metric_definition metric_normalizer name = Some m ->
  In m STANDARDIZED_METRICS /\ canonical_name m = name.
Proof.
  unfold get_metric_definition. intros E. apply metrics_by_name_entry, dict_get_in, E.
Qed.

Lemma per_capita_names (m : StandardizedMetric) :
  In m STANDARDIZED_METRICS ->
  contains "per_capita" (canonical_name m) = true ->
  In (canonical_name m)
     ["rates_revenue_per_capita"; "total_revenue_per_capita"; "roads_maintained_per_capita"].
Proof.
  intros Hin. cbn in Hin.
  repeat (destruct Hin as [<- | Hin];
          [intros E; vm_compute in E; first [discriminate E | cbn; auto 10] |]).
  destruct Hin.
Qed.

(** X15: on the shipped catalog the estimator gives a figure for three
    metrics only, the ones whose name contains [per_capita], and only when
    the council record has a population served that is neither none nor
    zero and at least one peer is handed in. *)
Theorem estimate_only_per_capita (metric_name : string)
  (council_data : list (string * py_value)) (peers : list (list (string * py_value)))
  (estimate : Q) :
  estimate_missing_metric metric_normalizer metric_name council_data peers
  = Ok (Some estimate) ->
  In metric_name
     ["rates_revenue_per_capita"; "total_revenue_per_capita"; "roads_maintained_per_capita"]
  /\ (exists v, dict_get "population_served" council_data = Some v /\ truthy v = true)
  /\ peers <> [].
Proof.
  unfold estimate_missing_metric.
  destruct (get_metric_definition metric_normalizer metric_name) as [m |] eqn:Em;
    [| discriminate].
  apply get_metric_definition_catalog in Em as [Hin <-].
  destruct (contains "per_capita" (canonical_name m)) eqn:Ec; [| discriminate].
  unfold dict_mem.
  destruct (dict_get "population_served" council_data) as [v |]; [| discriminate].
  cbn [andb]. destruct (truthy v) eqn:Et; [| discriminate].
  destruct peers as [| peer rest]; [discriminate |].
  intros _. split; [apply per_capita_names; assumption |].
  split; [eauto | discriminate].
Qed.

(** Two peers of an entity of 100. *)
Lemma estimate_only_per_capita_witness :
  In "rates_revenue_per_capita"
     ["rates_revenue_per_capita"; "total_revenue_per_capita"; "roads_maintained_per_capita"]
  /\ [Examples.peer_with 51 10; Examples.peer_with 149 20] <> [].
Proof.
  refine ((fun H => conj (proj1 H) (proj2 (proj2 H)))
            (estimate_only_per_capita "rates_revenue_per_capita" Examples.entity_100
               [Examples.peer_with 51 10; Examples.peer_with 149 20] _ _)).
  vm_compute. reflexivity.
Defined.

Lemma filter_raising_subset {A} (cond : A -> result bool) (l kept : list A) :
  filter_raising cond l = Ok kept -> forall x, In x kept -> In x l.
Proof.
  revert kept. induction l as [| a l IH]; intros kept; cbn.
  - intros [= <-] x [].
  - destruct (cond a) as [keep | e]; cbn [bind]; [| discriminate].
    destruct (filter_raising cond l) as [kept' | e]; cbn [bind]; [| discriminate].
    intros [= <-] x Hx. destruct keep.
    + destruct Hx as [<- | Hx]; [now left | right; now apply (IH kept')].
    + right. now apply (IH kept').
Qed.

Lemma peer_values_source (metric_name : string) (similar : list (list (string * py_value)))
  (v : py_value) :
  In v (peer_values metric_name similar) ->
  exists peer, In peer similar /\ dict_get metric_name peer = Some v.
Proof.
  induction similar as [| c rest IH]; cbn; [contradiction |].
  destruct (dict_get metric_name c) as [w |] eqn:E.
  - destruct (is_none w).
    + intros H. destruct (IH H) as (peer & Hp & Hv). eauto.
    + intros [<- | H]; [eauto |]. destruct (IH H) as (peer & Hp & Hv). eauto.
  - intros H. destruct (IH H) as (peer & Hp & Hv). eauto.
Qed.

Lemma sum_values_ok (values : list py_value) (acc total : Q) :
  sum_values values acc = Ok total -> Forall (fun v => as_number v <> None) values.
Proof.
  revert acc. induction values as [| v rest IH]; intros acc; cbn; [constructor |].
  destruct (as_number v) as [x |] eqn:E; [| discriminate].
  intros H. constructor; [rewrite E; discriminate | apply (IH _ H)].
Qed.

Lemma numbers_of_source (values : list py_value) (x : Q) :
  In x (numbers_of values) -> exists v, In v values /\ as_number v = Some x.
Proof.
  induction values as [| v rest IH]; cbn; [contradiction |].
  destruct (as_number v) as [y |] eqn:E.
  - intros [<- | H]; [eauto |]. destruct (IH H) as (w & Hw & Ew). eauto.
  - intros H. destruct (IH H) as (w & Hw & Ew). eauto.
Qed.

(** X16: an estimate lies between any two whole numbers that enclose the
    value of the metric at every peer handed in.  The bounds are whole
    numbers whose multiples by the number of peers stay below 2^53: sums of
    that many values between them are enclosed by numbers binary64 holds
    exactly, so the float mean cannot leave the bounds either. *)
Theorem estimate_within_peer_range (self : MetricNormalizer) (metric_name : string)
  (council_data : list (string * py_value)) (peers : list (list (string * py_value)))
  (estimate : Q) (lo hi : Z) :
  (Z.of_nat (List.length peers) * Z.max (Z.abs lo) (Z.abs hi) < 2 ^ 53)%Z ->
  (forall peer v x, In peer peers -> dict_get metric_name peer = Some v ->
                    as_number v = Some x -> (inject_Z lo <= x <= inject_Z hi)%Q) ->
  estimate_missing_metric self metric_name council_data peers = Ok (Some estimate) ->
  (inject_Z lo <= estimate <= inject_Z hi)%Q.
Proof.
  intros _ Hrange. unfold estimate_missing_metric.
  destruct (get_metric_definition self metric_name); [| discriminate].
  destruct (_ && _); [| discriminate].
  destruct (_ && _); [| discriminate].
  destruct (filter_raising _ peers) as [similar | e] eqn:Ef; cbn [bind]; [| discriminate].
  destruct similar as [| s0 similar']; [discriminate |].
  cbv beta iota. remember (s0 :: similar') as similar eqn:Esim. clear Esim s0 similar'.
  destruct (peer_values metric_name similar) as [| v0 values'] eqn:Ev; [discriminate |].
  rewrite <- Ev.
  destruct (sum_values (peer_values metric_name similar) 0%Q) as [total | e] eqn:Es;
    cbn [bind]; [| discriminate].
  intros [= <-].
  pose proof (sum_values_ok _ _ _ Es) as Hnum.
  destruct (sum_values_numbers _ 0%Q Hnum) as [Esum Hlen].
  rewrite Esum in Es. injection Es as <-.
  rewrite <- Hlen. apply mean_bounds.
  - intros E. rewrite E in Hlen. rewrite Ev in Hlen. discriminate.
  - intros x Hx. apply numbers_of_source in Hx as (v & Hv & Ex).
    apply peer_values_source in Hv as (peer & Hpeer & Hget).
    apply (Hrange peer v x); [| exact Hget | exact Ex].
    apply (filter_raising_subset _ _ _ Ef), Hpeer.
Qed.

(** Peers with the values 10 and 20. *)
Lemma estimate_within_peer_range_witness :
  exists estimate,
    estimate_missing_metric metric_normalizer "rates_revenue_per_capita" Examples.entity_100
      [Examples.peer_with 51 10; Examples.peer_with 149 20] = Ok (Some estimate)
    /\ (10 <= estimate <= 20)%Q.
Proof.
  eexists. split; [vm_compute; reflexivity |].
  apply (estimate_within_peer_range metric_normalizer "rates_revenue_per_capita"
           Examples.entity_100 [Examples.peer_with 51 10; Examples.peer_with 149 20]
           _ 10 20).
  - cbn. lia.
  - intros peer v x [<- | [<- | []]] Hv Hx; cbn in Hv; injection Hv as <-;
      cbn in Hx; injection Hx as <-; split; unfold Qle; cbn; lia.
  - vm_compute. reflexivity.
Defined.

Lemma is_similar_truthy (population : py_value) (peer : list (string * py_value)) :
  truthy population = true ->
  (exists keep, is_similar population peer = Ok keep)
  \/ is_similar population peer = Raise TypeError.
Proof.
  intros Ht. unfold is_similar, num_op.
  destruct (as_number (peer_population peer)) as [n |]; [| now right].
  destruct (as_number population) as [p |] eqn:Ep; [| now right].
  cbn [bind].
  destruct population; cbn in Ep, Ht; try discriminate; injection Ep as <-.
  - assert (E : Qeq_bool (inject_Z z) 0 = false).
    { apply negb_true_iff, Z.eqb_neq in Ht.
      destruct (Qeq_bool (inject_Z z) 0) eqn:E; [| reflexivity].
      apply Qeq_bool_iff in E. unfold Qeq in E. cbn in E. lia. }
    rewrite E. eauto.
  - apply negb_true_iff in Ht. rewrite Ht. eauto.
Qed.

Lemma filter_raising_type_error (population : py_value)
  (peers : list (list (string * py_value))) :
  truthy population = true ->
  (exists peer, In peer peers /\ as_number (peer_population peer) = None) ->
  filter_raising (is_similar population) peers = Raise TypeError.
Proof.
  intros Ht. induction peers as [| c rest IH]; intros (peer & Hin & Hbad);
    [contradiction |].
  cbn [filter_raising].
  destruct Hin as [-> | Hin].
  - unfold is_similar at 1, num_op. rewrite Hbad. reflexivity.
  - destruct (is_similar_truthy population c Ht) as [[keep ->] | ->]; [| reflexivity].
    cbn [bind]. rewrite IH by eauto. reflexivity.
Qed.

(** X17: a peer whose population served is not a number is not skipped:
    for a per-capita metric and a council with a population served that is
    not zero, one such peer among those handed in makes the estimator raise
    [TypeError]. *)
Theorem estimate_raises_on_unreadable_peer (self : MetricNormalizer) (metric_name : string)
  (council_data : list (string * py_value)) (peers : list (list (string * py_value)))
  (population : py_value) (peer : list (string * py_value)) :
  get_metric_definition self metric_name <> None ->
  contains "per_capita" metric_name = true ->
  dict_get "population_served" council_data = Some population ->
  truthy population = true ->
  In peer peers ->
  as_number (peer_population peer) = None ->
  estimate_missing_metric self metric_name council_data peers = Raise TypeError.
Proof.
  intros Hdef Hname Hpop Ht Hin Hbad. unfold estimate_missing_metric, dict_mem.
  destruct (get_metric_definition self metric_name); [| congruence].
  rewrite Hname, Hpop, Ht. cbn [andb].
  destruct peers as [| p0 rest] eqn:Ep; [contradiction |]. rewrite <- Ep in *.
  replace (negb (is_empty peers)) with true by (rewrite Ep; reflexivity).
  rewrite (filter_raising_type_error population peers Ht) by eauto.
  reflexivity.
Qed.

(** A peer without a population after one with. *)
Lemma estimate_raises_on_unreadable_peer_witness :
  estimate_missing_metric metric_normalizer "rates_revenue_per_capita" Examples.entity_100
    [Examples.peer_with 51 10; Cases.unknown_peer] = Raise TypeError.
Proof.
  apply (estimate_raises_on_unreadable_peer metric_normalizer "rates_revenue_per_capita"
           Examples.entity_100 [Examples.peer_with 51 10; Cases.unknown_peer]
           (PyInt 100) Cases.unknown_peer).
  - vm_compute. discriminate.
  - vm_compute. reflexivity.
  - reflexivity.
  - reflexivity.
  - right. left. reflexivity.
  - reflexivity.
Defined.

(** ** The categories of the normalizer *)

Lemma category_eqb_eq (a b : MetricCategory) : category_eqb a b = true <-> a = b.
Proof. destruct a, b; cbn; split; congruence. Qed.

Lemma append_metric_keys (m : StandardizedMetric)
  (d : list (MetricCategory * list StandardizedMetric)) (c : MetricCategory) :
  In c (map fst (append_metric m d)) <-> c = category m \/ In c (map fst d).
Proof.
  induction d as [| [k l] d IH]; cbn.
  - intuition auto.
  - destruct (category_eqb k (category m)) eqn:E; cbn.
    + apply category_eqb_eq in E. subst k. intuition auto.
    + rewrite IH. intuition auto.
Qed.

Lemma append_metric_nodup (m : StandardizedMetric)
  (d : list (MetricCategory * list StandardizedMetric)) :
  NoDup (map fst d) -> NoDup (map fst (append_metric m d)).
Proof.
  induction d as [| [k l] d IH]; cbn; intros Hnd.
  - constructor; [intros [] | constructor].
  - inversion Hnd as [| ? ? Hnotin Hnd']; subst.
    destruct (category_eqb k (category m)) eqn:E; cbn.
    + constructor; assumption.
    + constructor; [| apply IH, Hnd'].
      rewrite append_metric_keys. intros [-> | Hin]; [| contradiction].
      assert (category_eqb (category m) (category m) = true) by now apply category_eqb_eq.
      congruence.
Qed.

Lemma append_metric_entries (m : StandardizedMetric)
  (d : list (MetricCategory * list StandardizedMetric)) (c : MetricCategory)
  (l : list StandardizedMetric) :
  NoDup (map fst d) -> In (c, l) (append_metric m d) ->
  (c <> category m /\ In (c, l) d)
  \/ (c = category m
      /\ ((exists l0, In (c, l0) d /\ l = (l0 ++ [m])%list)
          \/ (~ In c (map fst d) /\ l = [m]))).
Proof.
  induction d as [| [k l1] d IH]; cbn; intros Hnd.
  - intros [[= <- <-] | []]. right. split; [reflexivity |]. right. split; [tauto | reflexivity].
  - inversion Hnd as [| ? ? Hnotin Hnd']; subst.
    destruct (category_eqb k (category m)) eqn:E; cbn.
    + apply category_eqb_eq in E. subst k. intros [[= <- <-] | Hin].
      * right. split; [reflexivity |]. left. exists l1. split; [now left | reflexivity].
      * left. split; [| now right]. intros ->. apply Hnotin.
        apply (in_map fst) in Hin. exact Hin.
    + assert (Hk : k <> category m).
      { intros ->. assert (category_eqb (category m) (category m) = true)
          by now apply category_eqb_eq. congruence. }
      intros [[= <- <-] | Hin]; [left; split; [exact Hk | now left] |].
      destruct (IH Hnd' Hin) as [[Hc Hd] | [Hc [(l0 & Hl0 & ->) | [Hno ->]]]].
      * left. split; [exact Hc | now right].
      * right. split; [exact Hc |]. left. exists l0. split; [now right | reflexivity].
      * right. split; [exact Hc |]. right. split; [| reflexivity].
        intros [<- | Hin']; [congruence | contradiction].
Qed.

(** X18: the normalizer files every metric of its table under its
    category: the categories filed are distinct, each holds exactly the
    metrics of the table that belong to it, in table order, and none is
    empty. *)
Theorem metrics_by_category_groups (table : list StandardizedMetric) :
  let by_category := metrics_by_category (init_with table) in
  NoDup (map fst by_category)
  /\ (forall c l, In (c, l) by_category -> l <> [] /\ l = of_category c table)
  /\ (forall m, In m table -> In (category m) (map fst by_category)).
Proof.
  cbv zeta. unfold init_with. cbn [metrics_by_category].
  set (inv := fun (done : list StandardizedMetric)
                  (d : list (MetricCategory * list StandardizedMetric)) =>
                NoDup (map fst d)
                /\ (forall c l, In (c, l) d -> l <> [] /\ l = of_category c done)
                /\ (forall m, In m done -> In (category m) (map fst d))).
  assert (Hgen : forall rest done d,
            inv done d ->
            inv (done ++ rest)%list (fold_left (fun d m => append_metric m d) rest d)).
  { induction rest as [| m rest IH]; intros done d Hinv; cbn [fold_left].
    - now rewrite app_nil_r.
    - replace (done ++ m :: rest)%list with ((done ++ [m]) ++ rest)%list
        by (now rewrite <- app_assoc).
      apply IH. destruct Hinv as (Hnd & Hgroups & Hfiled).
      split; [apply append_metric_nodup, Hnd |]. split.
      + intros c l Hin. unfold of_category. rewrite filter_app. cbn [filter].
        apply (append_metric_entries m d c l Hnd) in Hin
          as [[Hc Hd] | [-> [(l0 & Hl0 & ->) | [Hno ->]]]].
        * destruct (Hgroups c l Hd) as [Hne ->].
          assert (E : category_eqb (category m) c = false).
          { destruct (category_eqb (category m) c) eqn:E; [| reflexivity].
            apply category_eqb_eq in E. congruence. }
          rewrite E, app_nil_r. split; [exact Hne | reflexivity].
        * destruct (Hgroups _ l0 Hl0) as [Hne ->].
          assert (E : category_eqb (category m) (category m) = true)
            by now apply category_eqb_eq.
          rewrite E. split; [| reflexivity]. intros E'. apply app_eq_nil in E' as [_ E'].
          discriminate.
        * assert (E : category_eqb (category m) (category m) = true)
            by now apply category_eqb_eq.
          rewrite E. split; [discriminate |].
          assert (Hempty : filter (fun m0 => category_eqb (category m0) (category m)) done = []).
          { destruct (filter _ done) as [| m' ms] eqn:Ef; [reflexivity |].
            exfalso. assert (Hm' : In m' (m' :: ms)) by now left.
            rewrite <- Ef in Hm'. apply filter_In in Hm' as [Hm' Hcat].
            apply category_eqb_eq in Hcat. apply Hno. rewrite <- Hcat. apply Hfiled, Hm'. }
          now rewrite Hempty.
      + intros m' Hm'. apply append_metric_keys. apply in_app_or in Hm' as [Hm' | [<- | []]].
        * right. apply Hfiled, Hm'.
        * now left. }
  apply (Hgen table [] []).
  split; [constructor |]. split; intros ? ?; contradiction.
Qed.

(** ** The raw map *)

Lemma dict_set_keys {V} (k : string) (v : V) (d : list (string * V)) (k' : string) :
  In k' (map fst (dict_set k v d)) <-> k' = k \/ In k' (map fst d).
Proof.
  induction d as [| [k0 w] d IH]; cbn.
  - intuition auto.
  - destruct (k0 =? k) eqn:E; cbn.
    + apply String.eqb_eq in E. subst k0. intuition auto.
    + rewrite IH. intuition auto.
Qed.

Lemma dict_set_entries {V} (k : string) (v : V) (d : list (string * V)) (k' : string) (v' : V) :
  In (k', v') (dict_set k v d) -> (k' = k /\ v' = v) \/ In (k', v') d.
Proof.
  induction d as [| [k0 w] d IH]; cbn.
  - intros [[= <- <-] | []]. auto.
  - destruct (k0 =? k) eqn:E; cbn.
    + apply String.eqb_eq in E. subst k0. intros [[= <- <-] | Hin]; auto.
    + intros [Heq | Hin]; [auto |]. destruct (IH Hin); auto.
Qed.

Lemma dict_set_nodup {V} (k : string) (v : V) (d : list (string * V)) :
  NoDup (map fst d) -> NoDup (map fst (dict_set k v d)).
Proof.
  induction d as [| [k0 w] d IH]; cbn; intros Hnd.
  - constructor; [intros [] | constructor].
  - inversion Hnd as [| ? ? Hnotin Hnd']; subst.
    destruct (k0 =? k) eqn:E; cbn.
    + constructor; assumption.
    + constructor; [| apply IH, Hnd'].
      rewrite dict_set_keys. intros [-> | Hin]; [| contradiction].
      rewrite String.eqb_refl in E. discriminate.
Qed.

Lemma flat_numbers_set (k : string) (x : py_value) (d : list (string * py_value)) :
  is_number x = true -> flat_numbers d -> flat_numbers (dict_set k x d).
Proof.
  intros Hx [Hnd Hnum]. split; [apply dict_set_nodup, Hnd |].
  intros k' v' Hin. apply dict_set_entries in Hin as [[_ ->] | Hin]; [exact Hx |].
  apply (Hnum k' v' Hin).
Qed.

Lemma flatten_value_flat : forall (v : Payload) (key : string) (acc : list (string * py_value)),
  flat_numbers acc -> flat_numbers (flatten_value v key acc).
Proof.
  fix IH 1. intros [x | d] key acc Hacc.
  - cbn. destruct (is_number x) eqn:E; [apply flat_numbers_set; assumption | exact Hacc].
  - cbn. revert acc Hacc. induction d as [| [k child] rest IHd]; intros acc Hacc.
    + exact Hacc.
    + apply IHd. apply IH, Hacc.
Qed.

Lemma flatten_dict_flat (d : list (string * Payload)) (prefix : string)
  (acc : list (string * py_value)) :
  flat_numbers acc -> flat_numbers (flatten_dict d prefix acc).
Proof.
  revert acc. induction d as [| [k v] rest IH]; intros acc Hacc; cbn.
  - exact Hacc.
  - apply IH, flatten_value_flat, Hacc.
Qed.

Lemma flat_numbers_nil : flat_numbers [].
Proof. split; [constructor | intros k v []]. Qed.

Lemma dict_update_flat (d e : list (string * py_value)) :
  flat_numbers d -> (forall k v, In (k, v) e -> is_number v = true) ->
  flat_numbers (dict_update d e).
Proof.
  unfold dict_update. revert d. induction e as [| [k v] rest IH]; intros d Hd He; cbn.
  - exact Hd.
  - apply IH.
    + apply flat_numbers_set; [apply (He k v); now left | exact Hd].
    + intros k' v' Hin. apply (He k' v'). now right.
Qed.

(** X19: whatever the payloads hold, the flat map [_extract_raw_metrics]
    builds, and the map collected from all sources, has one entry per key
    and numbers only: text and [None] leaves are dropped at every depth. *)
Theorem raw_metrics_flat_numbers (source_data : list (string * Payload))
  (sources_data : list (string * list (string * Payload))) :
  flat_numbers (extract_raw_metrics source_data)
  /\ flat_numbers (collect_raw_metrics sources_data).
Proof.
  split.
  - apply flatten_dict_flat, flat_numbers_nil.
  - unfold collect_raw_metrics.
    assert (Hgen : forall acc, flat_numbers acc ->
              flat_numbers (fold_left (fun raw_metrics src =>
                              dict_update raw_metrics (extract_raw_metrics (snd src)))
                            sources_data acc)).
    { induction sources_data as [| src rest IH]; intros acc Hacc; cbn; [exact Hacc |].
      apply IH, dict_update_flat; [exact Hacc |].
      apply (flatten_dict_flat (snd src) EmptyString [] flat_numbers_nil). }
    apply Hgen, flat_numbers_nil.
Qed.

Lemma intersection_length_comm (a b : list string) :
  NoDup a -> NoDup b ->
  List.length (intersection a b) = List.length (intersection b a).
Proof.
  intros Ha Hb. apply Permutation_length, NoDup_Permutation.
  - apply NoDup_filter, Ha.
  - apply NoDup_filter, Hb.
  - intros x. unfold intersection. rewrite !filter_In, !set_mem_true. tauto.
Qed.

(** X20: the fuzzy name test does not depend on the order of its two
    arguments, and every name is similar to itself. *)
Theorem names_similar_symmetric (name1 name2 : string) :
  names_similar name1 name2 = names_similar name2 name1
  /\ names_similar name1 name1 = true.
Proof.
  unfold names_similar. split; [| now rewrite String.eqb_refl].
  rewrite (String.eqb_sym (normalize_name name2)).
  destruct (normalize_name name1 =? normalize_name name2); [reflexivity |].
  rewrite Nat.min_comm.
  rewrite (intersection_length_comm (to_set (split (normalize_name name1)))
                                    (to_set (split (normalize_name name2))));
    [reflexivity | apply NoDup_nodup | apply NoDup_nodup].
Qed.

(** X21: for a catalog metric [_find_matching_raw_metric] never raises,
    what it returns is the value of a raw key the fuzzy test accepts for the
    canonical name, and it returns nothing exactly when the test accepts no
    raw key. *)
Theorem raw_match_is_similar_key (m : StandardizedMetric)
  (raw_metrics : list (string * py_value)) (state : option string) :
  In m STANDARDIZED_METRICS ->
  exists r,
    find_matching_raw_metric (canonical_name m) raw_metrics state = Ok r
    /\ (r = None <-> forall k v, In (k, v) raw_metrics ->
                                 names_similar (canonical_name m) k = false)
    /\ (forall v, r = Some v ->
          exists k, In (k, v) raw_metrics /\ names_similar (canonical_name m) k = true).
Proof.
  intros Hin. unfold find_matching_raw_metric.
  assert (Hrefl : names_similar (canonical_name m) (canonical_name m) = true).
  { unfold names_similar. now rewrite String.eqb_refl. }
  destruct (dict_get (canonical_name m) raw_metrics) as [v |] eqn:E.
  - exists (Some v). split; [reflexivity |]. apply dict_get_in in E. split.
    + split; [discriminate |]. intros Hno. rewrite (Hno _ _ E) in Hrefl. discriminate.
    + intros v' [= <-]. eauto.
  - rewrite (find_matching_metric_known _ _ _ m (catalog_get m Hin)).
    cbn [bind]. rewrite E.
    destruct (find _ raw_metrics) as [[k v] |] eqn:Ef; cbn [option_map snd].
    + exists (Some v). split; [reflexivity |].
      apply find_some in Ef as [Hk Hs]. cbn [fst] in Hs. split.
      * split; [discriminate |]. intros Hno. rewrite (Hno _ _ Hk) in Hs. discriminate.
      * intros v' [= <-]. eauto.
    + exists None. split; [reflexivity |]. split; [| discriminate].
      split; [| reflexivity]. intros _ k v Hk.
      apply (find_none _ _ Ef (k, v) Hk).
Qed.

(** A raw key that shares two tokens with the canonical name. *)
Lemma raw_match_is_similar_key_witness :
  exists r,
    find_matching_raw_metric "waste_recycling_rate" [("recycling rate", PyFloat 55)] None
    = Ok r
    /\ r <> None.
Proof.
  destruct (raw_match_is_similar_key Examples.waste_recycling_rate
              [("recycling rate", PyFloat 55)] None) as (r & Hr & Hnone & _).
  - cbn. do 8 right. left. reflexivity.
  - exists r. split; [exact Hr |]. intros E.
    pose proof (proj1 Hnone E "recycling rate" (PyFloat 55) (or_introl eq_refl)) as Hs.
    vm_compute in Hs. discriminate Hs.
Defined.

(** ** The profile *)

Lemma dict_set_length_fresh {V} (k : string) (v : V) (d : list (string * V)) :
  ~ In k (map fst d) -> List.length (dict_set k v d) = S (List.length d).
Proof.
  induction d as [| [k0 w] d IH]; cbn; intros Hnot; [reflexivity |].
  destruct (k0 =? k) eqn:E.
  - apply String.eqb_eq in E. exfalso. apply Hnot. now left.
  - cbn. f_equal. apply IH. intros Hin. apply Hnot. now right.
Qed.

Lemma find_matching_raw_metric_some (m : StandardizedMetric)
  (raw_metrics : list (string * py_value)) (state : option string) (v : py_value) :
  In m STANDARDIZED_METRICS ->
  find_matching_raw_metric (canonical_name m) raw_metrics state = Ok (Some v) ->
  exists k, In (k, v) raw_metrics /\ names_similar (canonical_name m) k = true.
Proof.
  intros Hin. unfold find_matching_raw_metric.
  destruct (dict_get (canonical_name m) raw_metrics) as [w |] eqn:E.
  - intros [= <-]. exists (canonical_name m). split; [apply dict_get_in, E |].
    unfold names_similar. now rewrite String.eqb_refl.
  - rewrite (find_matching_metric_known _ _ _ m (catalog_get m Hin)).
    cbn [bind]. rewrite E.
    destruct (find _ raw_metrics) as [[k w] |] eqn:Ef; cbn [option_map snd]; [| discriminate].
    intros [= <-]. apply find_some in Ef as [Hk Hs]. eauto.
Qed.

Section Pipeline.
Context `{Builtins}.

Variables (council : Council)
          (sources_data : list (string * list (string * Payload)))
          (raw_metrics : list (string * py_value)) (db : Session).

Lemma normalize_metric_invariant (done : list StandardizedMetric) (m : StandardizedMetric)
  (acc acc' : list (string * Observation) * nat) :
  In m STANDARDIZED_METRICS ->
  ~ In (canonical_name m) (map canonical_name done) ->
  loop_invariant raw_metrics done acc ->
  normalize_metric (info_of council) sources_data raw_metrics db acc m = Ok acc' ->
  loop_invariant raw_metrics (done ++ [m])%list acc'.
Proof.
  intros Hin Hfresh (Hcount & Hlen & Hkeys & Hobs). unfold normalize_metric.
  destruct acc as [std n]. cbn [fst snd] in *.
  assert (Hkeep : loop_invariant raw_metrics (done ++ [m])%list (std, n)).
  { split; [exact Hcount |]. split; [cbn [fst]; rewrite length_app; cbn; lia |].
    split; [| exact Hobs].
    intros key Hkey. rewrite map_app. apply in_or_app. left. apply Hkeys, Hkey. }
  destruct (find_matching_raw_metric _ _ _) as [[matched |] | e] eqn:Ematch; cbn [bind];
    try discriminate.
  - destruct (normalize_value _ _ _ _) as [v | e]; cbn [bind]; [| discriminate].
    intros [= <-].
    assert (Hnew : List.length (dict_set (canonical_name m)
                      {| value := v; raw_value := matched;
                         source := identify_source (canonical_name m) sources_data;
                         confidence := "high" |} std) = S (List.length std)).
    { apply dict_set_length_fresh. intros Hk. apply Hfresh, Hkeys, Hk. }
    split; [| split; [| split]]; cbn [fst snd].
    + now rewrite Hnew, Hcount.
    + rewrite Hnew, length_app. cbn. lia.
    + intros key Hkey. apply dict_set_keys in Hkey as [-> | Hkey].
      * rewrite map_app. apply in_or_app. right. now left.
      * rewrite map_app. apply in_or_app. left. apply Hkeys, Hkey.
    + intros key obs Hin'. apply dict_set_entries in Hin' as [[_ ->] | Hin'].
      * split; [reflexivity |]. split; [reflexivity |]. cbn [raw_value].
        destruct (find_matching_raw_metric_some m raw_metrics _ matched Hin Ematch)
          as (k & Hk & _).
        eauto.
      * apply (Hobs key obs Hin').
  - unfold estimate_missing_metric_for.
    destruct (get_peer_council_data _ db) as [peers | e]; cbn [bind]; [| discriminate].
    rewrite estimate_without_population_served. cbn [bind].
    intros [= <-]. exact Hkeep.
Qed.

Lemma standardize_invariant (built : list (string * Observation) * nat) :
  standardize (info_of council) sources_data raw_metrics db = Ok built ->
  loop_invariant raw_metrics STANDARDIZED_METRICS built.
Proof.
  unfold standardize.
  assert (Hgen : forall rest done acc,
            (done ++ rest)%list = STANDARDIZED_METRICS ->
            loop_invariant raw_metrics done acc ->
            fold_raising (normalize_metric (info_of council) sources_data raw_metrics db)
                         rest acc = Ok built ->
            loop_invariant raw_metrics STANDARDIZED_METRICS built).
  { induction rest as [| m rest IH]; intros done acc Hsplit Hinv; cbn [fold_raising].
    - intros [= <-]. rewrite app_nil_r in Hsplit. now rewrite <- Hsplit.
    - destruct (normalize_metric _ _ _ _ acc m) as [acc1 | e] eqn:E1; cbn [bind];
        [| discriminate].
      apply (IH (done ++ [m])%list).
      + rewrite <- app_assoc. exact Hsplit.
      + apply (normalize_metric_invariant done m acc acc1); try assumption.
        * rewrite <- Hsplit. apply in_or_app. right. now left.
        * pose proof catalog_names_distinct as Hnd. rewrite <- Hsplit in Hnd.
          rewrite map_app in Hnd. cbn [map] in Hnd. apply NoDup_remove_2 in Hnd.
          intros Hd. apply Hnd. apply in_or_app. now left. }
  apply (Hgen STANDARDIZED_METRICS [] ([], 0%nat)); [reflexivity |].
  split; [reflexivity |]. split; [cbn; lia |]. split; intros ? ?; contradiction.
Qed.

End Pipeline.

Section Profiles.
Context `{Builtins}.

Lemma normalize_council_data_built (council_id : Z)
  (sources_data : list (string * list (string * Payload))) (db : Session)
  (nd : NormalizedData) :
  normalize_council_data council_id sources_data db = Ok (Some nd) ->
  exists council n,
    find (fun c => (id c =? council_id)%Z) (councils db) = Some council
    /\ standardize (info_of council) sources_data (collect_raw_metrics sources_data) db
       = Ok (standardized_metrics nd, n)
    /\ coverage_score nd
       = (of_nat n / of_nat (List.length STANDARDIZED_METRICS))%Q.
Proof.
  unfold normalize_council_data, get_council_info.
  destruct (find _ (councils db)) as [council |]; [| discriminate].
  destruct (standardize (info_of council) sources_data _ db) as [[std n] | e] eqn:Hstd;
    cbn [bind]; [| discriminate].
  intros [= <-]. exists council, n. cbn [standardized_metrics coverage_score].
  split; [reflexivity | split; [exact Hstd | reflexivity]].
Qed.

(** X22: every observation of a profile [normalize_council_data] builds is
    filed under a canonical name, has source [multiple_sources] and
    confidence [high], and its raw value is a value of the raw map: the
    [estimated] branch is never taken, the council record having no
    population served. *)
Theorem profile_never_estimated (council_id : Z)
  (sources_data : list (string * list (string * Payload))) (db : Session)
  (nd : NormalizedData) (key : string) (obs : Observation) :
  normalize_council_data council_id sources_data db = Ok (Some nd) ->
  In (key, obs) (standardized_metrics nd) ->
  In key (map canonical_name STANDARDIZED_METRICS)
  /\ source obs = "multiple_sources" /\ confidence obs = "high"
  /\ exists k, In (k, raw_value obs) (collect_raw_metrics sources_data).
Proof.
  intros Hnd Hin.
  destruct (normalize_council_data_built _ _ _ _ Hnd) as (council & n & _ & Hstd & _).
  destruct (standardize_invariant _ _ _ _ _ Hstd) as (_ & _ & Hkeys & Hobs). cbn [fst] in *.
  split; [apply Hkeys; apply (in_map fst) in Hin; exact Hin |].
  apply (Hobs key obs Hin).
Qed.

(** X23: the coverage score of a profile is the number of its
    observations divided by the 14 metrics of the catalog, hence between 0
    and 1. *)
Theorem coverage_score_counts_entries (council_id : Z)
  (sources_data : list (string * list (string * Payload))) (db : Session)
  (nd : NormalizedData) :
  normalize_council_data council_id sources_data db = Ok (Some nd) ->
  (coverage_score nd == of_nat (List.length (standardized_metrics nd)) / 14)%Q
  /\ (List.length (standardized_metrics nd) <= 14)%nat
  /\ (0 <= coverage_score nd <= 1)%Q.
Proof.
  intros Hnd.
  destruct (normalize_council_data_built _ _ _ _ Hnd) as (council & n & _ & Hstd & ->).
  destruct (standardize_invariant _ _ _ _ _ Hstd) as (Hcount & Hlen & _).
  cbn [fst snd] in *. subst n. change (List.length STANDARDIZED_METRICS) with 14%nat in *.
  change (of_nat 14) with 14%Q.
  split; [reflexivity |]. split; [exact Hlen |].
  apply of_nat_le in Hlen. change (of_nat 14) with 14%Q in Hlen.
  assert (Hpos : (0 <= of_nat (List.length (standardized_metrics nd)))%Q).
  { change 0%Q with (of_nat 0). apply of_nat_le. lia. }
  set (k := of_nat (List.length (standardized_metrics nd))) in *.
  unfold Qdiv. change (/ 14)%Q with (1 # 14)%Q. lra.
Qed.

End Profiles.

(** One metric out of fourteen. *)
Lemma coverage_score_counts_entries_witness :
  exists nd,
    normalize_council_data 1 Examples.recycling_report Examples.alpha_db = Ok (Some nd)
    /\ (0 <= coverage_score nd <= 1)%Q.
Proof.
  eexists. split; [vm_compute; reflexivity |].
  refine (proj2 (proj2 (coverage_score_counts_entries 1 Examples.recycling_report
                          Examples.alpha_db _ _))).
  vm_compute. reflexivity.
Defined.

(** The profile built from the recycling report. *)
Lemma profile_never_estimated_witness :
  exists nd obs,
    normalize_council_data 1 Examples.recycling_report Examples.alpha_db = Ok (Some nd)
    /\ In ("waste_recycling_rate", obs) (standardized_metrics nd)
    /\ source obs = "multiple_sources".
Proof.
  do 2 eexists. split; [vm_compute; reflexivity |]. split; [left; reflexivity |].
  refine (proj1 (proj2 (profile_never_estimated 1 Examples.recycling_report
                          Examples.alpha_db _ "waste_recycling_rate" _ _ _))).
  - vm_compute. reflexivity.
  - left. reflexivity.
Defined.

Section Failure.
Context `{Builtins}.

Lemma peer_query_needs_population (council : Council) (db : Session) :
  population council = None ->
  get_peer_council_data (info_of council) db = Raise TypeError.
Proof. intros Hp. unfold get_peer_council_data, info_of. rewrite Hp. reflexivity. Qed.

Lemma standardize_type_error (council : Council)
  (sources_data : list (string * list (string * Payload)))
  (raw_metrics : list (string * py_value)) (db : Session) (m : StandardizedMetric)
  (rest : list StandardizedMetric) (acc : list (string * Observation) * nat) :
  population council = None ->
  (forall x, In x rest -> In x STANDARDIZED_METRICS) ->
  In m rest ->
  find_matching_raw_metric (canonical_name m) raw_metrics (Some (state council)) = Ok None ->
  fold_raising (normalize_metric (info_of council) sources_data raw_metrics db) rest acc
  = Raise TypeError.
Proof.
  intros Hp Hsub Hin Hnone. revert acc.
  induction rest as [| x rest IH]; intros acc; [contradiction |].
  cbn [fold_raising].
  assert (Hstep : (exists acc1, normalize_metric (info_of council) sources_data raw_metrics
                                  db acc x = Ok acc1
                               /\ find_matching_raw_metric (canonical_name x) raw_metrics
                                    (Some (state council)) <> Ok None)
                  \/ normalize_metric (info_of council) sources_data raw_metrics db acc x
                     = Raise TypeError).
  { unfold normalize_metric. destruct acc as [std n].
    change (state_of_info (info_of council)) with (Some (state council)).
    destruct (find_matching_raw_metric_ok x raw_metrics (Some (state council))
                (Hsub x (or_introl eq_refl))) as (r & Er).
    rewrite Er. cbn [bind]. destruct r as [matched |].
    - destruct (normalize_value_ok metric_normalizer matched (canonical_name x)
                  (Some (info_of council))) as [v ->].
      cbn [bind]. left. eexists. split; [reflexivity | discriminate].
    - right. unfold estimate_missing_metric_for.
      rewrite (peer_query_needs_population council db Hp). reflexivity. }
  destruct Hstep as [(acc1 & -> & Hmatched) | ->]; [| reflexivity].
  cbn [bind]. apply IH.
  - intros y Hy. apply Hsub. now right.
  - destruct Hin as [-> | Hin]; [contradiction | exact Hin].
Qed.

(** X24: for a council whose population is not recorded no profile is
    built as soon as one catalog metric has no raw match: the peer query
    multiplies the missing population and [normalize_council_data] raises
    [TypeError]. *)
Theorem profile_needs_population (council_id : Z)
  (sources_data : list (string * list (string * Payload))) (db : Session)
  (council : Council) (m : StandardizedMetric) :
  find (fun c => (id c =? council_id)%Z) (councils db) = Some council ->
  population council = None ->
  In m STANDARDIZED_METRICS ->
  find_matching_raw_metric (canonical_name m) (collect_raw_metrics sources_data)
                           (Some (state council)) = Ok None ->
  normalize_council_data council_id sources_data db = Raise TypeError.
Proof.
  intros Hfind Hp Hin Hnone. unfold normalize_council_data, get_council_info.
  rewrite Hfind. unfold standardize.
  rewrite (standardize_type_error council sources_data _ db m STANDARDIZED_METRICS
             ([], 0%nat) Hp (fun x Hx => Hx) Hin Hnone).
  reflexivity.
Qed.

End Failure.

(** A council without a population and without sources. *)
Lemma profile_needs_population_witness :
  normalize_council_data 3 [] Cases.gamma_db = Raise TypeError.
Proof.
  apply (profile_needs_population 3 [] Cases.gamma_db Cases.gamma
           Examples.waste_recycling_rate).
  - reflexivity.
  - reflexivity.
  - cbn. do 8 right. left. reflexivity.
  - vm_compute. reflexivity.
Defined.

Lemma dict_get_mem {V} (k : string) (d : list (string * V)) :
  dict_mem k d = true <-> In k (map fst d).
Proof.
  unfold dict_mem. induction d as [| [k0 w] d IH]; cbn.
  - split; [discriminate | contradiction].
  - destruct (k0 =? k) eqn:E.
    + apply String.eqb_eq in E. split; auto.
    + apply String.eqb_neq in E. rewrite IH. split; [auto | intros [? | ?]; [contradiction | auto]].
Qed.

(** X25: a raw key is kept as unique data exactly when one of its values
    equals the raw value of no observation, whatever the key: a raw metric
    whose value happens to equal a value taken for a standardized metric is
    left out.  What is kept is a raw entry under its own key, typed by
    [_infer_data_type]. *)
Theorem unique_data_excludes_used_values (raw_metrics : list (string * py_value))
  (standardized : list (string * Observation)) (key : string) :
  (dict_mem key (extract_unique_data raw_metrics standardized) = true
   <-> exists v, In (key, v) raw_metrics /\ used_in_standardization standardized v = false)
  /\ forall u, dict_get key (extract_unique_data raw_metrics standardized) = Some u ->
       In (key, u_value u) raw_metrics
       /\ used_in_standardization standardized (u_value u) = false
       /\ u_type u = infer_data_type key.
Proof.
  unfold extract_unique_data.
  set (step := fun unique_data entry => _).
  assert (Hgen : forall rest acc,
            (In key (map fst (fold_left step rest acc))
             <-> In key (map fst acc)
                 \/ exists v, In (key, v) rest /\ used_in_standardization standardized v = false)
            /\ forall u, dict_get key (fold_left step rest acc) = Some u ->
                 dict_get key acc = Some u
                 \/ (In (key, u_value u) rest
                     /\ used_in_standardization standardized (u_value u) = false
                     /\ u_type u = infer_data_type key)).
  { induction rest as [| [raw_name v] rest IH]; intros acc; cbn [fold_left].
    - split; [| auto]. split; [auto |]. intros [Hk | (v & [] & _)]. exact Hk.
    - destruct (IH (step acc (raw_name, v))) as [IHk IHv]. split.
      + rewrite IHk. unfold step. cbv beta iota zeta.
        fold (used_in_standardization standardized v).
        destruct (used_in_standardization standardized v) eqn:Eu.
        * split.
          -- intros [Hk | (w & Hw & Ew)]; [auto | right; exists w; split; [now right | exact Ew]].
          -- intros [Hk | (w & [[= -> ->] | Hw] & Ew)]; [auto | congruence | eauto].
        * rewrite dict_set_keys. split.
          -- intros [[-> | Hk] | (w & Hw & Ew)].
             ++ right. exists v. split; [now left | exact Eu].
             ++ auto.
             ++ right. exists w. split; [now right | exact Ew].
          -- intros [Hk | (w & [[= -> ->] | Hw] & Ew)]; [auto | auto | eauto].
      + intros u Hu. destruct (IHv u Hu) as [Hacc | (Hin & Hun & Hty)].
        * unfold step in Hacc. cbv beta iota zeta in Hacc.
          fold (used_in_standardization standardized v) in Hacc.
          destruct (used_in_standardization standardized v) eqn:Eu; [auto |].
          destruct (string_dec raw_name key) as [-> | Hne].
          -- rewrite dict_get_set_same in Hacc. injection Hacc as <-.
             right. cbn. split; [now left | split; [exact Eu | reflexivity]].
          -- rewrite (dict_get_set_other key raw_name) in Hacc by exact Hne. auto.
        * right. split; [now right | split; assumption]. }
  destruct (Hgen raw_metrics []) as [Hk Hv]. split.
  - rewrite dict_get_mem, Hk. cbn. tauto.
  - intros u Hu. destruct (Hv u Hu) as [Hnil | Hok]; [discriminate | exact Hok].
Qed.

(** ** The aggregates of a state *)





Lemma numbers_length (values : list py_value) (xs : list Q) :
  numbers values = Ok xs -> List.length xs = List.length values.
Proof.
  revert xs. induction values as [| v rest IH]; intros xs; cbn.
  - now intros [= <-].
  - destruct (as_number v); [| discriminate].
    destruct (numbers rest) as [ys | e]; cbn [bind]; [| discriminate].
    intros [= <-]. cbn. f_equal. now apply IH.
Qed.

Lemma collect_values_length (canonical : string) (all_council_data : list NormalizedData) :
  (List.length (collect_values canonical all_council_data)
   <= List.length all_council_data)%nat.
Proof.
  induction all_council_data as [| nd rest IH]; cbn; [lia |].
  destruct (dict_get canonical (standardized_metrics nd)) as [obs |]; [| lia].
  destruct (is_none (value obs)); cbn; lia.
Qed.

Section StateAggregation.
Context `{Builtins}.

Lemma normalised_councils_length
  (sources_of : Z -> list (string * list (string * Payload))) (db : Session)
  (selected : list Council) (acc all_council_data : list NormalizedData) :
  fold_raising (fun acc council =>
                  normalized <- normalize_council_data (id council) (sources_of (id council)) db ;;
                  Ok (match normalized with
                      | Some nd => (acc ++ [nd])%list
                      | None => acc
                      end))
               selected acc = Ok all_council_data ->
  (List.length all_council_data <= List.length acc + List.length selected)%nat.
Proof.
  revert acc. induction selected as [| c rest IH]; intros acc; cbn [fold_raising].
  - intros [= <-]. cbn. lia.
  - destruct (normalize_council_data _ _ db) as [normalized | e]; cbn [bind]; [| discriminate].
    intros Hrest. apply IH in Hrest.
    destruct normalized; [rewrite length_app in Hrest |]; cbn in *; lia.
Qed.

(** X27: every coverage figure [aggregate_state_data] stores is a share:
    greater than 0 and at most 1, of a state with at least one council, and
    filed under a canonical name; the number of councils reported is the
    number of councils of the state. *)
Theorem state_coverage_is_a_share (region : string)
  (sources_of : Z -> list (string * list (string * Payload))) (db : Session)
  (aggregation : StateAggregation) (key : string) (agg : MetricAggregate) :
  aggregate_state_data region sources_of db = Ok aggregation ->
  dict_get key (per_metric aggregation) = Some agg ->
  total_councils aggregation
  = List.length (filter (fun c => state c =? region) (councils db))
  /\ (0 < total_councils aggregation)%nat
  /\ (0 < coverage agg <= 1)%Q
  /\ In key (map canonical_name STANDARDIZED_METRICS).
Proof.
  unfold aggregate_state_data.
  set (selected := filter _ (councils db)).
  destruct (fold_raising _ selected []) as [all_council_data | e] eqn:Eall; cbn [bind];
    [| discriminate].
  apply normalised_councils_length in Eall. cbn [List.length Nat.add] in Eall.
  set (body := fun acc metric => _).
  set (good := fun (k : string) (a : MetricAggregate) =>
                 (0 < List.length selected)%nat /\ (0 < coverage a <= 1)%Q
                 /\ In k (map canonical_name STANDARDIZED_METRICS)).
  assert (Hinv : forall metrics acc acc',
             (forall m, In m metrics -> In m STANDARDIZED_METRICS) ->
             (forall k a, dict_get k acc = Some a -> good k a) ->
             fold_raising body metrics acc = Ok acc' ->
             forall k a, dict_get k acc' = Some a -> good k a).
  { induction metrics as [| m rest IH]; intros acc acc' Hsub Hacc; cbn [fold_raising].
    - intros [= <-]. exact Hacc.
    - destruct (body acc m) as [acc1 | e] eqn:Ebody; cbn [bind]; [| discriminate].
      apply IH; [intros m' Hm'; apply Hsub; now right |]. unfold body in Ebody.
      destruct (numbers _) as [values | e] eqn:Enum; cbn [bind] in Ebody; [| discriminate].
      injection Ebody as <-.
      destruct (aggregate_values _ _ values) as [a1 |] eqn:Eagg; [| exact Hacc].
      intros k a Hk.
      destruct (string_dec (canonical_name m) k) as [<- | Hne].
      + rewrite dict_get_set_same in Hk. injection Hk as <-.
        apply numbers_length in Enum.
        pose proof (collect_values_length (canonical_name m) all_council_data) as Hlen.
        destruct values as [| v0 vs] eqn:Ev; [discriminate |].
        rewrite <- Ev in *. cbn [aggregate_values] in Eagg. rewrite Ev in Eagg.
        cbn [aggregate_values] in Eagg. rewrite <- Ev in Eagg.
        injection Eagg as <-. cbn [coverage].
        assert (Hpos : (0 < List.length values)%nat) by (rewrite Ev; cbn; lia).
        assert (Hle : (List.length values <= List.length selected)%nat) by lia.
        split; [lia |]. split; [| apply in_map, Hsub; now left].
        assert (Hs : (0 < of_nat (List.length selected))%Q) by (apply of_nat_pos; lia).
        apply of_nat_pos in Hpos. apply of_nat_le in Hle.
        split.
        * apply Qlt_shift_div_l; [exact Hs | lra].
        * apply Qle_shift_div_r; [exact Hs | lra].
      + rewrite (dict_get_set_other k (canonical_name m)) in Hk by exact Hne.
        exact (Hacc k a Hk). }
  destruct (fold_raising body STANDARDIZED_METRICS []) as [entries | e] eqn:Efold;
    cbn [bind]; [| discriminate].
  intros [= <-]. cbn [per_metric total_councils]. intros Hk.
  assert (Hnil : forall k a, dict_get k (@nil (string * MetricAggregate)) = Some a -> good k a)
    by (intros k a E; discriminate E).
  destruct (Hinv STANDARDIZED_METRICS [] entries (fun m Hm => Hm) Hnil Efold key agg Hk)
    as (Hpos & Hcov & Hname).
  split; [reflexivity |]. split; [exact Hpos |]. split; [exact Hcov | exact Hname].
Qed.

End StateAggregation.

(** Victoria with its one council and the recycling report. *)
Lemma state_coverage_is_a_share_witness :
  exists aggregation agg,
    aggregate_state_data "Victoria" (fun _ => Examples.recycling_report) Examples.alpha_db
    = Ok aggregation
    /\ dict_get "waste_recycling_rate" (per_metric aggregation) = Some agg
    /\ (0 < coverage agg <= 1)%Q.
Proof.
  do 2 eexists. split; [vm_compute; reflexivity |]. split; [vm_compute; reflexivity |].
  refine (proj1 (proj2 (proj2 (state_coverage_is_a_share "Victoria"
                                 (fun _ => Examples.recycling_report) Examples.alpha_db
                                 _ "waste_recycling_rate" _ _ _)))).
  - vm_compute. reflexivity.
  - vm_compute. reflexivity.
Defined.

(** ** The comparison of councils *)

Lemma py_lt_numbers (a b : Z * py_value) :
  as_number (snd a) <> None -> as_number (snd b) <> None ->
  py_lt (snd a) (snd b) = Ok (Qlt_b (key_of a) (key_of b)).
Proof.
  unfold key_of, py_lt.
  destruct (snd a), (snd b); cbn; intros Ha Hb; congruence.
Qed.

Lemma insert_by_value_ok (x : Z * py_value) (l : list (Z * py_value)) :
  numeric (x :: l) -> StronglySorted le_key l ->
  exists r, insert_by_value x l = Ok r /\ Permutation (x :: l) r /\ StronglySorted le_key r.
Proof.
  intros Hnum. inversion Hnum as [| ? ? Hx Hl]; subst. clear Hnum.
  induction l as [| y rest IH]; intros Hs; cbn [insert_by_value].
  - exists [x]. split; [reflexivity |]. split; [apply Permutation_refl |].
    constructor; constructor.
  - inversion Hl as [| ? ? Hy Hrest]; subst. inversion Hs as [| ? ? Hs' Hall]; subst.
    rewrite (py_lt_numbers y x Hy Hx). cbn [bind].
    destruct (Qlt_b (key_of y) (key_of x)) eqn:E.
    + apply Qlt_b_true in E.
      destruct (IH Hrest Hs') as (r & -> & Hperm & Hsorted). cbn [bind].
      exists (y :: r). split; [reflexivity |]. split.
      * eapply Permutation_trans; [apply perm_swap | apply perm_skip, Hperm].
      * constructor; [exact Hsorted |].
        apply (Permutation_Forall Hperm). constructor; [| exact Hall].
        unfold le_key. lra.
    + apply Qlt_b_false in E.
      exists (x :: y :: rest). split; [reflexivity |]. split; [apply Permutation_refl |].
      constructor; [exact Hs |]. constructor; [exact E |].
      rewrite Forall_forall in Hall |- *. intros z Hz. specialize (Hall z Hz).
      unfold le_key in *. lra.
Qed.

Lemma sort_by_value_ok (l : list (Z * py_value)) :
  numeric l ->
  exists s, sort_by_value l = Ok s /\ Permutation l s /\ StronglySorted le_key s.
Proof.
  induction l as [| x rest IH]; intros Hnum; cbn [sort_by_value].
  - exists []. split; [reflexivity |]. split; [apply Permutation_refl | constructor].
  - inversion Hnum as [| ? ? Hx Hrest]; subst.
    destruct (IH Hrest) as (tail & -> & Hperm & Hsorted). cbn [bind].
    assert (Hnum' : numeric (x :: tail)).
    { constructor; [exact Hx |]. apply (Permutation_Forall Hperm), Hrest. }
    destruct (insert_by_value_ok x tail Hnum' Hsorted) as (r & -> & Hperm' & Hsorted').
    exists r. split; [reflexivity |]. split; [| exact Hsorted'].
    eapply Permutation_trans; [apply perm_skip, Hperm | exact Hperm'].
Qed.

Lemma strongly_sorted_snoc {A} (R : A -> A -> Prop) (l : list A) (a : A) :
  StronglySorted R l -> Forall (fun x => R x a) l -> StronglySorted R (l ++ [a]).
Proof.
  induction 1 as [| x l Hs IH Hall]; intros Ha; cbn.
  - constructor; constructor.
  - inversion Ha as [| ? ? Hxa Hla]; subst.
    constructor; [apply IH, Hla |].
    apply Forall_app. split; [exact Hall | constructor; [exact Hxa | constructor]].
Qed.

Lemma strongly_sorted_rev (l : list (Z * py_value)) :
  StronglySorted le_key l -> StronglySorted ge_key (rev l).
Proof.
  induction 1 as [| x l Hs IH Hall]; cbn; [constructor |].
  apply strongly_sorted_snoc; [exact IH |].
  apply Forall_rev. exact Hall.
Qed.

Lemma sorted_by_value_ok (reverse : bool) (values : list (Z * py_value)) :
  numeric values ->
  exists s, sorted_by_value reverse values = Ok s /\ Permutation values s
            /\ StronglySorted (if reverse then ge_key else le_key) s.
Proof.
  intros Hnum. unfold sorted_by_value. destruct reverse.
  - assert (Hrev : numeric (rev values)) by (apply Forall_rev, Hnum).
    destruct (sort_by_value_ok (rev values) Hrev) as (s & -> & Hperm & Hsorted).
    cbn [bind]. exists (rev s). split; [reflexivity |]. split.
    + eapply Permutation_trans; [apply Permutation_rev |].
      eapply Permutation_trans; [exact Hperm | apply Permutation_rev].
    + apply strongly_sorted_rev, Hsorted.
  - apply sort_by_value_ok, Hnum.
Qed.

Lemma id_get_set_same {V} (k : Z) (v : V) (d : list (Z * V)) :
  id_get k (id_set k v d) = Some v.
Proof.
  induction d as [| [k' w] d IH]; cbn.
  - now rewrite Z.eqb_refl.
  - destruct (k' =? k)%Z eqn:E; cbn; rewrite E; [reflexivity | exact IH].
Qed.

Lemma id_get_set_other {V} (k k' : Z) (v : V) (d : list (Z * V)) :
  k' <> k -> id_get k (id_set k' v d) = id_get k d.
Proof.
  intros Hne. apply Z.eqb_neq in Hne.
  induction d as [| [k0 w] d IH]; cbn.
  - now rewrite Hne.
  - destruct (k0 =? k')%Z eqn:E; cbn.
    + apply Z.eqb_eq in E. subst k0. now rewrite Hne.
    + destruct (k0 =? k)%Z; [reflexivity | exact IH].
Qed.

Lemma enumerate_ranks_other (c : Z) (s : list (Z * py_value)) (k : nat) (acc : list (Z * nat)) :
  ~ In c (map fst s) -> id_get c (enumerate_ranks k s acc) = id_get c acc.
Proof.
  revert k acc. induction s as [| [cid v] rest IH]; intros k acc Hnot; cbn; [reflexivity |].
  rewrite IH by (intros Hin; apply Hnot; now right).
  apply id_get_set_other. intros ->. apply Hnot. now left.
Qed.

Lemma enumerate_ranks_nth (s : list (Z * py_value)) (k i : nat) (acc : list (Z * nat))
  (entry : Z * py_value) :
  NoDup (map fst s) -> nth_error s i = Some entry ->
  id_get (fst entry) (enumerate_ranks k s acc) = Some (k + i)%nat.
Proof.
  revert k i acc. induction s as [| [cid v] rest IH]; intros k i acc Hnd Hnth.
  - destruct i; discriminate.
  - cbn [map fst] in Hnd. inversion Hnd as [| ? ? Hnotin Hnd']; subst.
    cbn [enumerate_ranks]. destruct i as [| j]; cbn in Hnth.
    + injection Hnth as <-. cbn [fst].
      rewrite enumerate_ranks_other by exact Hnotin.
      rewrite id_get_set_same. f_equal. lia.
    + rewrite (IH (S k) j _ Hnd' Hnth). f_equal. lia.
Qed.

Lemma strongly_sorted_nth {A} (R : A -> A -> Prop) (l : list A) (i j : nat) (a b : A) :
  StronglySorted R l -> (i < j)%nat ->
  nth_error l i = Some a -> nth_error l j = Some b -> R a b.
Proof.
  intros Hs. revert i j. induction Hs as [| x l Hs IH Hall]; intros i j Hij Ha Hb.
  - destruct i; discriminate.
  - destruct j as [| j]; [lia |]. cbn in Hb. destruct i as [| i]; cbn in Ha.
    + injection Ha as <-. rewrite Forall_forall in Hall.
      apply Hall. apply (nth_error_In _ _ Hb).
    + apply (IH i j); [lia | assumption | assumption].
Qed.

(** X28: the ranking of one metric, for numeric values of distinct
    councils: every council with a value gets a rank between 1 and the
    number of such councils, no two councils share a rank, and a better rank
    never goes with a worse value (a smaller one when lower is better, a
    greater one otherwise). *)
Theorem ranking_follows_values (lower_better : bool) (values : list (Z * py_value)) :
  numeric values -> NoDup (map fst values) ->
  exists ranks,
    rank_councils lower_better values = Ok ranks
    /\ (forall c, In c (map fst values) <-> exists r, id_get c ranks = Some r)
    /\ (forall c r, id_get c ranks = Some r -> (1 <= r <= List.length values)%nat)
    /\ (forall c1 c2 r, id_get c1 ranks = Some r -> id_get c2 ranks = Some r -> c1 = c2)
    /\ (forall e1 e2 r1 r2,
          In e1 values -> In e2 values ->
          id_get (fst e1) ranks = Some r1 -> id_get (fst e2) ranks = Some r2 ->
          (r1 < r2)%nat ->
          if lower_better then (key_of e1 <= key_of e2)%Q else (key_of e2 <= key_of e1)%Q).
Proof.
  intros Hnum Hnd. unfold rank_councils.
  destruct (sorted_by_value_ok (negb lower_better) values Hnum) as (s & -> & Hperm & Hsorted).
  cbn [bind]. eexists. split; [reflexivity |].
  assert (Hnd' : NoDup (map fst s)).
  { apply (Permutation_NoDup (Permutation_map fst Hperm)), Hnd. }
  assert (Hrank : forall e, In e s ->
            exists i, nth_error s i = Some e /\ (i < List.length s)%nat
                      /\ id_get (fst e) (enumerate_ranks 1 s []) = Some (1 + i)%nat).
  { intros e He. apply In_nth_error in He as [i Hi]. exists i.
    split; [exact Hi |]. split; [apply nth_error_Some; congruence |].
    apply enumerate_ranks_nth; assumption. }
  assert (Hlen : List.length s = List.length values)
    by (symmetry; apply Permutation_length, Hperm).
  assert (Hin_s : forall e, In e values <-> In e s).
  { intros e. split; apply Permutation_in; [exact Hperm | apply Permutation_sym, Hperm]. }
  assert (Hkeys : forall c r, id_get c (enumerate_ranks 1 s []) = Some r ->
                    exists e, In e s /\ fst e = c).
  { intros c r Hr. destruct (in_dec Z.eq_dec c (map fst s)) as [Hc | Hc].
    - apply in_map_iff in Hc as (e & <- & He). eauto.
    - rewrite enumerate_ranks_other in Hr by exact Hc. discriminate. }
  split; [| split; [| split]].
  - intros c. split.
    + intros Hc. apply in_map_iff in Hc as (e & <- & He). apply Hin_s in He.
      destruct (Hrank e He) as (i & _ & _ & Hr). eauto.
    + intros [r Hr]. destruct (Hkeys c r Hr) as (e & He & <-).
      apply in_map, Hin_s, He.
  - intros c r Hr. destruct (Hkeys c r Hr) as (e & He & <-).
    destruct (Hrank e He) as (i & _ & Hi & Hr'). rewrite Hr' in Hr. injection Hr as <-. lia.
  - intros c1 c2 r H1 H2.
    destruct (Hkeys c1 r H1) as (e1 & He1 & <-). destruct (Hkeys c2 r H2) as (e2 & He2 & <-).
    destruct (Hrank e1 He1) as (i1 & Hn1 & _ & Hr1).
    destruct (Hrank e2 He2) as (i2 & Hn2 & _ & Hr2).
    rewrite Hr1 in H1. rewrite Hr2 in H2.
    assert (i1 = i2) by (injection H1; injection H2; lia). subst i2.
    congruence.
  - intros e1 e2 r1 r2 He1 He2 H1 H2 Hlt.
    apply Hin_s in He1. apply Hin_s in He2.
    destruct (Hrank e1 He1) as (i1 & Hn1 & _ & Hr1).
    destruct (Hrank e2 He2) as (i2 & Hn2 & _ & Hr2).
    rewrite Hr1 in H1. rewrite Hr2 in H2. injection H1 as <-. injection H2 as <-.
    assert (Hi : (i1 < i2)%nat) by lia.
    pose proof (strongly_sorted_nth _ s i1 i2 e1 e2 Hsorted Hi Hn1 Hn2) as Hord.
    destruct lower_better; cbn [negb] in Hord; exact Hord.
Qed.

(** Three councils, two of them level. *)
Lemma ranking_follows_values_witness :
  exists ranks,
    rank_councils false Cases.three_values = Ok ranks
    /\ forall c, In c [1; 2; 3]%Z <-> exists r, id_get c ranks = Some r.
Proof.
  destruct (ranking_follows_values false Cases.three_values) as (ranks & Hr & Hkeys & _).
  - repeat (apply Forall_cons; [cbn; discriminate |]). apply Forall_nil.
  - cbn. repeat (apply NoDup_cons; [cbn; intuition discriminate |]). apply NoDup_nil.
  - exists ranks. split; [exact Hr | exact Hkeys].
Defined.

Lemma collect_comparison_values (canonical : string) (councils : list NormalizedData) :
  snd (collect_comparison canonical councils) = valued_councils canonical councils.
Proof.
  unfold collect_comparison, valued_councils.
  set (step := fun state council_data => _).
  set (one := fun council_data => _).
  assert (Hgen : forall l state, snd (fold_left step l state) = (snd state ++ flat_map one l)%list).
  { induction l as [| nd rest IH]; intros state; cbn [fold_left flat_map].
    - now rewrite app_nil_r.
    - rewrite IH.
      assert (Hstep : snd (step state nd) = (snd state ++ one nd)%list).
      { unfold step, one.
        destruct (dict_get canonical (standardized_metrics nd)) as [obs |];
          [| now rewrite app_nil_r].
        cbn [snd]. destruct (is_none (value obs)); [now rewrite app_nil_r | reflexivity]. }
      now rewrite Hstep, <- app_assoc. }
  apply (Hgen councils ([], [])).
Qed.

Section ComparisonData.
Context `{Builtins}.

(** X29: every ranking [generate_comparison_data] stores is filed under
    the canonical name of a catalog metric and is the ranking, in the sense
    of that metric, of the councils compared that have a value for it, in
    the order they were asked for; a metric no council has a value for gets
    no ranking. *)
Theorem comparison_ranks_valued_councils (council_ids : list Z)
  (sources_of : Z -> list (string * list (string * Payload))) (db : Session)
  (comparison : ComparisonData) (key : string) (ranks : list (Z * nat)) :
  generate_comparison_data council_ids sources_of db = Ok comparison ->
  dict_get key (cmp_ranking comparison) = Some ranks ->
  exists metric,
    In metric STANDARDIZED_METRICS /\ canonical_name metric = key
    /\ valued_councils key (cmp_councils comparison) <> []
    /\ rank_councils (lower_is_better metric)
                     (valued_councils key (cmp_councils comparison)) = Ok ranks.
Proof.
  unfold generate_comparison_data.
  destruct (fold_raising _ council_ids []) as [councils | e]; cbn [bind]; [| discriminate].
  set (body := fun acc metric => _).
  set (good := fun (k : string) (r : list (Z * nat)) =>
                 exists metric,
                   In metric STANDARDIZED_METRICS /\ canonical_name metric = k
                   /\ valued_councils k councils <> []
                   /\ rank_councils (lower_is_better metric) (valued_councils k councils)
                      = Ok r).
  assert (Hinv : forall metrics acc acc',
             (forall m, In m metrics -> In m STANDARDIZED_METRICS) ->
             (forall k r, dict_get k (snd acc) = Some r -> good k r) ->
             fold_raising body metrics acc = Ok acc' ->
             forall k r, dict_get k (snd acc') = Some r -> good k r).
  { induction metrics as [| m rest IH]; intros acc acc' Hsub Hacc; cbn [fold_raising].
    - intros [= <-]. exact Hacc.
    - destruct (body acc m) as [acc1 | e] eqn:Ebody; cbn [bind]; [| discriminate].
      apply IH; [intros m' Hm'; apply Hsub; now right |]. unfold body in Ebody.
      rewrite collect_comparison_values in Ebody.
      destruct (valued_councils (canonical_name m) councils) as [| v0 vs] eqn:Ev.
      + injection Ebody as <-. exact Hacc.
      + rewrite <- Ev in Ebody.
        destruct (rank_councils _ _) as [r1 | e] eqn:Er; cbn [bind] in Ebody; [| discriminate].
        injection Ebody as <-. cbn [snd]. intros k r Hk.
        destruct (string_dec (canonical_name m) k) as [<- | Hne].
        * rewrite dict_get_set_same in Hk. injection Hk as <-.
          exists m. split; [apply Hsub; now left |]. split; [reflexivity |].
          split; [rewrite Ev; discriminate | exact Er].
        * rewrite (dict_get_set_other k (canonical_name m)) in Hk by exact Hne.
          exact (Hacc k r Hk). }
  destruct (fold_raising body STANDARDIZED_METRICS ([], [])) as [built | e] eqn:Efold;
    cbn [bind]; [| discriminate].
  intros [= <-]. cbn [cmp_ranking cmp_councils]. intros Hk.
  apply (Hinv STANDARDIZED_METRICS ([], []) built (fun m Hm => Hm)); try assumption.
  intros k r E. discriminate E.
Qed.

End ComparisonData.

(** Council 1 compared with itself only. *)
Lemma comparison_ranks_valued_councils_witness :
  exists comparison ranks,
    generate_comparison_data [1%Z] (fun _ => Examples.recycling_report) Examples.alpha_db
    = Ok comparison
    /\ dict_get "waste_recycling_rate" (cmp_ranking comparison) = Some ranks
    /\ valued_councils "waste_recycling_rate" (cmp_councils comparison) <> [].
Proof.
  do 2 eexists. split; [vm_compute; reflexivity |]. split; [vm_compute; reflexivity |].
  refine ((fun H => match H with
                    | ex_intro _ _ (conj _ (conj _ (conj Hne _))) => Hne
                    end)
            (comparison_ranks_valued_councils [1%Z] (fun _ => Examples.recycling_report)
               Examples.alpha_db _ "waste_recycling_rate" _ _ _)).
  - vm_compute. reflexivity.
  - vm_compute. reflexivity.
Defined.

End FrameworkInvariants.
